(** * Quantum booking system: embedding of the Python sources and proofs

    The development follows the layout of the repository:

    - [Py]         the fragments of the Python runtime the sources rely on
                   (bytes, str, slicing, hex, base64, UTF-8, exceptions,
                   the [secrets] entropy source, [hashlib] / [hmac]);
    - [Config]     quantum_service/config.py;
    - [Entropy]    quantum_service/entropy.py;
    - [Encryptor]  quantum_service/encryptor.py;
    - [Decryptor]  quantum_service/decryptor.py;
    - [Signer]     quantum_service/signer.py;
    - [Store]      the MariaDB schema of init_db.py and the transactional
                   operations server.py issues against it;
    - [Server]     server.py;
    - [Session]    the handlers of server.py on a live connection.

    Part I holds the definitions, Part II the lemmas and theorems. *)

From Stdlib Require Import List NArith ZArith Lia Bool.
From Stdlib.Strings Require Import Byte Ascii String.
From Stdlib Require Import DecimalString.
Import ListNotations.

Set Implicit Arguments.

Open Scope string_scope.
Open Scope list_scope.

(* ===================================================================== *)
(** * Part I.  Definitions                                                *)
(* ===================================================================== *)

(** ** Python runtime fragments *)

Module Py.

Open Scope N_scope.

(** [bytes] objects are lists of octets; a [str] is a sequence of Unicode
    code points (which may contain lone surrogates, as Python allows). *)
Definition bytes := list byte.
Definition str := list N.

(** A string literal of the source, as a [str]. *)
Definition lit (s : string) : str :=
  map N_of_ascii (list_ascii_of_string s).

(** The octet [n mod 256]. *)
Definition byte_of_N (n : N) : byte :=
  match Byte.of_N (n mod 256) with
  | Some b => b
  | None => x00
  end.

(** The enumeration of all octets, [0 .. 255]. *)
Definition all_bytes : list byte :=
  map (fun i => byte_of_N (N.of_nat i)) (seq 0 256).

(** A bytes literal of the source ([b"..."]). *)
Definition blit (s : string) : bytes :=
  map (fun a => byte_of_N (N_of_ascii a)) (list_ascii_of_string s).

(** *** Exceptions *)

(** The exception classes that occur in the sources.  [SystemExit] is what
    [sys.exit] raises (config.json_error prints a JSON error object first;
    the printed message is kept).  It derives from [BaseException] only, so
    [except Exception] does not catch it. *)
Inductive exn : Type :=
| ValueError (msg : string)
| UnicodeEncodeError
| UnicodeDecodeError
| BinasciiError (msg : string)
| TypeError (msg : string)
| DatabaseError (msg : string)
| ZeroDivisionError
| IndexError
| SystemExit (code : Z) (printed_error : str).

(** [isinstance(e, ValueError)]: the Unicode errors and [binascii.Error]
    are subclasses of [ValueError]. *)
Definition is_ValueError (e : exn) : bool :=
  match e with
  | ValueError _ | UnicodeEncodeError | UnicodeDecodeError
  | BinasciiError _ => true
  | _ => false
  end.

(** [isinstance(e, Exception)]. *)
Definition is_Exception (e : exn) : bool :=
  match e with
  | SystemExit _ _ => false
  | _ => true
  end.

(** [isinstance(e, mysql.connector.Error)]. *)
Definition is_mysql_Error (e : exn) : bool :=
  match e with
  | DatabaseError _ => true
  | _ => false
  end.

(** [str(e)]. *)
Definition exn_str (e : exn) : str :=
  match e with
  | ValueError m | BinasciiError m | TypeError m | DatabaseError m => lit m
  | UnicodeEncodeError =>
      lit "'utf-8' codec can't encode character: surrogates not allowed"
  | UnicodeDecodeError => lit "'utf-8' codec can't decode byte"
  | ZeroDivisionError => lit "integer division or modulo by zero"
  | IndexError => lit "Cannot choose from an empty sequence"
  | SystemExit c _ => lit (NilZero.string_of_int (Z.to_int c))
  end.

(** Outcome of a call: a value or a raised exception. *)
Inductive result (A : Type) : Type :=
| Ok (a : A)
| Raise (e : exn).
Arguments Ok {A} a.
Arguments Raise {A} e.

Definition bind {A B} (c : result A) (k : A -> result B) : result B :=
  match c with
  | Ok a => k a
  | Raise e => Raise e
  end.

Definition is_ok {A} (c : result A) : bool :=
  match c with Ok _ => true | Raise _ => false end.

(** *** Sequences *)

(** Python resolves a negative slice bound against the length and clips
    the result to the sequence. *)
Definition slice_bound {A} (l : list A) (i : Z) : nat :=
  if (i <? 0)%Z then Z.to_nat (Z.max 0 (Z.of_nat (List.length l) + i))
  else Z.to_nat i.

(** [l[:i]] and [l[i:]]. *)
Definition slice_to {A} (i : Z) (l : list A) : list A :=
  firstn (slice_bound l i) l.
Definition slice_from {A} (i : Z) (l : list A) : list A :=
  skipn (slice_bound l i) l.

(** [l[i:j]]. *)
Definition slice {A} (i j : Z) (l : list A) : list A :=
  skipn (slice_bound l i) (firstn (slice_bound l j) l).

(** The sequence [l] with the element at index [i] replaced by [x] (the
    sequence itself when [i] is out of range). *)
Fixpoint tamper {A} (i : nat) (x : A) (l : list A) : list A :=
  match l, i with
  | [], _ => []
  | _ :: l', O => x :: l'
  | y :: l', S i' => y :: tamper i' x l'
  end.

(** [l * n]. *)
Fixpoint repeat_seq {A} (l : list A) (n : nat) : list A :=
  match n with
  | O => []
  | S n' => l ++ repeat_seq l n'
  end.

Definition bytes_eqb (a b : bytes) : bool :=
  if list_eq_dec Byte.byte_eq_dec a b then true else false.

Definition str_eqb (a b : str) : bool :=
  if list_eq_dec N.eq_dec a b then true else false.

(** [bytes(a ^ b for a, b in zip(x, y))]. *)
Fixpoint xor_zip (x y : bytes) : bytes :=
  match x, y with
  | a :: x', b :: y' =>
      byte_of_N (N.lxor (Byte.to_N a) (Byte.to_N b)) :: xor_zip x' y'
  | _, _ => []
  end.

(** [str(n)] for an integer. *)
Definition str_of_Z (z : Z) : str := lit (NilZero.string_of_int (Z.to_int z)).

(** *** Text: case and whitespace *)

(** [str.upper] maps ASCII letters itself; the mapping of the other code
    points comes from the Unicode database, which is a parameter. *)
Class Unicode := { unicode_upper : N -> str }.

Definition upper_char `{Unicode} (c : N) : str :=
  if (97 <=? c) && (c <=? 122) then [c - 32]
  else if c <? 128 then [c]
  else unicode_upper c.

Definition upper `{Unicode} (s : str) : str := flat_map upper_char s.

(** [str.isspace] for one code point (the Unicode White_Space set plus the
    information separators, as CPython has it). *)
Definition isspace (c : N) : bool :=
  ((9 <=? c) && (c <=? 13)) || ((28 <=? c) && (c <=? 32))
  || (c =? 133) || (c =? 160) || (c =? 5760)
  || ((8192 <=? c) && (c <=? 8202))
  || (c =? 8232) || (c =? 8233) || (c =? 8239) || (c =? 8287)
  || (c =? 12288).

Fixpoint lstrip (s : str) : str :=
  match s with
  | c :: s' => if isspace c then lstrip s' else s
  | [] => []
  end.

(** [s.strip()]. *)
Definition strip (s : str) : str := rev (lstrip (rev (lstrip s))).

(** *** Hexadecimal: [bytes.hex] and [bytes.fromhex] *)

Definition hex_digit (n : N) : N :=
  if n <? 10 then 48 + n else 87 + n.

Definition hex (b : bytes) : str :=
  flat_map (fun x => [hex_digit (Byte.to_N x / 16);
                      hex_digit (Byte.to_N x mod 16)]) b.

Definition hex_value (c : N) : option N :=
  if (48 <=? c) && (c <=? 57) then Some (c - 48)
  else if (97 <=? c) && (c <=? 102) then Some (c - 87)
  else if (65 <=? c) && (c <=? 70) then Some (c - 55)
  else None.

Definition is_ascii_space (c : N) : bool :=
  (c =? 32) || ((9 <=? c) && (c <=? 13)).

(** [bytes.fromhex]: ASCII whitespace between octets is skipped, anything
    else that is not a pair of hexadecimal digits raises [ValueError]. *)
Fixpoint fromhex (s : str) : result bytes :=
  match s with
  | [] => Ok []
  | c :: s' =>
      if is_ascii_space c then fromhex s'
      else
        match s' with
        | [] => Raise (ValueError "non-hexadecimal number found in fromhex() arg")
        | d :: s'' =>
            match hex_value c, hex_value d with
            | Some h, Some l =>
                bind (fromhex s'') (fun r => Ok (byte_of_N (16 * h + l) :: r))
            | _, _ =>
                Raise (ValueError "non-hexadecimal number found in fromhex() arg")
            end
        end
  end.

(** *** UTF-8 and ASCII codecs *)

Definition is_surrogate (c : N) : bool := (0xD800 <=? c) && (c <=? 0xDFFF).

(** [chr(c).encode('utf-8')]: lone surrogates are refused. *)
Definition utf8_encode_char (c : N) : result bytes :=
  if c <? 0x80 then Ok [byte_of_N c]
  else if c <? 0x800 then
    Ok [byte_of_N (0xC0 + c / 64); byte_of_N (0x80 + c mod 64)]
  else if c <? 0x10000 then
    if is_surrogate c then Raise UnicodeEncodeError
    else Ok [byte_of_N (0xE0 + c / 4096);
             byte_of_N (0x80 + (c / 64) mod 64);
             byte_of_N (0x80 + c mod 64)]
  else if c <? 0x110000 then
    Ok [byte_of_N (0xF0 + c / 262144);
        byte_of_N (0x80 + (c / 4096) mod 64);
        byte_of_N (0x80 + (c / 64) mod 64);
        byte_of_N (0x80 + c mod 64)]
  else Raise UnicodeEncodeError.

(** [s.encode('utf-8')]. *)
Fixpoint utf8_encode (s : str) : result bytes :=
  match s with
  | [] => Ok []
  | c :: s' =>
      bind (utf8_encode_char c) (fun b =>
      bind (utf8_encode s') (fun r => Ok (b ++ r)))
  end.

Definition is_cont (b : N) : bool := (0x80 <=? b) && (b <=? 0xBF).

(** [b.decode('utf-8')], strict: overlong forms, surrogates, code points
    above U+10FFFF and truncated sequences raise [UnicodeDecodeError]. *)
Fixpoint utf8_decode (b : bytes) : result str :=
  match b with
  | [] => Ok []
  | b0 :: r0 =>
      let n0 := Byte.to_N b0 in
      if n0 <? 0x80 then bind (utf8_decode r0) (fun s => Ok (n0 :: s))
      else
        match r0 with
        | [] => Raise UnicodeDecodeError
        | b1 :: r1 =>
            let n1 := Byte.to_N b1 in
            if (0xC2 <=? n0) && (n0 <=? 0xDF) then
              if is_cont n1 then
                bind (utf8_decode r1) (fun s =>
                  Ok (((n0 - 0xC0) * 64 + (n1 - 0x80)) :: s))
              else Raise UnicodeDecodeError
            else
              match r1 with
              | [] => Raise UnicodeDecodeError
              | b2 :: r2 =>
                  let n2 := Byte.to_N b2 in
                  if (0xE0 <=? n0) && (n0 <=? 0xEF) then
                    if is_cont n1 && is_cont n2
                       && negb ((n0 =? 0xE0) && (n1 <? 0xA0))
                       && negb ((n0 =? 0xED) && (0x9F <? n1))
                    then
                      bind (utf8_decode r2) (fun s =>
                        Ok (((n0 - 0xE0) * 4096 + (n1 - 0x80) * 64
                             + (n2 - 0x80)) :: s))
                    else Raise UnicodeDecodeError
                  else
                    match r2 with
                    | [] => Raise UnicodeDecodeError
                    | b3 :: r3 =>
                        let n3 := Byte.to_N b3 in
                        if (0xF0 <=? n0) && (n0 <=? 0xF4)
                           && is_cont n1 && is_cont n2 && is_cont n3
                           && negb ((n0 =? 0xF0) && (n1 <? 0x90))
                           && negb ((n0 =? 0xF4) && (0x8F <? n1))
                        then
                          bind (utf8_decode r3) (fun s =>
                            Ok (((n0 - 0xF0) * 262144 + (n1 - 0x80) * 4096
                                 + (n2 - 0x80) * 64 + (n3 - 0x80)) :: s))
                        else Raise UnicodeDecodeError
                    end
              end
        end
  end.

(** [s.encode('ascii')], as [base64.b64decode] applies it to a [str]
    argument (a non-ASCII character raises [ValueError]). *)
Fixpoint ascii_encode (s : str) : result bytes :=
  match s with
  | [] => Ok []
  | c :: s' =>
      if c <? 128 then bind (ascii_encode s') (fun r => Ok (byte_of_N c :: r))
      else Raise (ValueError "string argument should contain only ASCII characters")
  end.

Definition is_ascii_byte (b : byte) : Prop := Byte.to_N b < 128.

(** [b.decode('ascii')]. *)
Fixpoint ascii_decode (b : bytes) : result str :=
  match b with
  | [] => Ok []
  | x :: b' =>
      if Byte.to_N x <? 128
      then bind (ascii_decode b') (fun r => Ok (Byte.to_N x :: r))
      else Raise UnicodeDecodeError
  end.

(** *** Base64: [base64.b64encode] and [base64.b64decode] *)

Definition b64_alphabet : bytes :=
  blit "ABCDEFGHIJKLMNOPQRSTUVWXYZabcdefghijklmnopqrstuvwxyz0123456789+/".

Definition BASE64_PAD : byte := x3d.

Definition table_b2a_base64 (n : N) : byte :=
  nth (N.to_nat n) b64_alphabet x00.

Definition table_a2b_base64 (c : byte) : option N :=
  let n := Byte.to_N c in
  if (65 <=? n) && (n <=? 90) then Some (n - 65)
  else if (97 <=? n) && (n <=? 122) then Some (n - 71)
  else if (48 <=? n) && (n <=? 57) then Some (n + 4)
  else if n =? 43 then Some 62
  else if n =? 47 then Some 63
  else None.

(** The four sextets of a group of three octets [x], [y], [z]. *)
Definition sextet1 (x : N) : N := N.shiftr x 2.
Definition sextet2 (x y : N) : N :=
  N.lor (N.shiftl (N.land x 3) 4) (N.shiftr y 4).
Definition sextet3 (y z : N) : N :=
  N.lor (N.shiftl (N.land y 15) 2) (N.shiftr z 6).
Definition sextet4 (z : N) : N := N.land z 63.

(** [binascii.b2a_base64] without the trailing newline, which is what
    [base64.b64encode] returns; the bits missing from a final short group
    are zero and the group is filled with pad characters. *)
Fixpoint b64encode (bin : bytes) : bytes :=
  match bin with
  | [] => []
  | [b1] =>
      let x := Byte.to_N b1 in
      [table_b2a_base64 (sextet1 x); table_b2a_base64 (sextet2 x 0);
       BASE64_PAD; BASE64_PAD]
  | [b1; b2] =>
      let x := Byte.to_N b1 in
      let y := Byte.to_N b2 in
      [table_b2a_base64 (sextet1 x); table_b2a_base64 (sextet2 x y);
       table_b2a_base64 (sextet3 y 0); BASE64_PAD]
  | b1 :: b2 :: b3 :: rest =>
      let x := Byte.to_N b1 in
      let y := Byte.to_N b2 in
      let z := Byte.to_N b3 in
      table_b2a_base64 (sextet1 x)
      :: table_b2a_base64 (sextet2 x y)
      :: table_b2a_base64 (sextet3 y z)
      :: table_b2a_base64 (sextet4 z)
      :: b64encode rest
  end.

(** The decoding loop of [binascii.a2b_base64] in its default, non-strict
    mode: characters outside the alphabet are skipped, a sufficient run of
    pad characters ends the input, and leftover sextets raise
    [binascii.Error]. *)
Fixpoint a2b_base64_loop (ascii_data : bytes) (quad_pos leftchar pads : N)
         (bin_data : bytes) : result bytes :=
  match ascii_data with
  | [] =>
      if quad_pos =? 0 then Ok bin_data
      else if quad_pos =? 1 then
        Raise (BinasciiError "Invalid base64-encoded string: number of data characters cannot be 1 more than a multiple of 4")
      else Raise (BinasciiError "Incorrect padding")
  | this_ch :: rest =>
      if Byte.eqb this_ch BASE64_PAD then
        if (2 <=? quad_pos) && (4 <=? quad_pos + (pads + 1)) then Ok bin_data
        else a2b_base64_loop rest quad_pos leftchar
               (if 2 <=? quad_pos then pads + 1 else pads) bin_data
      else
        match table_a2b_base64 this_ch with
        | None => a2b_base64_loop rest quad_pos leftchar pads bin_data
        | Some v =>
            if quad_pos =? 0 then
              a2b_base64_loop rest 1 v 0 bin_data
            else if quad_pos =? 1 then
              a2b_base64_loop rest 2 (N.land v 15) 0
                (bin_data ++ [byte_of_N (N.lor (N.shiftl leftchar 2) (N.shiftr v 4))])
            else if quad_pos =? 2 then
              a2b_base64_loop rest 3 (N.land v 3) 0
                (bin_data ++ [byte_of_N (N.lor (N.shiftl leftchar 4) (N.shiftr v 2))])
            else
              a2b_base64_loop rest 0 0 0
                (bin_data ++ [byte_of_N (N.lor (N.shiftl leftchar 6) v)])
        end
  end.

Definition a2b_base64 (ascii_data : bytes) : result bytes :=
  a2b_base64_loop ascii_data 0 0 0 [].

(** [base64.b64decode(s)] for a [str] argument. *)
Definition b64decode (s : str) : result bytes :=
  bind (ascii_encode s) a2b_base64.

(** [base64.b64encode(b).decode(...)]: the text form used by the sources
    (the codec is 'utf-8' or 'ascii'; the encoder's output is ASCII). *)
Definition b64encode_str (b : bytes) : result str := utf8_decode (b64encode b).

(** The characters of [b64encode b], which is what [b64encode_str]
    returns. *)
Definition b64text (b : bytes) : str := map Byte.to_N (b64encode b).

(** *** The [secrets] module *)

(** The operating system's entropy pool is a tape of raw draws, read
    left to right; [pos] is the number of draws consumed so far. *)
Record entropy : Type := { tape : nat -> N; pos : nat }.

(** [secrets.token_bytes(n)]. *)
Definition token_bytes (n : nat) (e : entropy) : bytes * entropy :=
  (map (fun i => byte_of_N (tape e (pos e + i)%nat)) (seq 0 n),
   {| tape := tape e; pos := (pos e + n)%nat |}).

(** [secrets.randbelow(n)]: uniform in [0, n); a non-positive bound is a
    [ValueError]. *)
Definition randbelow (n : N) (e : entropy) : result (N * entropy) :=
  if n =? 0 then Raise (ValueError "Upper bound must be positive")
  else Ok (tape e (pos e) mod n, {| tape := tape e; pos := S (pos e) |}).

(** [secrets.choice(seq)]. *)
Definition choice (s : str) (e : entropy) : result (N * entropy) :=
  match s with
  | [] => Raise IndexError
  | _ =>
      bind (randbelow (N.of_nat (List.length s)) e) (fun '(i, e') =>
      Ok (nth (N.to_nat i) s 0, e'))
  end.

(** *** [hashlib] and [hmac] *)

(** The two digests of [hashlib] the sources use are primitives. *)
Class Hashlib := {
  sha256 : bytes -> bytes;
  sha512 : bytes -> bytes
}.

(** The digest size of SHA-512. *)
Definition sha512_is_64_bytes `{Hashlib} : Prop :=
  forall m : bytes, List.length (sha512 m) = 64%nat.

(** [hmac.new(key, msg, digestmod).digest()] (RFC 2104) over a digest
    with the given block size. *)
Definition hmac_digest (H : bytes -> bytes) (block_size : nat)
           (key msg : bytes) : bytes :=
  let key0 := if (block_size <? List.length key)%nat then H key else key in
  let key1 := key0 ++ repeat x00 (block_size - List.length key0) in
  let pad := fun c => map (fun k => byte_of_N (N.lxor (Byte.to_N k) c)) key1 in
  H (pad 0x5c ++ H (pad 0x36 ++ msg)).

Definition hmac_sha256 `{Hashlib} := hmac_digest sha256 64.
Definition hmac_sha512 `{Hashlib} := hmac_digest sha512 128.

(** [hmac.compare_digest] on two [bytes] objects. *)
Definition compare_digest (a b : bytes) : bool := bytes_eqb a b.

(** *** JSON values ([json.dumps] / [jsonify] payloads) *)

#[local] Unset Elimination Schemes.
Inductive json : Type :=
| JNull
| JBool (b : bool)
| JInt (z : Z)
| JStr (s : str)
| JObj (fields : list (string * json)).
#[local] Set Elimination Schemes.

Fixpoint assoc (k : string) (l : list (string * json)) : option json :=
  match l with
  | [] => None
  | (k', v) :: l' => if String.eqb k k' then Some v else assoc k l'
  end.

(** [d[k]] on a JSON object. *)
Definition jget (k : string) (j : json) : option json :=
  match j with
  | JObj fields => assoc k fields
  | _ => None
  end.

(** [bool(v)] on a JSON value: [None], [False], 0, the empty string and
    the empty object are falsy. *)
Definition truthy (j : json) : bool :=
  match j with
  | JNull => false
  | JBool b => b
  | JInt z => negb (z =? 0)%Z
  | JStr s => match s with [] => false | _ => true end
  | JObj fields => match fields with [] => false | _ => true end
  end.

End Py.


(** ** quantum_service/config.py *)

Module Config.

Import Py.

(** The library-detection flags, fixed when the module is imported. *)
Class Capabilities := {
  LIBOQS_AVAILABLE : bool;
  QISKIT_AVAILABLE : bool;
  PYCRYPTODOME_AVAILABLE : bool
}.

Module QuantumConfig.
Definition DILITHIUM_VARIANT : string := "Dilithium3".
Definition KYBER_VARIANT : string := "Kyber512".
Definition MOCK_HMAC_KEY : bytes :=
  blit "QUANTUM_MOCK_KEY_DO_NOT_USE_IN_PRODUCTION_12345".
Definition is_mock_mode `{Capabilities} : bool := negb LIBOQS_AVAILABLE.
Definition is_qrng_mock_mode `{Capabilities} : bool := negb QISKIT_AVAILABLE.
End QuantumConfig.

Definition bytes_to_hex (data : bytes) : str := hex data.
Definition hex_to_bytes (hex_string : str) : result bytes := fromhex hex_string.

(** [json_error] prints the error object and leaves through [sys.exit]. *)
Definition json_error {A} (message : str) : result A :=
  Raise (SystemExit 1 message).

Definition sha256_hash `{Hashlib} (data : str) : result str :=
  bind (utf8_encode data) (fun b => Ok (hex (sha256 b))).

Definition generate_secure_random (length : nat) (e : entropy)
  : bytes * entropy := token_bytes length e.

End Config.

(** ** quantum_service/entropy.py *)

Module Entropy.

Import Py Config.

Definition BOOKING_CHARSET : str := lit "ABCDEFGHJKLMNPQRSTUVWXYZ23456789".
Definition in_charset (c : N) : Prop := In c BOOKING_CHARSET.
Definition DEFAULT_LENGTH : Z := 8.
Definition MAX_LENGTH : Z := 32.

(** [generate_qrng_real]: the simulator measures [num_bits] qubits, each
    prepared by a Hadamard gate, and returns the outcomes as a string of
    binary digits.  One draw of the entropy tape decides one qubit. *)
Definition generate_qrng_real (num_bits : nat) (e : entropy)
  : list bool * entropy :=
  (map (fun i => N.odd (tape e (pos e + i)%nat)) (seq 0 num_bits),
   {| tape := tape e; pos := (pos e + num_bits)%nat |}).

(** [int(bits, 2)] on a string of binary digits, most significant first;
    the empty string is a [ValueError]. *)
Definition int_base2 (bits : list bool) : result N :=
  match bits with
  | [] => Raise (ValueError "invalid literal for int() with base 2: ''")
  | _ => Ok (fold_left (fun acc (b : bool) => 2 * acc + (if b then 1 else 0)) bits 0)
  end.

(** The [while len(result) < length] loop of [bits_to_booking_ref];
    [remaining] is [length - len(result)], the number of iterations left. *)
Fixpoint bits_to_booking_ref_loop (charset : str) (remaining : nat) (num : N)
         (result : str) (e : entropy) : Py.result (str * entropy) :=
  match remaining with
  | O => Ok (result, e)
  | S remaining' =>
      let charset_size := N.of_nat (List.length charset) in
      if charset_size =? 0 then Raise ZeroDivisionError
      else
        let result := result ++ [nth (N.to_nat (num mod charset_size)) charset 0] in
        let num := num / charset_size in
        if (num =? 0) && negb (Nat.eqb remaining' 0) then
          bind (randbelow (charset_size ^ N.of_nat remaining') e) (fun '(num, e) =>
          bits_to_booking_ref_loop charset remaining' num result e)
        else bits_to_booking_ref_loop charset remaining' num result e
  end.

Definition bits_to_booking_ref (bits : list bool) (charset : str) (length : Z)
           (e : entropy) : Py.result (str * entropy) :=
  bind (int_base2 bits) (fun num =>
  bits_to_booking_ref_loop charset (Z.to_nat length) num [] e).

(** The generator expression of [generate_qrng_mock]. *)
Fixpoint generate_qrng_mock_loop (n : nat) (e : entropy)
  : Py.result (str * entropy) :=
  match n with
  | O => Ok ([], e)
  | S n' =>
      bind (choice BOOKING_CHARSET e) (fun '(c, e) =>
      bind (generate_qrng_mock_loop n' e) (fun '(r, e) => Ok (c :: r, e)))
  end.

Definition generate_qrng_mock (length : Z) (e : entropy)
  : Py.result (str * entropy) :=
  generate_qrng_mock_loop (Z.to_nat length) e.

Section WithCapabilities.
Context `{Capabilities}.

Definition generate_booking_reference (length : Z) (e : entropy)
  : Py.result (json * entropy) :=
  let length :=
    if (length <? 4)%Z then 4%Z
    else if (length >? MAX_LENGTH)%Z then MAX_LENGTH
    else length in
  let mock_mode := negb QISKIT_AVAILABLE in
  bind (if mock_mode then
          bind (generate_qrng_mock length e) (fun '(random_id, e) =>
          Ok (random_id, "secrets_prng", e))
        else
          let num_bits := Z.to_nat (length * 6) in
          let '(random_bits, e) := generate_qrng_real num_bits e in
          bind (bits_to_booking_ref random_bits BOOKING_CHARSET length e)
            (fun '(random_id, e) =>
          Ok (random_id, "hadamard_simulation", e)))
    (fun '(random_id, method, e) =>
  Ok (JObj [("success", JBool true);
            ("random_id", JStr random_id);
            ("length", JInt (Z.of_nat (List.length random_id)));
            ("method", JStr (lit method));
            ("mock_mode", JBool mock_mode);
            ("algorithm", JStr (lit (if negb mock_mode then "QRNG-Hadamard"
                                      else "CSPRNG-Secrets")));
            ("description", JStr (lit (
               if negb mock_mode
               then "Generated using quantum Hadamard gate measurements"
               else "Generated using cryptographically secure PRNG (Qiskit not available)")))],
      e)).

(** The requested length clamped to the configured bounds. *)
Definition clamp_length (length : Z) : Z := Z.max 4 (Z.min MAX_LENGTH length).

(** A call with [length] returns a dictionary whose [random_id] has [n]
    characters, all from the booking alphabet, and whose [length] field
    is [n]. *)
Definition returns_reference_of_length (length n : Z) (e : entropy) : Prop :=
  exists (d : json) (random_id : str) (e' : entropy),
    generate_booking_reference length e = Ok (d, e')
    /\ jget "random_id" d = Some (JStr random_id)
    /\ jget "length" d = Some (JInt n)
    /\ Z.of_nat (List.length random_id) = n
    /\ Forall in_charset random_id.

(** [main]: the length field of the request defaults to
    [DEFAULT_LENGTH]; the result is printed, any exception is reported
    through [json_error]. *)
Definition main (length : option Z) (e : entropy) : Py.result json :=
  let length := match length with Some l => l | None => DEFAULT_LENGTH end in
  match generate_booking_reference length e with
  | Ok (result, _) => Ok result
  | Raise ex =>
      if is_Exception ex
      then json_error (lit "QRNG generation failed: " ++ exn_str ex)
      else Raise ex
  end.

End WithCapabilities.

End Entropy.

(** ** Third-party cryptographic libraries

    The lattice schemes of liboqs and the AES-GCM implementations of
    PyCryptodome and of the [cryptography] package are primitives of the
    system: the sources only call them. *)

Module Libs.

Import Py.

(** [Crypto.Cipher.AES] in GCM mode: [AES.new(key, AES.MODE_GCM, nonce)]
    followed by [encrypt_and_digest(plaintext)], which returns the
    ciphertext and the tag, or by [decrypt_and_verify(ciphertext, tag)],
    which raises [ValueError] when the tag does not verify. *)
Class PyCryptodome := {
  gcm_encrypt_and_digest : bytes -> bytes -> bytes -> bytes * bytes;
  gcm_decrypt_and_verify : bytes -> bytes -> bytes -> bytes -> result bytes
}.

(** Two sequences of octets differ in one octet: the first is the second
    with the octet at one index replaced by a different one. *)
Definition differ_in_one_octet (altered original : bytes) : Prop :=
  exists (i : nat) (x : byte),
    (i < List.length original)%nat
    /\ nth_error original i <> Some x
    /\ altered = tamper i x original.

(** The contract of AES-GCM the sources rely on: the tag has 16 octets and
    decryption under the same key and nonce returns the plaintext. *)
Definition gcm_correct `{PyCryptodome} : Prop :=
  forall key nonce plaintext ciphertext tag : bytes,
    gcm_encrypt_and_digest key nonce plaintext = (ciphertext, tag) ->
    List.length tag = 16%nat
    /\ gcm_decrypt_and_verify key nonce ciphertext tag = Ok plaintext.

(** The authentication AES-GCM is used for: a ciphertext and tag that
    differ in one octet from what encryption returned do not verify
    ([decrypt_and_verify] raises "MAC check failed"). *)
Definition gcm_tamper_evident `{PyCryptodome} : Prop :=
  forall key nonce plaintext ciphertext tag ciphertext' tag' : bytes,
    gcm_encrypt_and_digest key nonce plaintext = (ciphertext, tag) ->
    List.length ciphertext' = List.length ciphertext ->
    differ_in_one_octet (ciphertext' ++ tag') (ciphertext ++ tag) ->
    exists msg, gcm_decrypt_and_verify key nonce ciphertext' tag'
                = Raise (ValueError msg).

(** [cryptography]'s [AESGCM(key).encrypt(nonce, data, None)], which
    returns the ciphertext with the tag appended. *)
Class AESGCM := {
  aesgcm_encrypt : bytes -> bytes -> bytes -> bytes
}.

(** [oqs.KeyEncapsulation] and [oqs.Signature] for a named variant.  The
    key pairs are (public key, secret key); [kem_encap_secret] returns
    (encapsulated key, shared secret). *)
Class Oqs := {
  kem_generate_keypair : string -> entropy -> (bytes * bytes) * entropy;
  kem_encap_secret : string -> bytes -> entropy -> (bytes * bytes) * entropy;
  kem_decap_secret : string -> bytes -> bytes -> result bytes;
  sig_generate_keypair : string -> entropy -> (bytes * bytes) * entropy;
  sig_sign : string -> bytes -> bytes -> entropy -> bytes * entropy;
  sig_verify : string -> bytes -> bytes -> bytes -> result bool
}.

End Libs.

(** ** quantum_service/encryptor.py *)

Module Encryptor.

Import Py Config Libs.

Section WithLibraries.
Context `{Capabilities} `{Hashlib} `{PyCryptodome} `{Oqs}.

(** Returns [(ciphertext + tag, nonce)]; without PyCryptodome the
    fallback definition exits through [json_error]. *)
Definition aes_encrypt (key plaintext : bytes) (e : entropy)
  : result ((bytes * bytes) * entropy) :=
  if PYCRYPTODOME_AVAILABLE then
    let '(nonce, e) := token_bytes 12 e in
    let '(ciphertext, tag) := gcm_encrypt_and_digest key nonce plaintext in
    Ok ((ciphertext ++ tag, nonce), e)
  else
    json_error (lit "PyCryptodome is required for AES encryption. Install with: pip install pycryptodome").

Definition aes_decrypt (key ciphertext_with_tag nonce : bytes) : result bytes :=
  if PYCRYPTODOME_AVAILABLE then
    let ciphertext := slice_to (-16) ciphertext_with_tag in
    let tag := slice_from (-16) ciphertext_with_tag in
    gcm_decrypt_and_verify key nonce ciphertext tag
  else
    json_error (lit "PyCryptodome is required for AES decryption. Install with: pip install pycryptodome").

Definition hkdf_derive_key (shared_secret : bytes) : bytes :=
  let info := blit "quantum-airline-aes-key" in
  let length := 32%Z in
  let prk := hmac_sha256 (blit "quantum-salt") shared_secret in
  let okm := hmac_sha256 prk (info ++ [x01]) in
  slice_to length okm.

Definition kyber_encrypt_real (plaintext : bytes) (e : entropy)
  : result (json * entropy) :=
  let '((public_key, private_key), e) :=
    kem_generate_keypair QuantumConfig.KYBER_VARIANT e in
  let '((encapsulated_key, shared_secret), e) :=
    kem_encap_secret QuantumConfig.KYBER_VARIANT public_key e in
  let aes_key := hkdf_derive_key shared_secret in
  bind (aes_encrypt aes_key plaintext e) (fun '((ciphertext, nonce), e) =>
  bind (b64encode_str ciphertext) (fun ciphertext_b64 =>
  bind (b64encode_str encapsulated_key) (fun encapsulated_key_b64 =>
  bind (b64encode_str nonce) (fun nonce_b64 =>
  Ok (JObj [("success", JBool true);
            ("ciphertext", JStr ciphertext_b64);
            ("encapsulated_key", JStr encapsulated_key_b64);
            ("nonce", JStr nonce_b64);
            ("public_key", JStr (bytes_to_hex public_key));
            ("private_key", JStr (bytes_to_hex private_key));
            ("algorithm", JStr (lit "Kyber512-AES256GCM"));
            ("mock_mode", JBool false);
            ("description", JStr (lit "Encrypted using NIST FIPS 203 (ML-KEM) Kyber512 key encapsulation with AES-256-GCM"))],
      e))))).

Definition kyber_encrypt_mock (plaintext : bytes) (e : entropy)
  : result (json * entropy) :=
  let '(mock_public_key, e) := token_bytes 800 e in
  let '(mock_private_key, e) := token_bytes 1632 e in
  let '(mock_encapsulated_key, e) := token_bytes 768 e in
  let '(mock_shared_secret, e) := token_bytes 32 e in
  let aes_key := hkdf_derive_key mock_shared_secret in
  bind (aes_encrypt aes_key plaintext e) (fun '((ciphertext, nonce), e) =>
  let mock_encapsulated_data :=
    mock_shared_secret ++ slice_from 32 mock_encapsulated_key in
  bind (b64encode_str ciphertext) (fun ciphertext_b64 =>
  bind (b64encode_str mock_encapsulated_data) (fun encapsulated_key_b64 =>
  bind (b64encode_str nonce) (fun nonce_b64 =>
  Ok (JObj [("success", JBool true);
            ("ciphertext", JStr ciphertext_b64);
            ("encapsulated_key", JStr encapsulated_key_b64);
            ("nonce", JStr nonce_b64);
            ("public_key", JStr (bytes_to_hex mock_public_key));
            ("private_key", JStr (bytes_to_hex mock_private_key));
            ("algorithm", JStr (lit "Mock-Kyber512-AES256GCM"));
            ("mock_mode", JBool true);
            ("warning", JStr (lit "MOCK MODE - Not quantum secure! Install liboqs for real PQC."));
            ("description", JStr (lit "Simulated Kyber512 (liboqs not available) with real AES-256-GCM encryption"))],
      e))))).

Definition encrypt (plaintext : str) (e : entropy) : result (json * entropy) :=
  match plaintext with
  | [] => json_error (lit "Plaintext cannot be empty")
  | _ =>
      bind (utf8_encode plaintext) (fun plaintext_bytes =>
      if LIBOQS_AVAILABLE then kyber_encrypt_real plaintext_bytes e
      else kyber_encrypt_mock plaintext_bytes e)
  end.

(** [input_data.get(key, "")] for a text field. *)
Definition get_str (key : string) (input_data : json) : str :=
  match jget key input_data with
  | Some (JStr s) => s
  | _ => []
  end.

(** [main] on the parsed request: the printed dictionary, or the exit
    through [json_error]. *)
Definition main (input_data : json) (e : entropy) : result json :=
  let body :=
    let plaintext := get_str "plaintext" input_data in
    match plaintext with
    | [] => json_error (lit "Missing required field: plaintext")
    | _ => bind (encrypt plaintext e) (fun '(result, _) => Ok result)
    end in
  match body with
  | Ok result => Ok result
  | Raise ex =>
      if is_Exception ex
      then json_error (lit "Encryption failed: " ++ exn_str ex)
      else Raise ex
  end.

End WithLibraries.

End Encryptor.

(** ** quantum_service/decryptor.py *)

Module Decryptor.

Import Py Config Libs.

Section WithLibraries.
Context `{Capabilities} `{Hashlib} `{PyCryptodome} `{Oqs}.

Definition aes_decrypt (key ciphertext_with_tag nonce : bytes) : result bytes :=
  if PYCRYPTODOME_AVAILABLE then
    let ciphertext := slice_to (-16) ciphertext_with_tag in
    let tag := slice_from (-16) ciphertext_with_tag in
    gcm_decrypt_and_verify key nonce ciphertext tag
  else
    json_error (lit "PyCryptodome is required for AES decryption. Install with: pip install pycryptodome").

Definition hkdf_derive_key (shared_secret : bytes) : bytes :=
  let info := blit "quantum-airline-aes-key" in
  let length := 32%Z in
  let prk := hmac_sha256 (blit "quantum-salt") shared_secret in
  let okm := hmac_sha256 prk (info ++ [x01]) in
  slice_to length okm.

Definition kyber_decrypt_real
           (ciphertext_b64 encapsulated_key_b64 nonce_b64 private_key_hex : str)
  : result json :=
  bind (b64decode ciphertext_b64) (fun ciphertext =>
  bind (b64decode encapsulated_key_b64) (fun encapsulated_key =>
  bind (b64decode nonce_b64) (fun nonce =>
  bind (hex_to_bytes private_key_hex) (fun private_key =>
  bind (kem_decap_secret QuantumConfig.KYBER_VARIANT private_key encapsulated_key)
    (fun shared_secret =>
  let aes_key := hkdf_derive_key shared_secret in
  bind (aes_decrypt aes_key ciphertext nonce) (fun plaintext =>
  bind (utf8_decode plaintext) (fun plaintext_str =>
  Ok (JObj [("success", JBool true);
            ("plaintext", JStr plaintext_str);
            ("algorithm", JStr (lit "Kyber512-AES256GCM"));
            ("mock_mode", JBool false);
            ("description", JStr (lit "Decrypted using NIST FIPS 203 (ML-KEM) Kyber512 key decapsulation"))])))))))).

Definition kyber_decrypt_mock
           (ciphertext_b64 encapsulated_key_b64 nonce_b64 private_key_hex : str)
  : result json :=
  bind (b64decode ciphertext_b64) (fun ciphertext =>
  bind (b64decode encapsulated_key_b64) (fun encapsulated_data =>
  bind (b64decode nonce_b64) (fun nonce =>
  let mock_shared_secret := slice_to 32 encapsulated_data in
  let aes_key := hkdf_derive_key mock_shared_secret in
  bind (aes_decrypt aes_key ciphertext nonce) (fun plaintext =>
  bind (utf8_decode plaintext) (fun plaintext_str =>
  Ok (JObj [("success", JBool true);
            ("plaintext", JStr plaintext_str);
            ("algorithm", JStr (lit "Mock-Kyber512-AES256GCM"));
            ("mock_mode", JBool true);
            ("warning", JStr (lit "MOCK MODE decryption - Not quantum secure!"));
            ("description", JStr (lit "Mock decryption (liboqs not available)"))])))))).

Definition decrypt
           (ciphertext_b64 encapsulated_key_b64 nonce_b64 private_key_hex : str)
  : result json :=
  if LIBOQS_AVAILABLE then
    kyber_decrypt_real ciphertext_b64 encapsulated_key_b64 nonce_b64 private_key_hex
  else
    kyber_decrypt_mock ciphertext_b64 encapsulated_key_b64 nonce_b64 private_key_hex.

Definition get_str (key : string) (input_data : json) : str :=
  match jget key input_data with
  | Some (JStr s) => s
  | _ => []
  end.

Definition nonempty (s : str) : bool :=
  match s with [] => false | _ => true end.

(** [main] on the parsed request.  A [ValueError] (the failed tag check
    of AES-GCM, but also malformed base64, hex or UTF-8) is reported as
    an integrity failure, any other exception generically. *)
Definition main (input_data : json) : result json :=
  let ciphertext := get_str "ciphertext" input_data in
  let encapsulated_key := get_str "encapsulated_key" input_data in
  let nonce := get_str "nonce" input_data in
  let private_key := get_str "private_key" input_data in
  let body :=
    if nonempty ciphertext && nonempty encapsulated_key
       && nonempty nonce && nonempty private_key
    then decrypt ciphertext encapsulated_key nonce private_key
    else json_error (lit "Missing required fields: ciphertext, encapsulated_key, nonce, private_key") in
  match body with
  | Ok result => Ok result
  | Raise ex =>
      if is_ValueError ex then
        json_error (lit "Decryption failed - integrity check failed or invalid data: "
                    ++ exn_str ex)
      else if is_Exception ex then
        json_error (lit "Decryption failed: " ++ exn_str ex)
      else Raise ex
  end.

(** The request object [main] reads. *)
Definition request (ciphertext encapsulated_key nonce private_key : str) : json :=
  JObj [("ciphertext", JStr ciphertext);
        ("encapsulated_key", JStr encapsulated_key);
        ("nonce", JStr nonce);
        ("private_key", JStr private_key)].

(** The exit of [main] that reports a failed integrity check. *)
Definition integrity_failure (detail : string) : exn :=
  SystemExit 1 (lit "Decryption failed - integrity check failed or invalid data: "
                ++ lit detail).

End WithLibraries.

End Decryptor.

(** ** quantum_service/signer.py *)

Module Signer.

Import Py Config Libs.

Section WithLibraries.
Context `{Capabilities} `{Hashlib} `{Oqs}.

Definition sign_real (data : str) (e : entropy) : result (json * entropy) :=
  let '((public_key, private_key), e) :=
    sig_generate_keypair QuantumConfig.DILITHIUM_VARIANT e in
  bind (utf8_encode data) (fun data_bytes =>
  let '(signature, e) :=
    sig_sign QuantumConfig.DILITHIUM_VARIANT private_key data_bytes e in
  bind (sha256_hash data) (fun data_hash =>
  Ok (JObj [("success", JBool true);
            ("signature", JStr (bytes_to_hex signature));
            ("public_key", JStr (bytes_to_hex public_key));
            ("private_key", JStr (bytes_to_hex private_key));
            ("data_hash", JStr data_hash);
            ("algorithm", JStr (lit "Dilithium3"));
            ("nist_level", JInt 3);
            ("mock_mode", JBool false);
            ("signature_size_bytes", JInt (Z.of_nat (List.length signature)));
            ("public_key_size_bytes", JInt (Z.of_nat (List.length public_key)));
            ("description", JStr (lit "Signed using NIST FIPS 204 (ML-DSA) Dilithium3 lattice-based signature"))],
      e))).

Definition verify_real (data signature_hex public_key_hex : str) : result json :=
  bind (hex_to_bytes signature_hex) (fun signature =>
  bind (hex_to_bytes public_key_hex) (fun public_key =>
  bind (utf8_encode data) (fun data_bytes =>
  bind (sig_verify QuantumConfig.DILITHIUM_VARIANT data_bytes signature public_key)
    (fun is_valid =>
  Ok (JObj [("success", JBool true);
            ("valid", JBool is_valid);
            ("algorithm", JStr (lit "Dilithium3"));
            ("mock_mode", JBool false);
            ("description", JStr (lit "Verification using NIST FIPS 204 (ML-DSA) Dilithium3"))]))))).

Definition sign_mock (data : str) (e : entropy) : result (json * entropy) :=
  bind (utf8_encode data) (fun data_bytes =>
  let '(mock_private_key, e) := token_bytes 4000 e in
  let '(mock_public_key, e) := token_bytes 1952 e in
  let signature := hmac_sha512 QuantumConfig.MOCK_HMAC_KEY data_bytes in
  let extended_sig := signature ++ sha512 mock_public_key in
  let mock_signature := repeat_seq extended_sig 26 in
  let mock_signature := slice_to 3293 mock_signature in
  bind (sha256_hash data) (fun data_hash =>
  Ok (JObj [("success", JBool true);
            ("signature", JStr (bytes_to_hex mock_signature));
            ("public_key", JStr (bytes_to_hex mock_public_key));
            ("private_key", JStr (bytes_to_hex mock_private_key));
            ("data_hash", JStr data_hash);
            ("algorithm", JStr (lit "Mock-Dilithium3-HMAC"));
            ("nist_level", JStr (lit "N/A (Mock)"));
            ("mock_mode", JBool true);
            ("warning", JStr (lit "MOCK MODE - Not quantum secure! Install liboqs for real PQC."));
            ("signature_size_bytes", JInt (Z.of_nat (List.length mock_signature)));
            ("public_key_size_bytes", JInt (Z.of_nat (List.length mock_public_key)));
            ("description", JStr (lit "Simulated Dilithium3 using HMAC-SHA512 (liboqs not available)"))],
      e))).

Definition verify_mock (data signature_hex public_key_hex : str) : result json :=
  bind (utf8_encode data) (fun data_bytes =>
  bind (hex_to_bytes signature_hex) (fun signature =>
  let expected_hmac := hmac_sha512 QuantumConfig.MOCK_HMAC_KEY data_bytes in
  let is_valid := compare_digest (slice_to 64 signature) expected_hmac in
  Ok (JObj [("success", JBool true);
            ("valid", JBool is_valid);
            ("algorithm", JStr (lit "Mock-Dilithium3-HMAC"));
            ("mock_mode", JBool true);
            ("warning", JStr (lit "MOCK MODE verification - Not quantum secure!"));
            ("description", JStr (lit "Mock verification using HMAC-SHA512 comparison"))]))).

Definition sign (data : str) (e : entropy) : result (json * entropy) :=
  match data with
  | [] => json_error (lit "Data to sign cannot be empty")
  | _ => if LIBOQS_AVAILABLE then sign_real data e else sign_mock data e
  end.

Definition verify (data signature_hex public_key_hex : str) : result json :=
  match data, signature_hex, public_key_hex with
  | _ :: _, _ :: _, _ :: _ =>
      if LIBOQS_AVAILABLE then verify_real data signature_hex public_key_hex
      else verify_mock data signature_hex public_key_hex
  | _, _, _ => json_error (lit "Missing required fields for verification")
  end.

Definition get_str (key : string) (input_data : json) : str :=
  match jget key input_data with
  | Some (JStr s) => s
  | _ => []
  end.

(** [main] on the parsed request: a truthy [verify] field selects
    verification, otherwise the data is signed. *)
Definition main (input_data : json) (e : entropy) : result json :=
  let verifying :=
    match jget "verify" input_data with
    | Some v => truthy v
    | None => false
    end in
  let body :=
    if verifying then
      let data := get_str "data" input_data in
      let signature := get_str "signature" input_data in
      let public_key := get_str "public_key" input_data in
      verify data signature public_key
    else
      let data := get_str "data" input_data in
      match data with
      | [] => json_error (lit "Missing required field: data")
      | _ => bind (sign data e) (fun '(result, _) => Ok result)
      end in
  match body with
  | Ok result => Ok result
  | Raise ex =>
      if is_Exception ex
      then json_error (lit "Signature operation failed: " ++ exn_str ex)
      else Raise ex
  end.

End WithLibraries.

End Signer.

(** ** The persistence store

    The schema of init_db.py (tables [flights], [seats], [bookings]) and the
    statements server.py issues through mysql.connector, with InnoDB's
    transactional behaviour: statements of an open transaction are buffered
    until COMMIT makes them visible, ROLLBACK discards them, and a row
    selected FOR UPDATE stays locked by the connection until either. *)

Module Store.

Import Py.

Record flight : Type := {
  flight_id : Z;
  flight_number : str;
  origin : str;
  destination : str;
  departure_time : option str   (* rendered by [isoformat] *)
}.

Record seat : Type := {
  seat_id : Z;
  seat_flight_id : Z;
  row_num : str;
  col_num : str;
  seat_class : str;
  is_booked : bool
}.

(** The column values of an INSERT INTO bookings. *)
Record booking_values : Type := {
  booking_seat_id : Z;
  booking_flight_id : Z;
  pqc_ref : str;
  passenger_name : str;
  kyber_capsule : str;
  passport_enc : str;
  encryption_nonce : str;
  pqc_signature : str;
  ticket_data_hash : str
}.

Record booking : Type := {
  booking_id : Z;
  booking_cols : booking_values
}.

Record db : Type := {
  flights : list flight;
  seats : list seat;
  bookings : list booking;
  bookings_auto_increment : Z
}.

(** Equality of text values under the collation of the database
    (utf8mb4_general_ci), which belongs to the server. *)
Class Collation := { sql_eq : str -> str -> bool }.

(** Buffered writes of an open transaction. *)
Inductive write : Type :=
| WSeatBooked (id : Z)
| WInsertBooking (row : booking).

(** A connection: the writes of its open transaction and the seat rows it
    has locked. *)
Record conn : Type := {
  pending : list write;
  locks : list Z
}.

Definition fresh_conn : conn := {| pending := []; locks := [] |}.

Definition set_booked (id : Z) (s : seat) : seat :=
  if (seat_id s =? id)%Z then
    {| seat_id := seat_id s; seat_flight_id := seat_flight_id s;
       row_num := row_num s; col_num := col_num s;
       seat_class := seat_class s; is_booked := true |}
  else s.

Definition apply_write (d : db) (w : write) : db :=
  match w with
  | WSeatBooked id =>
      {| flights := flights d; seats := map (set_booked id) (seats d);
         bookings := bookings d;
         bookings_auto_increment := bookings_auto_increment d |}
  | WInsertBooking row =>
      {| flights := flights d; seats := seats d;
         bookings := bookings d ++ [row];
         bookings_auto_increment := bookings_auto_increment d |}
  end.

(** What the connection reads: the committed rows with its own buffered
    writes applied. *)
Definition view (d : db) (c : conn) : db := fold_left apply_write (pending c) d.

Section Statements.
Context `{Collation}.

(** SELECT id, is_booked, class FROM seats
    WHERE flight_id = %s AND row_num = %s AND col_num = %s *)
Definition select_seat (d : db) (fid : Z) (row col : str) : option seat :=
  find (fun s => (seat_flight_id s =? fid)%Z
                 && sql_eq (row_num s) row && sql_eq (col_num s) col)
       (seats d).

(** SELECT flight_number, origin, destination, departure_time
    FROM flights WHERE id = %s *)
Definition select_flight (d : db) (fid : Z) : option flight :=
  find (fun f => (flight_id f =? fid)%Z) (flights d).

Definition select_seat_by_id (d : db) (id : Z) : option seat :=
  find (fun s => (seat_id s =? id)%Z) (seats d).

(** SELECT ... FROM bookings b JOIN seats s ON b.seat_id = s.id
    JOIN flights f ON b.flight_id = f.id WHERE b.pqc_ref = %s *)
Definition select_booking_by_ref (d : db) (ref : str)
  : option (booking * seat * flight) :=
  find (fun _ => true)
    (flat_map (fun b =>
       if sql_eq (pqc_ref (booking_cols b)) ref then
         match select_seat_by_id d (booking_seat_id (booking_cols b)),
               select_flight d (booking_flight_id (booking_cols b)) with
         | Some s, Some f => [(b, s, f)]
         | _, _ => []
         end
       else []) (bookings d)).

(** The constraints of the [bookings] table an INSERT is checked
    against: UNIQUE (seat_id), UNIQUE (pqc_ref), and the two foreign
    keys.  (Column widths are enforced or not depending on the server's
    sql_mode; [Session] adds them.) *)
Definition insert_violation (d : db) (v : booking_values) : option exn :=
  if existsb (fun b => (booking_seat_id (booking_cols b) =? booking_seat_id v)%Z)
             (bookings d)
  then Some (DatabaseError "1062 (23000): Duplicate entry for key 'unique_booking'")
  else if existsb (fun b => sql_eq (pqc_ref (booking_cols b)) (pqc_ref v))
                  (bookings d)
  then Some (DatabaseError "1062 (23000): Duplicate entry for key 'pqc_ref'")
  else
    match select_seat_by_id d (booking_seat_id v),
          select_flight d (booking_flight_id v) with
    | Some _, Some _ => None
    | _, _ =>
        Some (DatabaseError "1452 (23000): Cannot add or update a child row: a foreign key constraint fails")
    end.

(** *** Programs over a connection *)

(** A request handler is a tree of statements; each node continues with
    the statement's outcome. *)
Inductive txn (A : Type) : Type :=
| Return (a : A)
| Connect (k : result unit -> txn A)
| StartTransaction (k : txn A)
| SelectSeatForUpdate (fid : Z) (row col : str) (k : option seat -> txn A)
| UpdateSeatBooked (id : Z) (k : txn A)
| InsertBooking (v : booking_values) (k : result Z -> txn A)
| SelectFlight (fid : Z) (k : option flight -> txn A)
| SelectBookingByRef (ref : str) (k : option (booking * seat * flight) -> txn A)
| Commit (k : txn A)
| Rollback (k : txn A).

Arguments Return {A} a.
Arguments Connect {A} k.
Arguments StartTransaction {A} k.
Arguments SelectSeatForUpdate {A} fid row col k.
Arguments UpdateSeatBooked {A} id k.
Arguments InsertBooking {A} v k.
Arguments SelectFlight {A} fid k.
Arguments SelectBookingByRef {A} ref k.
Arguments Commit {A} k.
Arguments Rollback {A} k.

(** The effect of INSERT INTO bookings: a violated constraint raises;
    otherwise the row is buffered under the next AUTO_INCREMENT value,
    which is consumed whether or not the transaction commits. *)
Definition insert_booking (d : db) (c : conn) (v : booking_values)
  : result Z * db * conn :=
  match insert_violation (view d c) v with
  | Some ex => (Raise ex, d, c)
  | None =>
      let id := bookings_auto_increment d in
      (Ok id,
       {| flights := flights d; seats := seats d; bookings := bookings d;
          bookings_auto_increment := (id + 1)%Z |},
       {| pending := pending c ++ [WInsertBooking {| booking_id := id; booking_cols := v |}];
          locks := locks c |})
  end.

Definition lock_row (c : conn) (id : Z) : conn :=
  {| pending := pending c; locks := id :: locks c |}.

Definition update_seat_booked (c : conn) (id : Z) : conn :=
  {| pending := pending c ++ [WSeatBooked id]; locks := id :: locks c |}.

Definition locked_by (held : list Z) (id : Z) : bool :=
  existsb (Z.eqb id) held.

(** One statement of one connection; [others] are the seat rows locked
    by the other connections.  A locking read or an UPDATE of such a
    row waits. *)
Inductive outcome (A : Type) : Type :=
| Next (d : db) (c : conn) (p : txn A)
| Waits
| Done (a : A).
Arguments Next {A} d c p.
Arguments Waits {A}.
Arguments Done {A} a.

Definition step {A} (others : list Z) (d : db) (c : conn) (p : txn A)
  : outcome A :=
  match p with
  | Return a => Done a
  | Connect k => Next d c (k (Ok tt))
  | StartTransaction k => Next d c k
  | SelectSeatForUpdate fid row col k =>
      match select_seat (view d c) fid row col with
      | None => Next d c (k None)
      | Some s =>
          if locked_by others (seat_id s) then Waits
          else Next d (lock_row c (seat_id s)) (k (Some s))
      end
  | UpdateSeatBooked id k =>
      if locked_by others id then Waits
      else Next d (update_seat_booked c id) k
  | InsertBooking v k =>
      let '(r, d', c') := insert_booking d c v in Next d' c' (k r)
  | SelectFlight fid k => Next d c (k (select_flight (view d c) fid))
  | SelectBookingByRef ref k =>
      Next d c (k (select_booking_by_ref (view d c) ref))
  | Commit k => Next (view d c) fresh_conn k
  | Rollback k => Next d fresh_conn k
  end.

(** A handler run on its own connection with no other connection
    active: the response and the committed state it leaves.  The
    connection is taken as obtained and every statement as accepted by the
    connector; [Session.execute] also follows the connection, the
    statements issued and these failures. *)
Fixpoint run {A} (p : txn A) (d : db) (c : conn) : A * db :=
  match p with
  | Return a => (a, d)
  | Connect k => run (k (Ok tt)) d c
  | StartTransaction k => run k d c
  | SelectSeatForUpdate fid row col k =>
      match select_seat (view d c) fid row col with
      | None => run (k None) d c
      | Some s => run (k (Some s)) d (lock_row c (seat_id s))
      end
  | UpdateSeatBooked id k => run k d (update_seat_booked c id)
  | InsertBooking v k =>
      let '(r, d', c') := insert_booking d c v in run (k r) d' c'
  | SelectFlight fid k => run (k (select_flight (view d c) fid)) d c
  | SelectBookingByRef ref k =>
      run (k (select_booking_by_ref (view d c) ref)) d c
  | Commit k => run k (view d c) fresh_conn
  | Rollback k => run k d fresh_conn
  end.

(** *** Concurrent handlers *)

(** A worker is a handler in progress on its own connection. *)
Record worker (A : Type) : Type := {
  w_conn : conn;
  w_prog : txn A
}.

Definition held_locks {A} (ws : list (worker A)) : list Z :=
  flat_map (fun w => locks (w_conn w)) ws.

(** One step of the system: some worker executes its next statement. *)
Inductive pool_step {A} : db * list (worker A) -> db * list (worker A) -> Prop :=
| pool_step_worker (d d' : db) (before after : list (worker A))
                   (w : worker A) (c' : conn) (p' : txn A) :
    step (held_locks (before ++ after)) d (w_conn w) (w_prog w) = Next d' c' p' ->
    pool_step (d, before ++ w :: after)
              (d', before ++ {| w_conn := c'; w_prog := p' |} :: after).

Inductive pool_steps {A} : db * list (worker A) -> db * list (worker A) -> Prop :=
| pool_steps_refl (s : db * list (worker A)) : pool_steps s s
| pool_steps_step (s1 s2 s3 : db * list (worker A)) :
    pool_steps s1 s2 -> pool_step s2 s3 -> pool_steps s1 s3.

Definition finished {A} (w : worker A) : option A :=
  match w_prog w with
  | Return a => Some a
  | _ => None
  end.

Definition all_finished {A} (ws : list (worker A)) : Prop :=
  Forall (fun w => finished w <> None) ws.

Definition responses {A} (ws : list (worker A)) : list A :=
  flat_map (fun w => match finished w with Some a => [a] | None => [] end) ws.

Definition spawn {A} (p : txn A) : worker A :=
  {| w_conn := fresh_conn; w_prog := p |}.

End Statements.

Arguments Return {A} a.
Arguments Connect {A} k.
Arguments StartTransaction {A} k.
Arguments SelectSeatForUpdate {A} fid row col k.
Arguments UpdateSeatBooked {A} id k.
Arguments InsertBooking {A} v k.
Arguments SelectFlight {A} fid k.
Arguments SelectBookingByRef {A} ref k.
Arguments Commit {A} k.
Arguments Rollback {A} k.
Arguments Next {A} d c p.
Arguments Waits {A}.
Arguments Done {A} a.

(** A schedule names, turn by turn, the worker that executes its next
    statement; it is refused when the worker named is absent, has returned
    or waits for a lock. *)
Fixpoint schedule `{Collation} {A} (turns : list nat) (s : db * list (worker A))
  : option (db * list (worker A)) :=
  match turns with
  | [] => Some s
  | i :: turns =>
      let before := firstn i (snd s) in
      match skipn i (snd s) with
      | [] => None
      | w :: after =>
          match step (held_locks (before ++ after)) (fst s) (w_conn w) (w_prog w) with
          | Next d' c' p' =>
              schedule turns (d', before ++ {| w_conn := c'; w_prog := p' |} :: after)
          | _ => None
          end
      end
  end.

End Store.

(** ** server.py *)

Module Server.

Import Py Libs Store.

(** Whether the [cryptography] package could be imported. *)
Class Environment := { CRYPTO_AVAILABLE : bool }.

(** The dictionaries returned by [kyber_encrypt] and [dilithium_sign]. *)
Record kyber_result : Type := {
  capsule : str;
  encrypted_data : str;
  nonce : str
}.

Record dilithium_result : Type := {
  signature : str;
  data_hash : str;
  algorithm : str;
  message_preview : str
}.

(** A Flask response: status code and JSON body. *)
Record response : Type := {
  status : Z;
  body : json
}.

(** The JSON body of POST /api/book and of POST /api/verify, with the
    field types of the interface; [None] is an absent key.  The handlers
    take the body as an [option]: [None] stands for a body that is missing
    or falsy (the handlers test [not data], so the empty object [{}] is
    answered like no body at all), [Some] for an object with at least one
    key. *)
Record booking_request : Type := {
  req_flight_id : option Z;
  req_row : option str;
  req_col : option str;
  req_name : option str;
  req_passport : option str
}.

Record verify_request : Type := {
  req_booking_ref : option str
}.

(** The three services the booking handler calls while it holds the seat
    lock.  They are looked up by name at call time, so a deployment (or a
    test) may bind other implementations than the ones of this module. *)
Record trinity : Type := {
  qrng : entropy -> result (str * entropy);
  kem : str -> entropy -> result (kyber_result * entropy);
  dsa : str -> Z -> Z -> str -> entropy -> result (dilithium_result * entropy)
}.

Section WithLibraries.
Context `{Environment} `{Hashlib} `{AESGCM} `{Unicode} `{Collation}.

Definition generate_quantum_entropy (e : entropy) : str * entropy :=
  let '(random_bytes, e) := token_bytes 12 e in
  let hex_str := upper (hex random_bytes) in
  let ref := lit "QREF-" ++ slice 0 4 hex_str ++ lit "-"
             ++ slice 4 8 hex_str ++ lit "-" ++ slice 8 12 hex_str in
  (ref, e).

Definition kyber_encrypt (passport_data : str) (e : entropy)
  : result (kyber_result * entropy) :=
  let '(aes_key, e) := token_bytes 32 e in
  let '(nonce, e) := token_bytes 12 e in
  bind (utf8_encode passport_data) (fun data_bytes =>
  let encrypted_hex :=
    if CRYPTO_AVAILABLE then
      hex (aesgcm_encrypt aes_key nonce data_bytes)
    else
      let n := List.length data_bytes in
      let key_extended :=
        slice_to (Z.of_nat n) (repeat_seq aes_key (n / 32 + 1)) in
      hex (xor_zip data_bytes key_extended) in
  let '(capsule_data, e) := token_bytes 768 e in
  let mock_key_mask := sha256 (blit "QUANTUM_MOCK_KYBER_KEY") in
  let masked_key := xor_zip aes_key mock_key_mask in
  bind (ascii_decode (b64encode (capsule_data ++ masked_key))) (fun capsule =>
  Ok ({| capsule := capsule;
         encrypted_data := encrypted_hex;
         nonce := hex nonce |}, e))).

(** The key of the HMAC that stands in for the Dilithium signature. *)
Definition mock_private_key : bytes :=
  sha256 (blit "QUANTUM_DILITHIUM_PRIVATE_KEY").

(** f"{booking_ref}|{seat_id}|{flight_id}|{passenger_name}" *)
Definition ticket_message (booking_ref : str) (seat_id flight_id : Z)
           (passenger_name : str) : str :=
  booking_ref ++ lit "|" ++ str_of_Z seat_id ++ lit "|"
  ++ str_of_Z flight_id ++ lit "|" ++ passenger_name.

Definition dilithium_sign (booking_ref : str) (seat_id flight_id : Z)
           (passenger_name : str) (e : entropy)
  : result (dilithium_result * entropy) :=
  let message := ticket_message booking_ref seat_id flight_id passenger_name in
  bind (utf8_encode message) (fun message_bytes =>
  let mock_private_key := sha256 (blit "QUANTUM_DILITHIUM_PRIVATE_KEY") in
  let signature_bytes := hmac_sha512 mock_private_key message_bytes in
  let '(padding, e) := token_bytes 3000 e in
  bind (ascii_decode (b64encode (signature_bytes ++ padding))) (fun full_signature =>
  let data_hash := hex (sha256 message_bytes) in
  Ok ({| signature := full_signature;
         data_hash := data_hash;
         algorithm := lit "Dilithium3-Simulation (HMAC-SHA512)";
         message_preview :=
           if (50 <? List.length message)%nat
           then slice_to 50 message ++ lit "..."
           else message |}, e))).

Definition dilithium_verify (booking_ref : str) (seat_id flight_id : Z)
           (passenger_name signature data_hash : str) : result bool :=
  let message := ticket_message booking_ref seat_id flight_id passenger_name in
  bind (utf8_encode message) (fun message_bytes =>
  let expected_hash := hex (sha256 message_bytes) in
  if negb (str_eqb expected_hash data_hash) then Ok false
  else
    let mock_private_key := sha256 (blit "QUANTUM_DILITHIUM_PRIVATE_KEY") in
    let expected_sig := hmac_sha512 mock_private_key message_bytes in
    match bind (b64decode signature) (fun decoded =>
            Ok (compare_digest expected_sig (slice_to 64 decoded))) with
    | Ok valid => Ok valid
    | Raise ex => if is_Exception ex then Ok false else Raise ex
    end).

(** An uppercase hexadecimal digit, [0-9A-F]. *)
Definition is_upper_hex (c : N) : bool :=
  ((48 <=? c) && (c <=? 57) || (65 <=? c) && (c <=? 70))%N.

(** The format QREF-XXXX-XXXX-XXXX: the prefix and three groups of four
    uppercase hexadecimal digits separated by hyphens, 19 characters. *)
Definition reference_format (ref : str) : Prop :=
  exists g1 g2 g3 : str,
    ref = lit "QREF-" ++ g1 ++ lit "-" ++ g2 ++ lit "-" ++ g3
    /\ List.length g1 = 4%nat /\ List.length g2 = 4%nat
    /\ List.length g3 = 4%nat
    /\ Forall (fun c => is_upper_hex c = true) (g1 ++ g2 ++ g3)
    /\ List.length ref = 19%nat.

(** The services as this module defines them. *)
Definition quantum_trinity : trinity := {|
  qrng := fun e => Ok (generate_quantum_entropy e);
  kem := kyber_encrypt;
  dsa := dilithium_sign
|}.

Definition error_response (code : Z) (message : str) : response :=
  {| status := code;
     body := JObj [("success", JBool false); ("error", JStr message)] |}.

Definition absent_or_empty (field : option str) : bool :=
  match field with
  | Some (_ :: _) => false
  | _ => true
  end.

(** [[f for f in required if f not in data or not data[f]]] *)
Definition missing_fields (data : booking_request) : list string :=
  (if match req_flight_id data with
      | Some z => (z =? 0)%Z
      | None => true
      end then ["flight_id"] else [])
  ++ (if absent_or_empty (req_row data) then ["row"] else [])
  ++ (if absent_or_empty (req_col data) then ["col"] else [])
  ++ (if absent_or_empty (req_name data) then ["name"] else [])
  ++ (if absent_or_empty (req_passport data) then ["passport"] else []).

(** [", ".join(fields)] *)
Fixpoint join_fields (fields : list string) : str :=
  match fields with
  | [] => []
  | [f] => lit f
  | f :: rest => lit f ++ lit ", " ++ join_fields rest
  end.

(** The [except] clauses of [create_booking] once the connection is
    open: the transaction is rolled back and the error reported with
    status 500.  An exception outside [Exception] passes through. *)
Definition rolled_back (ex : exn) : txn (result response) :=
  if is_mysql_Error ex then
    Rollback (Return (Ok (error_response 500 (lit "Database error: " ++ exn_str ex))))
  else if is_Exception ex then
    Rollback (Return (Ok (error_response 500 (exn_str ex))))
  else Return (Raise ex).

(** The same clauses while [conn] is still [None]. *)
Definition not_connected (ex : exn) : txn (result response) :=
  if is_mysql_Error ex then
    Return (Ok (error_response 500 (lit "Database error: " ++ exn_str ex)))
  else if is_Exception ex then
    Return (Ok (error_response 500 (exn_str ex)))
  else Return (Raise ex).

Definition opt_str (field : option str) : str :=
  match field with Some s => s | None => [] end.

(** The request fields as the handler normalises them:
    [int(data['flight_id'])], [str(data['row'])],
    [str(data['col']).upper()], [data['name'].strip()] and
    [data['passport'].strip()]. *)
Definition flight_id_of (data : booking_request) : Z :=
  match req_flight_id data with Some z => z | None => 0%Z end.
Definition row_num_of (data : booking_request) : str := opt_str (req_row data).
Definition col_num_of (data : booking_request) : str :=
  upper (opt_str (req_col data)).
Definition passenger_name_of (data : booking_request) : str :=
  strip (opt_str (req_name data)).
Definition passport_of (data : booking_request) : str :=
  strip (opt_str (req_passport data)).

Definition seat_already_booked (row_num col_num : str) : response :=
  error_response 409 (lit "Seat " ++ row_num ++ col_num ++ lit " is already booked").

Definition booking_not_found : response :=
  {| status := 200;
     body := JObj [("success", JBool true);
                   ("data",
                    JObj [("verified", JBool false);
                          ("message", JStr (lit "Booking not found"))])] |}.

Definition booking_confirmation (booking_id : Z) (qrng_ref passenger_name : str)
           (f : flight) (seat_id : Z) (row_num col_num seat_class : str)
           (kyber : kyber_result) (dilithium : dilithium_result) : response :=
  {| status := 201;
     body :=
       JObj [("success", JBool true);
             ("booking",
              JObj [("id", JInt booking_id);
                    ("booking_ref", JStr qrng_ref);
                    ("passenger_name", JStr passenger_name);
                    ("flight",
                     JObj [("number", JStr (flight_number f));
                           ("origin", JStr (origin f));
                           ("destination", JStr (destination f));
                           ("departure",
                            match departure_time f with
                            | Some t => JStr t
                            | None => JNull
                            end)]);
                    ("seat",
                     JObj [("id", JInt seat_id);
                           ("label", JStr (row_num ++ col_num));
                           ("class", JStr seat_class)])]);
             ("quantum_security",
              JObj [("mock_mode", JBool true);
                    ("signature",
                     JObj [("algorithm", JStr (algorithm dilithium));
                           ("preview", JStr (slice_to 80 (signature dilithium) ++ lit "..."))]);
                    ("encryption",
                     JObj [("algorithm", JStr (lit "Kyber512-Simulation (AES-256-GCM)"));
                           ("capsule_preview", JStr (slice_to 80 (capsule kyber) ++ lit "..."))]);
                    ("entropy",
                     JObj [("algorithm", JStr (lit "QRNG-Simulation (secrets.token_bytes)"))])])]
  |}.

(** POST /api/book *)
Definition create_booking_with (q : trinity) (data : option booking_request)
           (e : entropy) : txn (result response) :=
  match data with
  | None => Return (Ok (error_response 400 (lit "No JSON data provided")))
  | Some data =>
      match missing_fields data with
      | (_ :: _) as missing =>
          Return (Ok (error_response 400
                        (lit "Missing fields: " ++ join_fields missing)))
      | [] =>
          let flight_id := flight_id_of data in
          let row_num := row_num_of data in
          let col_num := col_num_of data in
          let passenger_name := passenger_name_of data in
          let passport := passport_of data in
          Connect (fun connected =>
          match connected with
          | Raise ex => not_connected ex
          | Ok _ =>
          StartTransaction (
          SelectSeatForUpdate flight_id row_num col_num (fun seat =>
          match seat with
          | None =>
              Rollback (Return (Ok (error_response 404
                (lit "Seat " ++ row_num ++ col_num ++ lit " not found on this flight"))))
          | Some seat =>
              if is_booked seat then
                Rollback (Return (Ok (seat_already_booked row_num col_num)))
              else
                let seat_id := Store.seat_id seat in
                let seat_class := Store.seat_class seat in
                match qrng q e with
                | Raise ex => rolled_back ex
                | Ok (qrng_ref, e) =>
                match kem q passport e with
                | Raise ex => rolled_back ex
                | Ok (kyber_result, e) =>
                match dsa q qrng_ref seat_id flight_id passenger_name e with
                | Raise ex => rolled_back ex
                | Ok (dilithium_result, e) =>
                    UpdateSeatBooked seat_id (
                    InsertBooking
                      {| booking_seat_id := seat_id;
                         booking_flight_id := flight_id;
                         pqc_ref := qrng_ref;
                         Store.passenger_name := passenger_name;
                         kyber_capsule := capsule kyber_result;
                         passport_enc := encrypted_data kyber_result;
                         encryption_nonce := nonce kyber_result;
                         pqc_signature := signature dilithium_result;
                         ticket_data_hash := data_hash dilithium_result |}
                      (fun inserted =>
                    match inserted with
                    | Raise ex => rolled_back ex
                    | Ok booking_id =>
                        SelectFlight flight_id (fun flight =>
                        Commit (
                        match flight with
                        | Some flight =>
                            Return (Ok (booking_confirmation booking_id qrng_ref
                                          passenger_name flight seat_id row_num
                                          col_num seat_class kyber_result
                                          dilithium_result))
                        | None =>
                            (* flight['flight_number'] on None raises after
                               the connection was closed; the rollback of
                               the handler then fails on the closed
                               connection and that error leaves the view *)
                            Return (Raise (DatabaseError "MySQL Connection not available."))
                        end))
                    end))
                end end end
          end))
          end)
      end
  end.

Definition create_booking : option booking_request -> entropy -> txn (result response) :=
  create_booking_with quantum_trinity.

(** The row a successful booking inserts and the state it commits. *)
Definition booking_row (data : booking_request) (s : seat) (qrng_ref : str)
           (kyber : kyber_result) (dilithium : dilithium_result)
  : booking_values :=
  {| booking_seat_id := seat_id s;
     booking_flight_id := flight_id_of data;
     pqc_ref := qrng_ref;
     Store.passenger_name := passenger_name_of data;
     kyber_capsule := capsule kyber;
     passport_enc := encrypted_data kyber;
     encryption_nonce := nonce kyber;
     pqc_signature := signature dilithium;
     ticket_data_hash := data_hash dilithium |}.

Definition booked_state (d : db) (s : seat) (v : booking_values) : db :=
  {| flights := flights d;
     seats := map (set_booked (seat_id s)) (seats d);
     bookings := bookings d
                 ++ [{| booking_id := bookings_auto_increment d;
                        booking_cols := v |}];
     bookings_auto_increment := (bookings_auto_increment d + 1)%Z |}.

(** [d[k1][k2]] on a JSON body. *)
Definition jget2 (k1 k2 : string) (j : json) : option json :=
  match jget k1 j with
  | Some j1 => jget k2 j1
  | None => None
  end.

(** POST /api/verify *)
Definition verify_ticket (data : option verify_request) : txn (result response) :=
  match data with
  | Some {| req_booking_ref := Some booking_ref |} =>
      let booking_ref := upper (strip booking_ref) in
      Connect (fun connected =>
      match connected with
      | Raise ex =>
          if is_Exception ex then Return (Ok (error_response 500 (exn_str ex)))
          else Return (Raise ex)
      | Ok _ =>
          SelectBookingByRef booking_ref (fun booking =>
          match booking with
          | None =>
              Return (Ok booking_not_found)
          | Some (b, s, f) =>
              let cols := booking_cols b in
              match dilithium_verify (pqc_ref cols) (booking_seat_id cols)
                      (booking_flight_id cols) (Store.passenger_name cols)
                      (pqc_signature cols) (ticket_data_hash cols) with
              | Raise ex =>
                  if is_Exception ex then Return (Ok (error_response 500 (exn_str ex)))
                  else Return (Raise ex)
              | Ok is_valid =>
                  Return (Ok {| status := 200;
                                body :=
                                  JObj [("success", JBool true);
                                        ("data",
                                         JObj [("verified", JBool is_valid);
                                               ("message",
                                                JStr (lit (if is_valid
                                                           then "Signature verified successfully"
                                                           else "Signature verification failed")));
                                               ("ticket",
                                                JObj [("booking_ref", JStr (pqc_ref cols));
                                                      ("flight_number", JStr (flight_number f));
                                                      ("route", JStr (origin f ++ [32; 8594; 32]%N ++ destination f));
                                                      ("passenger", JStr (Store.passenger_name cols));
                                                      ("seat", JStr (row_num s ++ col_num s ++ lit " ("
                                                                     ++ seat_class s ++ lit ")"))]);
                                               ("security",
                                                JObj [("signature_algorithm", JStr (lit "Dilithium3-Simulation"));
                                                      ("mock_mode", JBool true)])])] |})
              end
          end)
      end)
  | _ => Return (Ok (error_response 400 (lit "Booking reference required")))
  end.

End WithLibraries.

End Server.

(** ** The handlers on a live connection

    [Store.run] follows a handler through its statements and returns the
    committed rows.  The interpreter of this module keeps what [Store.run]
    drops or takes for granted:
    - the connection as the handler leaves it (its buffered writes and row
      locks) and the statements that took effect, in order;
    - the outcome of [get_db_connection], which may fail;
    - the conversion of statement parameters: mysql.connector encodes a
      [str] parameter as UTF-8 before it sends the statement, so a text that
      UTF-8 cannot encode makes [cursor.execute] raise before anything is
      sent, and the [except] clauses of the handler take over;
    - the widths of the columns of [bookings] (init_db.py): [pqc_ref]
      VARCHAR(100), [passenger_name] VARCHAR(255), the others TEXT (65535
      octets).  A value that does not fit is refused when the server's
      sql_mode is strict, and stored truncated otherwise. *)

Module Session.

Import Py Store Server.

(** What the handlers do not decide: whether the sql_mode of the server
    has STRICT_TRANS_TABLES, and the exception [cursor.execute] raises for
    a parameter it cannot convert (the codec's [UnicodeEncodeError], or an
    error class of the connector that wraps it, depending on the
    connector's version and implementation). *)
Class Deployment := {
  strict : bool;
  conversion_error : exn
}.

Definition strict_server : Deployment :=
  {| strict := true; conversion_error := UnicodeEncodeError |}.
Definition lenient_server : Deployment :=
  {| strict := false; conversion_error := UnicodeEncodeError |}.
(** A connector that wraps the codec's error in its own error class. *)
Definition wrapping_connector : Deployment :=
  {| strict := true;
     conversion_error :=
       DatabaseError "Failed processing format-parameters; 'utf-8' codec can't encode character: surrogates not allowed" |}.

(** A [str] parameter can be converted for the wire. *)
Definition encodable (s : str) : bool := is_ok (utf8_encode s).

Definition sendable (v : booking_values) : bool :=
  encodable (pqc_ref v) && encodable (passenger_name v)
  && encodable (kyber_capsule v) && encodable (passport_enc v)
  && encodable (encryption_nonce v) && encodable (pqc_signature v)
  && encodable (ticket_data_hash v).

(** *** Column widths *)

Definition TEXT_OCTETS : N := 65535.

Definition utf8_length (s : str) : nat :=
  match utf8_encode s with
  | Ok b => List.length b
  | Raise _ => 0
  end.

Definition fits_varchar (n : nat) (s : str) : bool := (List.length s <=? n)%nat.
Definition fits_text (s : str) : bool :=
  (N.of_nat (utf8_length s) <=? TEXT_OCTETS)%N.

Definition fits (v : booking_values) : bool :=
  fits_varchar 100 (pqc_ref v) && fits_varchar 255 (passenger_name v)
  && fits_text (kyber_capsule v) && fits_text (passport_enc v)
  && fits_text (encryption_nonce v) && fits_text (pqc_signature v)
  && fits_text (ticket_data_hash v).

(** The longest prefix of whole characters within a budget of octets. *)
Fixpoint take_octets (budget : nat) (s : str) : str :=
  match s with
  | [] => []
  | c :: s' =>
      match utf8_encode_char c with
      | Ok b =>
          if (List.length b <=? budget)%nat
          then c :: take_octets (budget - List.length b) s'
          else []
      | Raise _ => []
      end
  end.

Definition clip_text (s : str) : str :=
  if fits_text s then s else take_octets (N.to_nat TEXT_OCTETS) s.

(** The row a server that is not strict stores. *)
Definition clipped (v : booking_values) : booking_values :=
  {| booking_seat_id := booking_seat_id v;
     booking_flight_id := booking_flight_id v;
     pqc_ref := firstn 100 (pqc_ref v);
     Store.passenger_name := firstn 255 (Store.passenger_name v);
     kyber_capsule := clip_text (kyber_capsule v);
     passport_enc := clip_text (passport_enc v);
     encryption_nonce := clip_text (encryption_nonce v);
     pqc_signature := clip_text (pqc_signature v);
     ticket_data_hash := clip_text (ticket_data_hash v) |}.

(** The row the server stores for the values of an INSERT it accepts. *)
Definition stored_row (v : booking_values) : booking_values :=
  if fits v then v else clipped v.

(** *** Executions *)

(** A statement that took effect on the server. *)
Inductive event : Type :=
| Connected
| TransactionStarted
| SeatSelectedForUpdate (fid : Z) (row col : str)
| SeatUpdated (id : Z)
| BookingInserted (row : booking_values)
| FlightSelected (fid : Z)
| BookingSelected (ref : str)
| Committed
| RolledBack.

(** How a handler ends: what it returns, the committed rows, the
    connection as it leaves it, and the statements that took effect. *)
Record ending (A : Type) : Type := {
  answer : A;
  stored : db;
  session : conn;
  log : list event
}.
Arguments answer {A} _.
Arguments stored {A} _.
Arguments session {A} _.
Arguments log {A} _.

Section Execution.
Context `{Collation} `{Deployment}.
Context {A : Type}.

(** What [get_db_connection] does, and the [except] clauses in force. *)
Variable connection : result unit.
Variable except : exn -> txn A.

(** Statements whose parameters need no conversion and whose rows fit:
    this is how the [except] clauses run. *)
Fixpoint observe (p : txn A) (d : db) (c : conn) (l : list event) : ending A :=
  match p with
  | Return a => {| answer := a; stored := d; session := c; log := l |}
  | Connect k =>
      observe (k connection) d c
        (match connection with Ok _ => l ++ [Connected] | Raise _ => l end)
  | StartTransaction k => observe k d c (l ++ [TransactionStarted])
  | SelectSeatForUpdate fid row col k =>
      match select_seat (view d c) fid row col with
      | None => observe (k None) d c (l ++ [SeatSelectedForUpdate fid row col])
      | Some s =>
          observe (k (Some s)) d (lock_row c (seat_id s))
            (l ++ [SeatSelectedForUpdate fid row col])
      end
  | UpdateSeatBooked id k =>
      observe k d (update_seat_booked c id) (l ++ [SeatUpdated id])
  | InsertBooking v k =>
      let '(r, d', c') := insert_booking d c v in
      observe (k r) d' c'
        (match r with Ok _ => l ++ [BookingInserted v] | Raise _ => l end)
  | SelectFlight fid k =>
      observe (k (select_flight (view d c) fid)) d c (l ++ [FlightSelected fid])
  | SelectBookingByRef ref k =>
      observe (k (select_booking_by_ref (view d c) ref)) d c
        (l ++ [BookingSelected ref])
  | Commit k => observe k (view d c) fresh_conn (l ++ [Committed])
  | Rollback k => observe k d fresh_conn (l ++ [RolledBack])
  end.

(** The handler statement by statement.  A parameter that cannot be
    converted raises [conversion_error] in [cursor.execute], before
    anything is sent; a row that does not fit is refused (error 1406) by a
    strict server and truncated by the others. *)
Fixpoint execute (p : txn A) (d : db) (c : conn) (l : list event) : ending A :=
  match p with
  | Return a => {| answer := a; stored := d; session := c; log := l |}
  | Connect k =>
      execute (k connection) d c
        (match connection with Ok _ => l ++ [Connected] | Raise _ => l end)
  | StartTransaction k => execute k d c (l ++ [TransactionStarted])
  | SelectSeatForUpdate fid row col k =>
      if encodable row && encodable col then
        match select_seat (view d c) fid row col with
        | None => execute (k None) d c (l ++ [SeatSelectedForUpdate fid row col])
        | Some s =>
            execute (k (Some s)) d (lock_row c (seat_id s))
              (l ++ [SeatSelectedForUpdate fid row col])
        end
      else observe (except conversion_error) d c l
  | UpdateSeatBooked id k =>
      execute k d (update_seat_booked c id) (l ++ [SeatUpdated id])
  | InsertBooking v k =>
      if negb (sendable v) then observe (except conversion_error) d c l
      else if negb (fits v) && strict then
        execute (k (Raise (DatabaseError "1406 (22001): Data too long for column")))
          d c l
      else
        let v' := stored_row v in
        let '(r, d', c') := insert_booking d c v' in
        execute (k r) d' c'
          (match r with Ok _ => l ++ [BookingInserted v'] | Raise _ => l end)
  | SelectFlight fid k =>
      execute (k (select_flight (view d c) fid)) d c (l ++ [FlightSelected fid])
  | SelectBookingByRef ref k =>
      if encodable ref then
        execute (k (select_booking_by_ref (view d c) ref)) d c
          (l ++ [BookingSelected ref])
      else observe (except conversion_error) d c l
  | Commit k => execute k (view d c) fresh_conn (l ++ [Committed])
  | Rollback k => execute k d fresh_conn (l ++ [RolledBack])
  end.

End Execution.

(** *** The two handlers *)

(** The [except] clause of [verify_ticket]. *)
Definition verify_except (ex : exn) : txn (result response) :=
  if is_Exception ex then Return (Ok (error_response 500 (exn_str ex)))
  else Return (Raise ex).

(** POST /api/book served on a new connection. *)
Definition create_booking `{Collation} `{Deployment} `{Unicode}
           (connection : result unit) (q : trinity)
           (data : option booking_request) (e : entropy) (d : db)
  : ending (result response) :=
  execute connection rolled_back (create_booking_with q data e) d fresh_conn [].

(** POST /api/verify served on a new connection. *)
Definition verify_ticket `{Collation} `{Deployment} `{Unicode} `{Hashlib}
           (connection : result unit) (data : option verify_request) (d : db)
  : ending (result response) :=
  execute connection verify_except (Server.verify_ticket data) d fresh_conn [].

(** The exception the quantum gap raises, if any: reference generation,
    passport encryption and signing, in this order. *)
Definition gap_exception (q : trinity) (passport : str) (seat_id flight_id : Z)
           (passenger_name : str) (e : entropy) : option exn :=
  match qrng q e with
  | Raise ex => Some ex
  | Ok (qrng_ref, e) =>
      match kem q passport e with
      | Raise ex => Some ex
      | Ok (_, e) =>
          match dsa q qrng_ref seat_id flight_id passenger_name e with
          | Raise ex => Some ex
          | Ok _ => None
          end
      end
  end.

End Session.



(** ** A concrete deployment

    Stand-ins for the external libraries and a seeded database, on which the
    handlers can be run.  The digests are a checksum in a fixed-size frame;
    the "cipher" leaves the data as it is and authenticates it with that
    digest. *)

Module Scenario.

Import Py Config Libs Store Server.
Open Scope N_scope.

(** The sum of the octets, of which [checksum] is the low octet. *)
Definition total (m : bytes) : N :=
  fold_right (fun b acc => Byte.to_N b + acc) 0 m.

Definition checksum (m : bytes) : byte := byte_of_N (total m).

Definition digest (size : nat) (m : bytes) : bytes :=
  checksum m :: repeat x00 (size - 1).

Definition hashlib : Hashlib :=
  {| sha256 := digest 32; sha512 := digest 64 |}.

Definition pycryptodome : PyCryptodome :=
  {| gcm_encrypt_and_digest := fun _ _ plaintext =>
       (plaintext, digest 16 plaintext);
     gcm_decrypt_and_verify := fun _ _ ciphertext tag =>
       if bytes_eqb tag (digest 16 ciphertext) then Ok ciphertext
       else Raise (ValueError "MAC check failed") |}.

Definition aesgcm : AESGCM :=
  {| aesgcm_encrypt := fun _ _ data => data ++ digest 16 data |}.

Definition oqs : Oqs :=
  {| kem_generate_keypair := fun _ e => (([], []), e);
     kem_encap_secret := fun _ _ e => (([], []), e);
     kem_decap_secret := fun _ _ _ => Ok [];
     sig_generate_keypair := fun _ e => (([], []), e);
     sig_sign := fun _ _ _ e => ([], e);
     sig_verify := fun _ _ _ _ => Ok false |}.

Definition unicode : Unicode := {| unicode_upper := fun c => [c] |}.
Definition collation : Collation := {| sql_eq := str_eqb |}.
Definition environment : Environment := {| CRYPTO_AVAILABLE := true |}.

(** No liboqs, no Qiskit, PyCryptodome installed. *)
Definition capabilities : Capabilities :=
  {| LIBOQS_AVAILABLE := false;
     QISKIT_AVAILABLE := false;
     PYCRYPTODOME_AVAILABLE := true |}.

(** Two entropy tapes. *)
Definition zeros : entropy := {| tape := fun _ => 0; pos := 0 |}.
Definition counting : entropy := {| tape := N.of_nat; pos := 0 |}.

(** Flight 1 of the seed data with two of its seats: 1A, which init_db
    marks as booked, and 5A. *)
Definition flight_1 : flight :=
  {| flight_id := 1;
     flight_number := lit "QA-101";
     origin := lit "New York (JFK)";
     destination := lit "London (LHR)";
     departure_time := Some (lit "2025-03-15T08:00:00") |}.

Definition seat_1A : seat :=
  {| seat_id := 1; seat_flight_id := 1; row_num := lit "1"; col_num := lit "A";
     seat_class := lit "first"; is_booked := true |}.

Definition seat_5A : seat :=
  {| seat_id := 25; seat_flight_id := 1; row_num := lit "5"; col_num := lit "A";
     seat_class := lit "economy"; is_booked := false |}.

Definition database : db :=
  {| flights := [flight_1];
     seats := [seat_1A; seat_5A];
     bookings := [];
     bookings_auto_increment := 1 |}.

(** The scenario of the specification: flight 1, seat 5A, passenger
    "Ada Lovelace", document "P000111". *)
Definition ada : booking_request :=
  {| req_flight_id := Some 1%Z;
     req_row := Some (lit "5");
     req_col := Some (lit "A");
     req_name := Some (lit "Ada Lovelace");
     req_passport := Some (lit "P000111") |}.

(** The same request for seat 1A. *)
Definition ada_1A : booking_request :=
  {| req_flight_id := Some 1%Z;
     req_row := Some (lit "1");
     req_col := Some (lit "A");
     req_name := Some (lit "Ada Lovelace");
     req_passport := Some (lit "P000111") |}.

(** A request whose passport text holds a lone surrogate (the JSON
    escape \ud800), which UTF-8 cannot encode. *)
Definition unencodable : booking_request :=
  {| req_flight_id := Some 1%Z;
     req_row := Some (lit "5");
     req_col := Some (lit "A");
     req_name := Some (lit "Ada Lovelace");
     req_passport := Some [0xD800] |}.

Definition book (data : booking_request) (e : entropy) : txn (result response) :=
  @create_booking environment hashlib aesgcm unicode (Some data) e.

(** Ada's booking of seat 5A on the seeded database: the response and the
    state afterwards. *)
Definition booked : result response * db :=
  @run collation _ (book ada zeros) database fresh_conn.

Definition confirmation : response :=
  match fst booked with
  | Ok resp => resp
  | Raise _ => error_response 500 []
  end.

(** The identity document of the scenario. *)
Definition passport : str := lit "P000111".

(** A ticket text signed by the mock signer, and the fields of the
    result. *)
Definition ticket : str := lit "ticket".

Definition signed_ticket : result (json * entropy) :=
  @Signer.sign capabilities hashlib oqs ticket zeros.

Definition text_field (key : string) (r : result (json * entropy)) : str :=
  match r with
  | Ok (d, _) => match jget key d with Some (JStr s) => s | _ => [] end
  | Raise _ => []
  end.

Definition ticket_signature : str := text_field "signature" signed_ticket.
Definition ticket_public_key : str := text_field "public_key" signed_ticket.

Definition mock_verify (data signature_hex public_key_hex : str) : result json :=
  @Signer.verify capabilities hashlib oqs data signature_hex public_key_hex.

(** The [valid] field of a verification result. *)
Definition valid (r : result json) : option bool :=
  match r with
  | Ok v => match jget "valid" v with Some (JBool b) => Some b | _ => None end
  | Raise _ => None
  end.

(** The signature of the ticket with the octet at index 100, inside the
    padding that follows the 64 octets of the HMAC, replaced by 0xff. *)
Definition padding_tampered_signature : str :=
  match fromhex ticket_signature with
  | Ok signature => hex (tamper 100 xff signature)
  | Raise _ => []
  end.

(** Two requests for seat 5A served at once, and the interleaving in which
    the first one to ask for the row lock obtains it. *)
Definition pool (calls : list (booking_request * entropy))
  : db * list (worker (result response)) :=
  (database, map (fun c => spawn (book (fst c) (snd c))) calls).

Definition outcome_of (turns : list nat) (calls : list (booking_request * entropy))
  : db * list (worker (result response)) :=
  match @schedule collation _ turns (pool calls) with
  | Some s => s
  | None => pool calls
  end.

Definition race_calls : list (booking_request * entropy) :=
  [(ada, zeros); (ada, counting)].

Definition race_turns : list nat := [0; 1; 0; 1; 0; 0; 0; 0; 0; 1; 1]%nat.

Definition race_final : db * list (worker (result response)) :=
  outcome_of race_turns race_calls.

(** Two requests for seat 5A whose passport number UTF-8 cannot encode. *)
Definition failing_calls : list (booking_request * entropy) :=
  [(unencodable, zeros); (unencodable, counting)].

Definition failing_turns : list nat := [0; 1; 0; 1; 0; 0; 1; 1]%nat.

Definition failing_final : db * list (worker (result response)) :=
  outcome_of failing_turns failing_calls.

End Scenario.

(** ** Concurrent bookings of one seat

    The states a booking handler passes through when several requests for
    the same seat are served at once, each on its own connection.  The
    programs below are the parts of [Server.create_booking_with] that remain
    to be run at each point; Part II shows that a step of a handler leads
    from one to the next. *)

Module Contention.

Import Py Store Server.

(** The outcome of the quantum gap when none of its steps raises. *)
Definition quantum_gap_results (q : trinity) (passport : str)
           (seat_id flight_id : Z) (passenger_name : str) (e : entropy)
  : option (str * kyber_result * dilithium_result) :=
  match qrng q e with
  | Raise _ => None
  | Ok (qrng_ref, e) =>
      match kem q passport e with
      | Raise _ => None
      | Ok (kyber, e) =>
          match dsa q qrng_ref seat_id flight_id passenger_name e with
          | Raise _ => None
          | Ok (dilithium, _) => Some (qrng_ref, kyber, dilithium)
          end
      end
  end.

(** One invocation: the request, its entropy, and what its quantum gap
    produces. *)
Record attempt : Type := {
  a_data : booking_request;
  a_entropy : entropy;
  a_ref : str;
  a_kyber : kyber_result;
  a_dilithium : dilithium_result
}.

(** Where a handler stands. *)
Inductive phase : Type :=
| Arrived      (* request received *)
| Connected    (* connection open *)
| Queued       (* transaction started, about to read the seat FOR UPDATE *)
| Conflict     (* holds the lock, has seen the seat booked *)
| Locked       (* holds the lock, quantum gap done, about to UPDATE *)
| Updated      (* UPDATE buffered, about to INSERT *)
| Inserted     (* INSERT buffered, about to read the flight *)
| Fetched      (* about to COMMIT *)
| Won          (* answered 201 *)
| Lost.        (* answered 409 *)

Definition holder (ph : phase) : bool :=
  match ph with
  | Conflict | Locked | Updated | Inserted | Fetched => true
  | _ => false
  end.

Definition writer (ph : phase) : bool :=
  match ph with
  | Locked | Updated | Inserted | Fetched => true
  | _ => false
  end.

Definition inserted (ph : phase) : bool :=
  match ph with
  | Inserted | Fetched => true
  | _ => false
  end.

Definition conflict (ph : phase) : bool :=
  match ph with Conflict => true | _ => false end.

Definition won (ph : phase) : bool :=
  match ph with Won => true | _ => false end.

Definition lost (ph : phase) : bool :=
  match ph with Lost => true | _ => false end.

(** Statements left to execute, at most. *)
Definition rank (ph : phase) : nat :=
  match ph with
  | Arrived => 7
  | Connected => 6
  | Queued => 5
  | Locked => 4
  | Updated => 3
  | Inserted => 2
  | Fetched => 1
  | Conflict => 1
  | Won => 0
  | Lost => 0
  end.

Definition count (p : phase -> bool) (st : list (attempt * phase)) : nat :=
  List.length (filter (fun x => p (snd x)) st).

Definition waiting (ph : phase) : bool :=
  match ph with Arrived | Connected | Queued => true | _ => false end.

(** The requests as they arrive. *)
Definition arrivals (attempts : list attempt) : list (attempt * phase) :=
  map (fun a => (a, Arrived)) attempts.

(** The database after an INSERT has consumed an auto-increment value. *)
Definition bumped (d : db) : db :=
  {| flights := flights d; seats := seats d; bookings := bookings d;
     bookings_auto_increment := (bookings_auto_increment d + 1)%Z |}.

Definition total_rank (st : list (attempt * phase)) : nat :=
  fold_right (fun x acc => (rank (snd x) + acc)%nat) 0%nat st.

(** The number of responses with a given status. *)
Definition count_status (code : Z) (rs : list (result response)) : nat :=
  List.length (filter (fun r => match r with
                                | Ok resp => (status resp =? code)%Z
                                | Raise _ => false
                                end) rs).

(** The number of booking rows of a seat. *)
Definition bookings_of_seat (d : db) (id : Z) : nat :=
  List.length (filter (fun b => (booking_seat_id (booking_cols b) =? id)%Z)
                      (bookings d)).

Section Seat.

Context {unicode : Unicode} {collation : Collation}.

(** The services, the database before the requests arrive, the contended
    seat as stored in it, and its flight. *)
Variable q : trinity.
Variable d0 : db.
Variable s0 : seat.
Variable fl : flight.

Definition next_id : Z := bookings_auto_increment d0.

Definition row (a : attempt) : booking_values :=
  booking_row (a_data a) s0 (a_ref a) (a_kyber a) (a_dilithium a).

Definition confirmation (a : attempt) : response :=
  booking_confirmation next_id (a_ref a) (passenger_name_of (a_data a)) fl
    (seat_id s0) (row_num_of (a_data a)) (col_num_of (a_data a)) (seat_class s0)
    (a_kyber a) (a_dilithium a).

Definition rejection (a : attempt) : response :=
  seat_already_booked (row_num_of (a_data a)) (col_num_of (a_data a)).

(** The handler after the flight has been read. *)
Definition after_flight (a : attempt) (booking_id : Z) (flight : option flight)
  : txn (result response) :=
  Commit (
    match flight with
    | Some flight =>
        Return (Ok (booking_confirmation booking_id (a_ref a)
                      (passenger_name_of (a_data a)) flight (seat_id s0)
                      (row_num_of (a_data a)) (col_num_of (a_data a))
                      (seat_class s0) (a_kyber a) (a_dilithium a)))
    | None => Return (Raise (DatabaseError "MySQL Connection not available."))
    end).

(** The handler after the INSERT. *)
Definition after_insert (a : attempt) (inserted : result Z) : txn (result response) :=
  match inserted with
  | Raise ex => rolled_back ex
  | Ok booking_id => SelectFlight (flight_id_of (a_data a)) (after_flight a booking_id)
  end.

(** The commit phase. *)
Definition commit_phase (a : attempt) : txn (result response) :=
  UpdateSeatBooked (seat_id s0) (InsertBooking (row a) (after_insert a)).

(** The handler after the locking read of the seat. *)
Definition with_seat (data : booking_request) (e : entropy) (seat : option seat)
  : txn (result response) :=
  let flight_id := flight_id_of data in
  let row_num := row_num_of data in
  let col_num := col_num_of data in
  let passenger_name := passenger_name_of data in
  let passport := passport_of data in
  match seat with
  | None =>
      Rollback (Return (Ok (error_response 404
        (lit "Seat " ++ row_num ++ col_num ++ lit " not found on this flight"))))
  | Some seat =>
      if is_booked seat then
        Rollback (Return (Ok (seat_already_booked row_num col_num)))
      else
        let seat_id := Store.seat_id seat in
        let seat_class := Store.seat_class seat in
        match qrng q e with
        | Raise ex => rolled_back ex
        | Ok (qrng_ref, e) =>
        match kem q passport e with
        | Raise ex => rolled_back ex
        | Ok (kyber_result, e) =>
        match dsa q qrng_ref seat_id flight_id passenger_name e with
        | Raise ex => rolled_back ex
        | Ok (dilithium_result, e) =>
            UpdateSeatBooked seat_id (
            InsertBooking
              {| booking_seat_id := seat_id;
                 booking_flight_id := flight_id;
                 pqc_ref := qrng_ref;
                 Store.passenger_name := passenger_name;
                 kyber_capsule := capsule kyber_result;
                 passport_enc := encrypted_data kyber_result;
                 encryption_nonce := nonce kyber_result;
                 pqc_signature := signature dilithium_result;
                 ticket_data_hash := data_hash dilithium_result |}
              (fun inserted =>
            match inserted with
            | Raise ex => rolled_back ex
            | Ok booking_id =>
                SelectFlight flight_id (fun flight =>
                Commit (
                match flight with
                | Some flight =>
                    Return (Ok (booking_confirmation booking_id qrng_ref
                                  passenger_name flight seat_id row_num
                                  col_num seat_class kyber_result
                                  dilithium_result))
                | None =>
                    Return (Raise (DatabaseError "MySQL Connection not available."))
                end))
            end))
        end end end
  end.

Definition read_seat (a : attempt) : txn (result response) :=
  SelectSeatForUpdate (flight_id_of (a_data a)) (row_num_of (a_data a))
    (col_num_of (a_data a)) (with_seat (a_data a) (a_entropy a)).

(** The connections of the lock holder. *)
Definition holding : conn := lock_row fresh_conn (seat_id s0).
Definition updating : conn := update_seat_booked holding (seat_id s0).
Definition inserting (a : attempt) : conn :=
  {| pending := pending updating
                ++ [WInsertBooking {| booking_id := next_id; booking_cols := row a |}];
     locks := locks updating |}.

(** The handler of an attempt at each phase. *)
Definition worker_at (a : attempt) (ph : phase) : worker (result response) :=
  match ph with
  | Arrived => spawn (create_booking_with q (Some (a_data a)) (a_entropy a))
  | Connected => {| w_conn := fresh_conn; w_prog := StartTransaction (read_seat a) |}
  | Queued => {| w_conn := fresh_conn; w_prog := read_seat a |}
  | Conflict => {| w_conn := holding; w_prog := Rollback (Return (Ok (rejection a))) |}
  | Locked => {| w_conn := holding; w_prog := commit_phase a |}
  | Updated => {| w_conn := updating; w_prog := InsertBooking (row a) (after_insert a) |}
  | Inserted => {| w_conn := inserting a;
                   w_prog := SelectFlight (flight_id_of (a_data a)) (after_flight a next_id) |}
  | Fetched => {| w_conn := inserting a;
                  w_prog := Commit (Return (Ok (confirmation a))) |}
  | Won => {| w_conn := fresh_conn; w_prog := Return (Ok (confirmation a)) |}
  | Lost => {| w_conn := fresh_conn; w_prog := Return (Ok (rejection a)) |}
  end.

Definition pool_of (st : list (attempt * phase)) : list (worker (result response)) :=
  map (fun x => worker_at (fst x) (snd x)) st.

(** An attempt addresses the contended seat with a complete request, its
    quantum gap succeeds with the recorded results, and its reference
    collides with no stored one. *)
Definition sound (a : attempt) : Prop :=
  missing_fields (a_data a) = []
  /\ select_seat d0 (flight_id_of (a_data a)) (row_num_of (a_data a))
       (col_num_of (a_data a)) = Some s0
  /\ quantum_gap_results q (passport_of (a_data a)) (seat_id s0)
       (flight_id_of (a_data a)) (passenger_name_of (a_data a)) (a_entropy a)
     = Some (a_ref a, a_kyber a, a_dilithium a)
  /\ forallb (fun b => negb (sql_eq (pqc_ref (booking_cols b)) (a_ref a)))
             (bookings d0) = true.

(** The seat is free, has no booking row, and its flight exists. *)
Definition seat_is_free : Prop :=
  is_booked s0 = false
  /\ forallb (fun b => negb (booking_seat_id (booking_cols b) =? seat_id s0)%Z)
             (bookings d0) = true
  /\ select_flight d0 (seat_flight_id s0) = Some fl.

(** While nobody has committed, the tables are the initial ones and nobody
    has been answered; once somebody has, the seat is booked with the
    winner's row and nobody else is writing. *)
Definition unbooked_stage (d : db) (st : list (attempt * phase)) : Prop :=
  flights d = flights d0 /\ seats d = seats d0 /\ bookings d = bookings d0
  /\ bookings_auto_increment d = (next_id + Z.of_nat (count inserted st))%Z
  /\ count won st = 0%nat /\ count lost st = 0%nat /\ count conflict st = 0%nat.

Definition booked_stage (d : db) (st : list (attempt * phase)) : Prop :=
  (exists a, d = booked_state d0 s0 (row a))
  /\ count won st = 1%nat /\ count writer st = 0%nat.

Definition invariant (d : db) (st : list (attempt * phase)) : Prop :=
  (count holder st <= 1)%nat
  /\ Forall (fun x => sound (fst x)) st
  /\ (unbooked_stage d st \/ booked_stage d st).

(** The claim about a final state: one success, all others conflicts, the
    seat booked, one booking row for it. *)
Definition single_winner (n : nat) (d : db) (ws : list (worker (result response)))
           (fid : Z) (row_num col_num : str) : Prop :=
  List.length (responses ws) = n
  /\ count_status 201 (responses ws) = 1%nat
  /\ count_status 409 (responses ws) = (n - 1)%nat
  /\ (exists s, select_seat d fid row_num col_num = Some s
                /\ seat_id s = seat_id s0 /\ is_booked s = true)
  /\ bookings_of_seat d (seat_id s0) = 1%nat.

End Seat.

(** A call of the booking handler whose request is complete and addresses
    the seat, whose quantum gap raises nothing and whose reference is new
    to the database. *)
Definition well_behaved `{Unicode} `{Collation} (q : trinity) (d0 : db) (s0 : seat)
           (c : booking_request * entropy) : Prop :=
  exists ref kyber dilithium,
    sound q d0 s0 {| a_data := fst c; a_entropy := snd c; a_ref := ref;
                     a_kyber := kyber; a_dilithium := dilithium |}.

End Contention.

(** ** Contracts of the environment

    What the theorems of Part II assume of the libraries and of the
    database server, beyond [Py.sha512_is_64_bytes] and the AES-GCM
    contract of [Libs]. *)

Module Assumptions.

Import Py Libs Store Server.

(** SHA-256 digests have 32 octets. *)
Definition sha256_is_32_bytes `{Hashlib} : Prop :=
  forall m : bytes, List.length (sha256 m) = 32%nat.

(** A text value equals itself under the collation. *)
Definition collation_reflexive `{Collation} : Prop :=
  forall s : str, sql_eq s s = true.

(** Every required field of a booking request is present and truthy: the
    flight id is not 0 and the four texts are not empty. *)
Definition complete_request (data : booking_request) : Prop :=
  (exists z, req_flight_id data = Some z /\ z <> 0%Z)
  /\ (exists r, req_row data = Some r /\ r <> [])
  /\ (exists c, req_col data = Some c /\ c <> [])
  /\ (exists n, req_name data = Some n /\ n <> [])
  /\ (exists p, req_passport data = Some p /\ p <> []).

End Assumptions.

(** ** A deployment with liboqs

    The contracts of the lattice schemes the real backends rely on, and a
    stand-in for liboqs that meets them (the key pair is one random string;
    encapsulation prepends the key to the shared secret; a signature is the
    digest of key and message). *)

Module Installed.

Import Py Config Libs.

(** Decapsulation with the secret key of a pair recovers the secret that
    was encapsulated to its public key. *)
Definition kem_correct `{Oqs} : Prop :=
  forall (variant : string) (e e1 e2 : entropy)
         (public_key secret_key encapsulated shared : bytes),
    kem_generate_keypair variant e = ((public_key, secret_key), e1) ->
    kem_encap_secret variant public_key e1 = ((encapsulated, shared), e2) ->
    kem_decap_secret variant secret_key encapsulated = Ok shared.

(** Secret keys and encapsulations are not empty. *)
Definition kem_nonempty `{Oqs} : Prop :=
  forall (variant : string) (e e1 e2 : entropy)
         (public_key secret_key encapsulated shared : bytes),
    kem_generate_keypair variant e = ((public_key, secret_key), e1) ->
    kem_encap_secret variant public_key e1 = ((encapsulated, shared), e2) ->
    secret_key <> [] /\ encapsulated <> [].

(** A signature made with the secret key of a pair verifies under its
    public key; keys and signatures are not empty. *)
Definition sig_correct `{Oqs} : Prop :=
  forall (variant : string) (e e1 e2 : entropy)
         (public_key secret_key message sig : bytes),
    sig_generate_keypair variant e = ((public_key, secret_key), e1) ->
    sig_sign variant secret_key message e1 = (sig, e2) ->
    sig_verify variant message sig public_key = Ok true
    /\ sig <> [] /\ public_key <> [].

Definition keypair (e : entropy) : (bytes * bytes) * entropy :=
  let '(k, e) := token_bytes 4 e in ((k, k), e).

Definition liboqs : Oqs :=
  {| kem_generate_keypair := fun _ e => keypair e;
     kem_encap_secret := fun _ public_key e =>
       let '(shared, e) := token_bytes 32 e in ((public_key ++ shared, shared), e);
     kem_decap_secret := fun _ secret_key encapsulated =>
       if bytes_eqb (firstn (List.length secret_key) encapsulated) secret_key
       then Ok (skipn (List.length secret_key) encapsulated)
       else Raise (ValueError "Can not decapsulate secret");
     sig_generate_keypair := fun _ e => keypair e;
     sig_sign := fun _ secret_key message e =>
       (Scenario.digest 8 (secret_key ++ message), e);
     sig_verify := fun _ message sig public_key =>
       Ok (bytes_eqb sig (Scenario.digest 8 (public_key ++ message))) |}.

(** liboqs, Qiskit and PyCryptodome installed. *)
Definition all_installed : Capabilities :=
  {| LIBOQS_AVAILABLE := true;
     QISKIT_AVAILABLE := true;
     PYCRYPTODOME_AVAILABLE := true |}.

(** No PyCryptodome. *)
Definition without_pycryptodome : Capabilities :=
  {| LIBOQS_AVAILABLE := false;
     QISKIT_AVAILABLE := false;
     PYCRYPTODOME_AVAILABLE := false |}.

End Installed.

(** ** server.py: the seat map of GET /api/seats

    The part of [get_seats] that runs on the rows fetched for a flight:
    the loop that groups them into the rows of the cabin, and the
    statistics.  The rows arrive in the order the database returned
    them. *)

Module SeatMap.

Import Py Store.

(** One element of a row's ['seats'] list. *)
Record seat_entry : Type := {
  entry_id : Z;
  entry_col : str;
  entry_label : str;
  entry_is_booked : bool
}.

(** One element of [seat_map]. *)
Record row_data : Type := {
  rd_row : str;
  rd_class : str;
  rd_seats : list seat_entry
}.

Definition entry_of (seat : seat) : seat_entry :=
  {| entry_id := seat_id seat;
     entry_col := col_num seat;
     entry_label := row_num seat ++ col_num seat;
     entry_is_booked := is_booked seat |}.

(** The variables of the loop: [seat_map], and [current_row] with
    [row_data], which are [None] together until the first seat and are
    assigned together afterwards. *)
Definition loop_state : Type := list row_data * option (str * row_data).

(** One iteration of [for seat in seats]. *)
Definition loop_body (st : loop_state) (seat : seat) : loop_state :=
  let '(seat_map, current) := st in
  let row := row_num seat in
  let fresh := {| rd_row := row; rd_class := seat_class seat; rd_seats := [] |} in
  let '(seat_map, row_data) :=
    match current with
    | None => (seat_map, fresh)
    | Some (current_row, row_data) =>
        if negb (str_eqb row current_row)
        then (seat_map ++ [row_data], fresh)
        else (seat_map, row_data)
    end in
  (seat_map,
   Some (row, {| rd_row := rd_row row_data;
                 rd_class := rd_class row_data;
                 rd_seats := rd_seats row_data ++ [entry_of seat] |})).

(** The loop followed by the final [if row_data: seat_map.append(row_data)]. *)
Definition seat_map_of (seats : list seat) : list row_data :=
  let '(seat_map, current) := fold_left loop_body seats ([], None) in
  match current with
  | Some (_, row_data) => seat_map ++ [row_data]
  | None => seat_map
  end.

(** The rows the loop holds: the finished ones and the one in progress. *)
Definition rows_held (st : loop_state) : list row_data :=
  match snd st with
  | Some (_, row_data) => fst st ++ [row_data]
  | None => fst st
  end.

(** [total], [booked] and [available]. *)
Definition total_seats (seats : list seat) : Z := Z.of_nat (List.length seats).
Definition booked_seats (seats : list seat) : Z :=
  Z.of_nat (List.length (filter is_booked seats)).
Definition available_seats (seats : list seat) : Z :=
  (total_seats seats - booked_seats seats)%Z.

(** No two neighbours of a list are equal. *)
Fixpoint neighbours_differ (l : list str) : Prop :=
  match l with
  | a :: ((b :: _) as rest) => a <> b /\ neighbours_differ rest
  | _ => True
  end.

End SeatMap.
(** ** init_db.py

    The state [init_db] leaves when the server is reachable and no statement
    fails: the schema is created empty, five flights are inserted, sixty
    seats are generated for each flight id the table returns, and two seats
    of flight 1 are marked as booked.  AUTO_INCREMENT numbers the rows of a
    fresh table from 1 in the order of insertion. *)

Module InitDb.

Import Py Store.

(** The rows of [flights_data] with the columns [Store.flight] keeps; the
    departure time is written as [isoformat] renders the stored DATETIME. *)
Definition flights_data : list (str * str * str * str) :=
  [(lit "QA-101", lit "New York (JFK)", lit "London (LHR)", lit "2025-03-15T08:00:00");
   (lit "QA-202", lit "Tokyo (NRT)", lit "Singapore (SIN)", lit "2025-03-16T14:30:00");
   (lit "QA-303", lit "Dubai (DXB)", lit "Sydney (SYD)", lit "2025-03-17T22:00:00");
   (lit "QA-404", lit "Los Angeles (LAX)", lit "Paris (CDG)", lit "2025-03-18T10:00:00");
   (lit "QA-505", lit "Frankfurt (FRA)", lit "Hong Kong (HKG)", lit "2025-03-19T13:00:00")].

Fixpoint insert_flights (next_id : Z) (rows : list (str * str * str * str))
  : list flight :=
  match rows with
  | [] => []
  | (number, from, to, departure) :: rest =>
      {| flight_id := next_id; flight_number := number; origin := from;
         destination := to; departure_time := Some departure |}
      :: insert_flights (next_id + 1) rest
  end.

(** [range(1, 11)] and the column letters. *)
Definition rows : list Z := map Z.of_nat (seq 1 10).
Definition columns : list str :=
  [lit "A"; lit "B"; lit "C"; lit "D"; lit "E"; lit "F"].

Definition seat_class_of (r : Z) : str :=
  if (r <=? 2)%Z then lit "first"
  else if (r <=? 4)%Z then lit "business"
  else lit "economy".

(** The list [seat_data] the three nested loops build. *)
Definition seat_data (flight_ids : list Z) : list (Z * str * str * str) :=
  flat_map (fun f_id =>
    flat_map (fun r =>
      map (fun c => (f_id, str_of_Z r, c, seat_class_of r)) columns) rows)
    flight_ids.

(** INSERT INTO seats (flight_id, row_num, col_num, class): [is_booked]
    takes its default 0. *)
Fixpoint insert_seats (next_id : Z) (data : list (Z * str * str * str))
  : list seat :=
  match data with
  | [] => []
  | (f_id, r, c, class) :: rest =>
      {| seat_id := next_id; seat_flight_id := f_id; row_num := r; col_num := c;
         seat_class := class; is_booked := false |}
      :: insert_seats (next_id + 1) rest
  end.

(** UPDATE seats SET is_booked = 1
    WHERE flight_id = %s AND row_num = %s AND col_num = %s *)
Definition book_where `{Collation} (fid : Z) (row col : str) (s : seat) : seat :=
  if (seat_flight_id s =? fid)%Z && sql_eq (row_num s) row && sql_eq (col_num s) col
  then {| seat_id := seat_id s; seat_flight_id := seat_flight_id s;
          row_num := row_num s; col_num := col_num s;
          seat_class := seat_class s; is_booked := true |}
  else s.

Definition init_db `{Collation} : db :=
  let flights := insert_flights 1 flights_data in
  let flight_ids := map flight_id flights in
  let seats := insert_seats 1 (seat_data flight_ids) in
  let seats := map (book_where 1 (lit "1") (lit "A")) seats in
  let seats := map (book_where 1 (lit "1") (lit "B")) seats in
  {| flights := flights; seats := seats; bookings := [];
     bookings_auto_increment := 1 |}.

(** The key of the constraint [unique_seat]. *)
Definition seat_key (row : Z * str * str * str) : Z * str * str :=
  let '(f_id, r, c, _) := row in (f_id, r, c).

(** The position of a column letter in the row. *)
Definition column_index (c : str) : Z :=
  match c with
  | [65%N] => 0%Z
  | [66%N] => 1%Z
  | [67%N] => 2%Z
  | [68%N] => 3%Z
  | [69%N] => 4%Z
  | _ => 5%Z
  end.

(** On the row and column labels of the seeded seats the collation
    decides equality as written. *)
Definition exact_on_labels `{Collation} : Prop :=
  forall a b : str,
    In a (map str_of_Z rows ++ columns) -> In b (map str_of_Z rows ++ columns) ->
    sql_eq a b = str_eqb a b.

End InitDb.

(* ===================================================================== *)
(** * Part II.  Lemmas and theorems                                       *)
(* ===================================================================== *)

Import Py.
Local Open Scope N_scope.

Unset Implicit Arguments.

(** ** Octets *)

Lemma to_N_lt (b : byte) : Byte.to_N b < 256.
Proof. pose proof (Byte.to_N_bounded b); lia. Qed.

Lemma to_N_byte_of_N (n : N) : Byte.to_N (byte_of_N n) = n mod 256.
Proof.
  unfold byte_of_N.
  destruct (Byte.of_N (n mod 256)) as [b|] eqn:E.
  - now apply Byte.to_of_N.
  - apply Byte.of_N_None_iff in E.
    pose proof (N.mod_lt n 256). lia.
Qed.

Lemma byte_of_to_N (b : byte) : byte_of_N (Byte.to_N b) = b.
Proof.
  unfold byte_of_N.
  rewrite N.mod_small by apply to_N_lt.
  now rewrite Byte.of_to_N.
Qed.

Lemma to_N_inj (a b : byte) : Byte.to_N a = Byte.to_N b -> a = b.
Proof.
  intros E. rewrite <- (byte_of_to_N a), <- (byte_of_to_N b). now rewrite E.
Qed.

(** Every octet occurs in [all_bytes], which lets a property of one or two
    octets be settled by evaluation. *)
Lemma all_bytes_complete (b : byte) : In b all_bytes.
Proof.
  unfold all_bytes. apply in_map_iff.
  exists (N.to_nat (Byte.to_N b)). split.
  - rewrite N2Nat.id. apply byte_of_to_N.
  - apply in_seq. pose proof (to_N_lt b). lia.
Qed.

Lemma byte_forall (P : byte -> bool) :
  forallb P all_bytes = true -> forall b, P b = true.
Proof.
  intros H b. rewrite forallb_forall in H. apply H, all_bytes_complete.
Qed.

Lemma byte_forall2 (P : byte -> byte -> bool) :
  forallb (fun a => forallb (P a) all_bytes) all_bytes = true ->
  forall a b, P a b = true.
Proof.
  intros H a b.
  pose proof (byte_forall _ H a) as Ha. cbv beta in Ha.
  exact (byte_forall _ Ha b).
Qed.

(** ** Hexadecimal and base64 *)

Lemma fromhex_hex_cons (b : byte) (rest : str) :
  fromhex (hex [b] ++ rest) = bind (fromhex rest) (fun r => Ok (b :: r)).
Proof. destruct b; reflexivity. Qed.

Lemma hex_cons (b : byte) (bs : bytes) : hex (b :: bs) = hex [b] ++ hex bs.
Proof. reflexivity. Qed.

Lemma fromhex_hex (b : bytes) : fromhex (hex b) = Ok b.
Proof.
  induction b as [|x b IH]; [reflexivity|].
  rewrite hex_cons, fromhex_hex_cons, IH. reflexivity.
Qed.

Lemma sextet_table (s : N) :
  s < 64 ->
  Byte.eqb (table_b2a_base64 s) BASE64_PAD = false
  /\ table_a2b_base64 (table_b2a_base64 s) = Some s.
Proof.
  intros Hs.
  assert (H : forallb (fun i =>
              negb (Byte.eqb (table_b2a_base64 (N.of_nat i)) BASE64_PAD)
              && match table_a2b_base64 (table_b2a_base64 (N.of_nat i)) with
                 | Some v => v =? N.of_nat i
                 | None => false
                 end) (seq 0 64) = true) by (vm_compute; reflexivity).
  rewrite forallb_forall in H.
  specialize (H (N.to_nat s)).
  rewrite N2Nat.id in H.
  assert (Hin : In (N.to_nat s) (seq 0 64)) by (apply in_seq; lia).
  apply H in Hin. apply andb_true_iff in Hin. destruct Hin as [H1 H2].
  split.
  - now apply negb_true_iff.
  - destruct (table_a2b_base64 (table_b2a_base64 s)); [|discriminate].
    apply N.eqb_eq in H2. now subst.
Qed.


(** Sextet and octet identities of the base64 bit shuffling. *)
Lemma b64_bits12 (a b : byte) :
  let x := Byte.to_N a in let y := Byte.to_N b in
  (sextet1 x <? 64) && (sextet2 x y <? 64)
  && Byte.eqb (byte_of_N (N.lor (N.shiftl (sextet1 x) 2) (N.shiftr (sextet2 x y) 4))) a
  && (N.land (sextet2 x y) 15 =? N.shiftr y 4) = true.
Proof. revert a b. apply byte_forall2. vm_compute. reflexivity. Qed.

Lemma b64_bits23 (a b : byte) :
  let y := Byte.to_N a in let z := Byte.to_N b in
  (sextet3 y z <? 64) && (sextet4 z <? 64)
  && Byte.eqb (byte_of_N (N.lor (N.shiftl (N.shiftr y 4) 4) (N.shiftr (sextet3 y z) 2))) a
  && Byte.eqb (byte_of_N (N.lor (N.shiftl (N.land (sextet3 y z) 3) 6) (sextet4 z))) b
  = true.
Proof. revert a b. apply byte_forall2. vm_compute. reflexivity. Qed.

Lemma byte_eqb_eq (a b : byte) : Byte.eqb a b = true -> a = b.
Proof. apply Byte.byte_dec_bl. Qed.

Lemma sextets_ok (a b c : byte) :
  let x := Byte.to_N a in let y := Byte.to_N b in let z := Byte.to_N c in
  sextet1 x < 64 /\ sextet2 x y < 64 /\ sextet3 y z < 64 /\ sextet4 z < 64
  /\ byte_of_N (N.lor (N.shiftl (sextet1 x) 2) (N.shiftr (sextet2 x y) 4)) = a
  /\ byte_of_N (N.lor (N.shiftl (N.land (sextet2 x y) 15) 4)
                      (N.shiftr (sextet3 y z) 2)) = b
  /\ byte_of_N (N.lor (N.shiftl (N.land (sextet3 y z) 3) 6) (sextet4 z)) = c.
Proof.
  cbv zeta.
  pose proof (b64_bits12 a b) as H12. pose proof (b64_bits23 b c) as H23.
  cbv zeta in H12, H23.
  repeat (apply andb_true_iff in H12; destruct H12 as [H12 ?]).
  repeat (apply andb_true_iff in H23; destruct H23 as [H23 ?]).
  repeat match goal with
         | H : (_ <? _) = true |- _ => apply N.ltb_lt in H
         | H : (_ =? _) = true |- _ => apply N.eqb_eq in H
         | H : Byte.eqb _ _ = true |- _ => apply byte_eqb_eq in H
         end.
  repeat split; try assumption.
  match goal with H : N.land _ 15 = _ |- _ => rewrite H end. assumption.
Qed.

Lemma a2b_step (s : N) rest q l p out :
  s < 64 ->
  a2b_base64_loop (table_b2a_base64 s :: rest) q l p out =
  if q =? 0 then a2b_base64_loop rest 1 s 0 out
  else if q =? 1 then
    a2b_base64_loop rest 2 (N.land s 15) 0
      (out ++ [byte_of_N (N.lor (N.shiftl l 2) (N.shiftr s 4))])
  else if q =? 2 then
    a2b_base64_loop rest 3 (N.land s 3) 0
      (out ++ [byte_of_N (N.lor (N.shiftl l 4) (N.shiftr s 2))])
  else a2b_base64_loop rest 0 0 0 (out ++ [byte_of_N (N.lor (N.shiftl l 6) s)]).
Proof.
  intros Hs. destruct (sextet_table s Hs) as [Hpad Htab].
  cbn [a2b_base64_loop]. rewrite Hpad, Htab. reflexivity.
Qed.

Lemma a2b_b64encode (bin out : bytes) :
  a2b_base64_loop (b64encode bin) 0 0 0 out = Ok (out ++ bin).
Proof.
  revert out.
  induction bin as [bin IH] using (induction_ltof1 _ (@List.length byte)).
  unfold ltof in IH. intros out.
  destruct bin as [|a [|b [|c rest]]].
  - cbn. now rewrite app_nil_r.
  - destruct (sextets_ok a x00 x00) as (H1 & H2 & _ & _ & E1 & _).
    cbn [b64encode]. change (Byte.to_N x00) with 0 in *.
    rewrite !a2b_step by assumption. cbn [N.eqb Pos.eqb].
    rewrite E1. reflexivity.
  - destruct (sextets_ok a b x00) as (H1 & H2 & H3 & _ & E1 & E2 & _).
    cbn [b64encode]. change (Byte.to_N x00) with 0 in *.
    rewrite !a2b_step by assumption. cbn [N.eqb Pos.eqb].
    rewrite E1, E2. cbn. now rewrite <- app_assoc.
  - destruct (sextets_ok a b c) as (H1 & H2 & H3 & H4 & E1 & E2 & E3).
    cbn [b64encode].
    rewrite !a2b_step by assumption. cbn [N.eqb Pos.eqb].
    rewrite E1, E2, E3, IH by (cbn; lia).
    now rewrite <- !app_assoc.
Qed.

Lemma a2b_base64_b64encode (bin : bytes) : a2b_base64 (b64encode bin) = Ok bin.
Proof. unfold a2b_base64. now rewrite a2b_b64encode. Qed.

(** *** ASCII and UTF-8 *)

Lemma utf8_decode_ascii (bs : bytes) :
  Forall is_ascii_byte bs -> utf8_decode bs = Ok (map Byte.to_N bs).
Proof.
  induction 1 as [|b bs Hb _ IH]; [reflexivity|].
  cbn [utf8_decode map]. cbv zeta.
  apply N.ltb_lt in Hb. rewrite Hb, IH. reflexivity.
Qed.

Lemma ascii_encode_ascii (bs : bytes) :
  Forall is_ascii_byte bs -> ascii_encode (map Byte.to_N bs) = Ok bs.
Proof.
  induction 1 as [|b bs Hb _ IH]; [reflexivity|].
  cbn [ascii_encode map].
  apply N.ltb_lt in Hb. rewrite Hb, IH. cbn. now rewrite byte_of_to_N.
Qed.

Lemma table_b2a_ascii (s : N) : is_ascii_byte (table_b2a_base64 s).
Proof.
  unfold table_b2a_base64.
  assert (H : Forall is_ascii_byte (x00 :: b64_alphabet)).
  { apply Forall_forall. intros b Hb.
    assert (F : forallb (fun b => Byte.to_N b <? 128) (x00 :: b64_alphabet) = true)
      by (vm_compute; reflexivity).
    rewrite forallb_forall in F. apply N.ltb_lt. now apply F. }
  rewrite Forall_forall in H. apply H.
  destruct (nth_in_or_default (N.to_nat s) b64_alphabet x00) as [Hin|Hd].
  - now right.
  - left. now rewrite Hd.
Qed.

Lemma b64encode_ascii (bin : bytes) : Forall is_ascii_byte (b64encode bin).
Proof.
  induction bin as [bin IH] using (induction_ltof1 _ (@List.length byte)).
  unfold ltof in IH.
  assert (Hpad : is_ascii_byte BASE64_PAD) by (vm_compute; reflexivity).
  destruct bin as [|a [|b [|c rest]]]; cbn [b64encode];
    repeat (apply Forall_cons; [first [apply table_b2a_ascii | exact Hpad]|]);
    try apply Forall_nil.
  apply IH. cbn. lia.
Qed.

Lemma b64encode_str_eq (bin : bytes) :
  b64encode_str bin = Ok (map Byte.to_N (b64encode bin)).
Proof. apply utf8_decode_ascii, b64encode_ascii. Qed.

(** [b64decode] inverts [b64encode] through the text form. *)
Lemma b64decode_b64encode (bin : bytes) (s : str) :
  b64encode_str bin = Ok s -> b64decode s = Ok bin.
Proof.
  rewrite b64encode_str_eq. intros [= <-].
  unfold b64decode. rewrite ascii_encode_ascii by apply b64encode_ascii.
  apply a2b_base64_b64encode.
Qed.

Ltac bool_to_prop :=
  repeat match goal with
         | H : (_ && _) = true |- _ => apply andb_true_iff in H; destruct H
         | H : (_ && _) = false |- _ => apply andb_false_iff in H; destruct H
         | H : (_ || _) = false |- _ => apply orb_false_iff in H; destruct H
         | H : negb _ = true |- _ => apply negb_true_iff in H
         | H : negb _ = false |- _ => apply negb_false_iff in H
         | H : (_ <? _) = true |- _ => apply N.ltb_lt in H
         | H : (_ <? _) = false |- _ => apply N.ltb_ge in H
         | H : (_ <=? _) = true |- _ => apply N.leb_le in H
         | H : (_ <=? _) = false |- _ => apply N.leb_gt in H
         | H : (_ =? _) = true |- _ => apply N.eqb_eq in H
         | H : (_ =? _) = false |- _ => apply N.eqb_neq in H
         end.

Ltac split_if :=
  match goal with
  | |- context [if ?b then _ else _] =>
      let E := fresh "E" in destruct b eqn:E; bool_to_prop; try lia
  end.

Lemma split64 (c : N) :
  exists q r, c = 64 * q + r /\ r < 64 /\ c / 64 = q /\ c mod 64 = r.
Proof.
  exists (c / 64), (c mod 64). repeat split.
  - apply N.div_mod. discriminate.
  - apply N.mod_lt. discriminate.
Qed.

Lemma div_4096 (c : N) : c / 4096 = c / 64 / 64.
Proof. now rewrite N.Div0.div_div. Qed.

Lemma div_262144 (c : N) : c / 262144 = c / 64 / 64 / 64.
Proof. now rewrite !N.Div0.div_div. Qed.

Ltac use_split64 c :=
  let q := fresh "q" in let r := fresh "r" in
  let Hc := fresh "Hc" in let Hr := fresh "Hr" in
  let Hq := fresh "Hq" in let Hm := fresh "Hm" in
  destruct (split64 c) as (q & r & Hc & Hr & Hq & Hm);
  rewrite ?Hq, ?Hm in *.

Ltac finish_decode rest :=
  rewrite !to_N_byte_of_N; rewrite !N.mod_small by lia;
  repeat split_if;
  destruct (utf8_decode rest); cbn [bind]; try reflexivity;
  do 2 f_equal; lia.

Lemma Ok_inj {A} (a b : A) : Ok a = Ok b -> a = b.
Proof. now intros [= ->]. Qed.

Lemma utf8_decode_encode_char (c : N) (bs rest : bytes) :
  utf8_encode_char c = Ok bs ->
  utf8_decode (bs ++ rest) = bind (utf8_decode rest) (fun s => Ok (c :: s)).
Proof.
  unfold utf8_encode_char, is_surrogate.
  destruct (c <? 0x80) eqn:E1; bool_to_prop.
  { intros E; apply Ok_inj in E; subst bs.
    cbn [app utf8_decode]; cbv zeta; unfold is_cont.
    finish_decode rest. }
  destruct (c <? 0x800) eqn:E2; bool_to_prop.
  { intros E; apply Ok_inj in E; subst bs.
    cbn [app utf8_decode]; cbv zeta; unfold is_cont.
    use_split64 c. finish_decode rest. }
  destruct (c <? 0x10000) eqn:E3; bool_to_prop.
  { destruct ((0xD800 <=? c) && (c <=? 0xDFFF)) eqn:E4; [discriminate|].
    intros E; apply Ok_inj in E; subst bs.
    cbn [app utf8_decode]; cbv zeta; unfold is_cont.
    rewrite div_4096.
    use_split64 c. use_split64 q.
    bool_to_prop; finish_decode rest. }
  destruct (c <? 0x110000) eqn:E4; bool_to_prop; [|discriminate].
  intros E; apply Ok_inj in E; subst bs.
  cbn [app utf8_decode]; cbv zeta; unfold is_cont.
  rewrite div_262144, div_4096.
  use_split64 c. use_split64 q. use_split64 q0.
  finish_decode rest.
Qed.

Lemma utf8_decode_encode (s : str) (bs : bytes) :
  utf8_encode s = Ok bs -> utf8_decode bs = Ok s.
Proof.
  revert bs. induction s as [|c s IH]; intros bs.
  - now intros [= <-].
  - cbn [utf8_encode].
    destruct (utf8_encode_char c) as [b|] eqn:Ec; [|discriminate].
    destruct (utf8_encode s) as [r|] eqn:Es; [|discriminate].
    cbn [bind]. intros [= <-].
    rewrite (@utf8_decode_encode_char c b r Ec), (IH r eq_refl). reflexivity.
Qed.


(** ** The [secrets] module *)

Lemma token_bytes_length (n : nat) (e : entropy) :
  List.length (fst (token_bytes n e)) = n.
Proof. unfold token_bytes. cbn [fst]. now rewrite length_map, length_seq. Qed.

Lemma randbelow_ok (n : N) (e : entropy) :
  n <> 0 ->
  exists k, randbelow n e = Ok (k, {| tape := tape e; pos := S (pos e) |}) /\ k < n.
Proof.
  intros Hn. unfold randbelow.
  destruct (N.eqb_spec n 0) as [->|_]; [congruence|].
  eexists. split; [reflexivity|]. now apply N.mod_lt.
Qed.

Lemma choice_ok (s : str) (e : entropy) :
  s <> [] ->
  exists c e', choice s e = Ok (c, e') /\ In c s.
Proof.
  intros Hs. unfold choice.
  destruct s as [|c0 s0]; [congruence|].
  destruct (@randbelow_ok (N.of_nat (List.length (c0 :: s0))) e) as (k & -> & Hk).
  { cbn [List.length]. lia. }
  cbn [bind]. eexists _, _. split; [reflexivity|].
  apply nth_In. lia.
Qed.

(** ** Entropy service *)

Section EntropyProperties.

Import Config Entropy.

Lemma charset_size : List.length BOOKING_CHARSET = 32%nat.
Proof. reflexivity. Qed.

Lemma generate_qrng_mock_loop_ok (n : nat) (e : entropy) :
  exists r e', generate_qrng_mock_loop n e = Ok (r, e')
               /\ List.length r = n /\ Forall in_charset r.
Proof.
  revert e. induction n as [|n IH]; intros e.
  - exists [], e. repeat split. constructor.
  - cbn [generate_qrng_mock_loop].
    destruct (@choice_ok BOOKING_CHARSET e) as (c & e1 & -> & Hc);
      [discriminate|].
    cbn [bind].
    destruct (IH e1) as (r & e2 & -> & Hlen & Hall).
    cbn [bind]. exists (c :: r), e2. repeat split.
    + cbn [List.length]. now rewrite Hlen.
    + now constructor.
Qed.

Lemma bits_to_booking_ref_loop_ok (remaining : nat) :
  forall (num : N) (result : str) (e : entropy),
    Forall in_charset result ->
    exists r e', bits_to_booking_ref_loop BOOKING_CHARSET remaining num result e
                 = Ok (r, e')
                 /\ List.length r = (List.length result + remaining)%nat
                 /\ Forall in_charset r.
Proof.
  induction remaining as [|rem IH]; intros num result e Hres.
  - exists result, e. repeat split; [cbn; lia | assumption].
  - cbn [bits_to_booking_ref_loop]. rewrite charset_size.
    change (N.of_nat 32 =? 0) with false. cbv iota zeta.
    set (result' := result ++ _).
    assert (Hres' : Forall in_charset result').
    { apply Forall_app. split; [assumption|]. constructor; [|constructor].
      apply nth_In. rewrite charset_size.
      pose proof (N.mod_lt num (N.of_nat 32)). lia. }
    assert (Hlen' : List.length result' = S (List.length result)).
    { unfold result'. rewrite length_app. cbn. lia. }
    destruct ((num / N.of_nat 32 =? 0) && negb (Nat.eqb rem 0)).
    + destruct (@randbelow_ok (N.of_nat 32 ^ N.of_nat rem) e) as (k & -> & _).
      { apply N.pow_nonzero. discriminate. }
      cbn [bind].
      destruct (IH k result' {| tape := tape e; pos := S (pos e) |} Hres')
        as (r & e' & -> & Hl & Ha).
      exists r, e'. repeat split; [lia | assumption].
    + destruct (IH (num / N.of_nat 32) result' e Hres') as (r & e' & -> & Hl & Ha).
      exists r, e'. repeat split; [lia | assumption].
Qed.

Lemma int_base2_ok (b : bool) (bits : list bool) :
  exists n, int_base2 (b :: bits) = Ok n.
Proof. eexists. reflexivity. Qed.

Lemma generate_booking_reference_ok `{Capabilities} (length : Z) (e : entropy) :
  returns_reference_of_length length (clamp_length length) e.
Proof.
  unfold returns_reference_of_length, generate_booking_reference.
  set (len := if (length <? 4)%Z then 4%Z
              else if (length >? MAX_LENGTH)%Z then MAX_LENGTH else length).
  assert (Hlen : len = clamp_length length).
  { unfold len, clamp_length, MAX_LENGTH.
    destruct (Z.ltb_spec length 4); [lia|].
    destruct (Z.gtb_spec length 32); lia. }
  assert (Hpos : (4 <= len)%Z) by (rewrite Hlen; unfold clamp_length; lia).
  destruct QISKIT_AVAILABLE; cbn [negb].
  - (* quantum circuit simulation *)
    unfold generate_qrng_real, bits_to_booking_ref.
    destruct (Z.to_nat (len * 6)) as [|nb] eqn:Enb; [lia|].
    cbn [seq map].
    destruct (int_base2_ok (N.odd (tape e (pos e + 0)%nat))
                (map (fun i => N.odd (tape e (pos e + i)%nat)) (seq 1 nb)))
      as (num & ->).
    cbn [bind].
    destruct (@bits_to_booking_ref_loop_ok (Z.to_nat len) num []
                {| tape := tape e; pos := (pos e + S nb)%nat |}
                (Forall_nil _)) as (r & e' & -> & Hl & Ha).
    cbn [bind]. eexists _, r, _. split; [reflexivity|].
    cbn [List.length] in Hl.
    assert (Z.of_nat (List.length r) = clamp_length length) by lia.
    repeat split; try assumption.
    cbn. now do 2 f_equal.
  - (* secrets module *)
    unfold generate_qrng_mock.
    destruct (generate_qrng_mock_loop_ok (Z.to_nat len) e)
      as (r & e' & -> & Hl & Ha).
    cbn [bind]. eexists _, r, _. split; [reflexivity|].
    assert (Z.of_nat (List.length r) = clamp_length length) by lia.
    repeat split; try assumption.
    cbn. now do 2 f_equal.
Qed.

(** C8.  For every requested length, [generate_booking_reference] returns
    a reference whose length is the request clamped to the minimum 4 and
    the maximum 32 and whose characters all come from [BOOKING_CHARSET];
    the alphabet holds none of the look-alike characters I, O, 0 and 1; a
    request of length 8 yields 8 characters and a request of length 2 is
    clamped to 4.  This holds for the quantum-circuit backend and for the
    [secrets] backend alike. *)
Theorem booking_reference_shape :
  (forall (caps : Capabilities) (length : Z) (e : entropy),
      returns_reference_of_length length (Z.max 4 (Z.min 32 length)) e)
  /\ (forall (caps : Capabilities) (e : entropy),
         returns_reference_of_length 8 8 e)
  /\ (forall (caps : Capabilities) (e : entropy),
         returns_reference_of_length 2 4 e)
  /\ ~ in_charset 73 /\ ~ in_charset 79 /\ ~ in_charset 48 /\ ~ in_charset 49.
Proof.
  split; [|split; [|split]].
  - intros. apply generate_booking_reference_ok.
  - intros. apply (generate_booking_reference_ok 8).
  - intros. apply (generate_booking_reference_ok 2).
  - unfold in_charset. cbn.
    repeat split; intros H; repeat (destruct H as [H|H]; [discriminate|]);
      exact H.
Qed.

End EntropyProperties.


(** ** Booking references of the server *)

Section ServerReferences.

Import Libs Store Server.
Context {env : Environment} {hashlib : Hashlib} {aesgcm : AESGCM}
        {unicode : Unicode} {collation : Collation}.

Lemma upper_hex_byte (b : byte) :
  exists c1 c2, upper (hex [b]) = [c1; c2]
                /\ is_upper_hex c1 = true /\ is_upper_hex c2 = true.
Proof. destruct b; eexists _, _; repeat split; reflexivity. Qed.

Lemma upper_hex_bytes (bs : bytes) :
  exists cs, upper (hex bs) = cs
             /\ List.length cs = (2 * List.length bs)%nat
             /\ Forall (fun c => is_upper_hex c = true) cs.
Proof.
  induction bs as [|b bs (cs & E & Hl & Ha)].
  - exists []. repeat split. constructor.
  - destruct (upper_hex_byte b) as (c1 & c2 & Eb & Hc1 & Hc2).
    exists (c1 :: c2 :: cs). repeat split.
    + rewrite hex_cons. unfold upper in *. rewrite flat_map_app.
      now rewrite Eb, E.
    + cbn [List.length]. lia.
    + now repeat constructor.
Qed.

Lemma generate_quantum_entropy_format (e : entropy) :
  reference_format (fst (generate_quantum_entropy e)).
Proof.
  unfold generate_quantum_entropy.
  destruct (token_bytes 12 e) as [random_bytes e'] eqn:Et.
  assert (Hlen : List.length random_bytes = 12%nat).
  { pose proof (token_bytes_length 12 e) as Hl. now rewrite Et in Hl. }
  destruct (upper_hex_bytes random_bytes) as (cs & -> & Hl & Ha).
  rewrite Hlen in Hl.
  do 24 (destruct cs as [|? cs]; [discriminate|]).
  destruct cs; [|discriminate].
  cbn [fst]. unfold reference_format.
  eexists [_; _; _; _], [_; _; _; _], [_; _; _; _].
  split; [reflexivity|]. repeat split.
  repeat match goal with
         | Hf : Forall _ (_ :: _) |- _ => inversion Hf; subst; clear Hf
         end.
  now repeat constructor.
Qed.

End ServerReferences.

(** ** The booking handler on its own connection *)

Section BookingHandler.

Import Libs Store Server.
Context {env : Environment} {hashlib : Hashlib} {aesgcm : AESGCM}
        {unicode : Unicode} {collation : Collation}.

Lemma view_fresh (d : db) : view d fresh_conn = d.
Proof. reflexivity. Qed.

(** The handler up to the point where the seat row has been read under
    its lock. *)
Lemma run_create_booking_locked (q : trinity) (data : booking_request)
      (e : entropy) (d : db) (s : seat) :
  missing_fields data = [] ->
  select_seat d (flight_id_of data) (row_num_of data) (col_num_of data) = Some s ->
  run (create_booking_with q (Some data) e) d fresh_conn =
  run (if is_booked s then
         Rollback (Return (Ok (seat_already_booked (row_num_of data) (col_num_of data))))
       else
         match qrng q e with
         | Raise ex => rolled_back ex
         | Ok (qrng_ref, e) =>
         match kem q (passport_of data) e with
         | Raise ex => rolled_back ex
         | Ok (kyber_result, e) =>
         match dsa q qrng_ref (seat_id s) (flight_id_of data)
                 (passenger_name_of data) e with
         | Raise ex => rolled_back ex
         | Ok (dilithium_result, e) =>
             UpdateSeatBooked (seat_id s) (
             InsertBooking
               {| booking_seat_id := seat_id s;
                  booking_flight_id := flight_id_of data;
                  pqc_ref := qrng_ref;
                  Store.passenger_name := passenger_name_of data;
                  kyber_capsule := capsule kyber_result;
                  passport_enc := encrypted_data kyber_result;
                  encryption_nonce := nonce kyber_result;
                  pqc_signature := signature dilithium_result;
                  ticket_data_hash := data_hash dilithium_result |}
               (fun inserted =>
             match inserted with
             | Raise ex => rolled_back ex
             | Ok booking_id =>
                 SelectFlight (flight_id_of data) (fun flight =>
                 Commit (
                 match flight with
                 | Some flight =>
                     Return (Ok (booking_confirmation booking_id qrng_ref
                                   (passenger_name_of data) flight (seat_id s)
                                   (row_num_of data) (col_num_of data)
                                   (seat_class s) kyber_result dilithium_result))
                 | None =>
                     Return (Raise (DatabaseError "MySQL Connection not available."))
                 end))
             end))
         end end end)
      d (lock_row fresh_conn (seat_id s)).
Proof.
  intros Hmissing Hseat.
  unfold create_booking_with. rewrite Hmissing.
  cbn [run]. rewrite view_fresh, Hseat. reflexivity.
Qed.

Lemma run_rolled_back (ex : exn) (d : db) (c : conn) :
  exists r, run (rolled_back ex) d c = (r, d)
            /\ match r with
               | Ok resp => status resp = 500%Z
               | Raise ex' => ex' = ex /\ is_Exception ex = false
               end.
Proof.
  unfold rolled_back.
  destruct (is_mysql_Error ex); [eexists; split; reflexivity|].
  destruct (is_Exception ex) eqn:E; eexists; split; try reflexivity.
  now split.
Qed.

(** What a run of the handler that answers 201 has done. *)
Lemma run_create_booking_created (q : trinity) (data : option booking_request)
      (e : entropy) (d d' : db) (resp : response) :
  run (create_booking_with q data e) d fresh_conn = (Ok resp, d') ->
  status resp = 201%Z ->
  exists req s qrng_ref e1 kyber e2 dilithium e3 f,
    data = Some req
    /\ missing_fields req = []
    /\ select_seat d (flight_id_of req) (row_num_of req) (col_num_of req) = Some s
    /\ is_booked s = false
    /\ qrng q e = Ok (qrng_ref, e1)
    /\ kem q (passport_of req) e1 = Ok (kyber, e2)
    /\ dsa q qrng_ref (seat_id s) (flight_id_of req) (passenger_name_of req) e2
       = Ok (dilithium, e3)
    /\ resp = booking_confirmation (bookings_auto_increment d) qrng_ref
                (passenger_name_of req) f (seat_id s) (row_num_of req)
                (col_num_of req) (seat_class s) kyber dilithium
    /\ d' = booked_state d s (booking_row req s qrng_ref kyber dilithium).
Proof.
  intros Hrun Hstatus.
  assert (Hrb : forall ex d0 c, run (rolled_back ex) d0 c = (Ok resp, d') -> False).
  { intros ex d0 c Hr. destruct (run_rolled_back ex d0 c) as (r & Er & Hs).
    rewrite Er in Hr. injection Hr as -> _. rewrite Hs in Hstatus. discriminate. }
  destruct data as [req|];
    [|cbn in Hrun; injection Hrun as <- _; discriminate].
  destruct (missing_fields req) as [|m ms] eqn:Hmissing.
  2:{ unfold create_booking_with in Hrun. rewrite Hmissing in Hrun.
      cbn in Hrun. injection Hrun as <- _. discriminate. }
  destruct (select_seat d (flight_id_of req) (row_num_of req) (col_num_of req))
    as [s|] eqn:Hseat.
  2:{ unfold create_booking_with in Hrun. rewrite Hmissing in Hrun.
      cbn [run] in Hrun. rewrite view_fresh, Hseat in Hrun.
      cbn in Hrun. injection Hrun as <- _. discriminate. }
  rewrite (@run_create_booking_locked q req e d s Hmissing Hseat) in Hrun.
  destruct (is_booked s) eqn:Hfree.
  { cbn in Hrun. injection Hrun as <- _. discriminate. }
  destruct (qrng q e) as [[qrng_ref e1]|ex] eqn:Eq; [|now apply Hrb in Hrun].
  destruct (kem q (passport_of req) e1) as [[kyber e2]|ex] eqn:Ek;
    [|now apply Hrb in Hrun].
  destruct (dsa q qrng_ref (seat_id s) (flight_id_of req)
              (passenger_name_of req) e2) as [[dilithium e3]|ex] eqn:Es;
    [|now apply Hrb in Hrun].
  cbn [run] in Hrun. unfold insert_booking in Hrun.
  match type of Hrun with
  | context [insert_violation ?v ?x] => destruct (insert_violation v x) eqn:Ei
  end.
  { now apply Hrb in Hrun. }
  cbn [run] in Hrun.
  match type of Hrun with
  | context [select_flight ?v ?x] => destruct (select_flight v x) as [f|] eqn:Ef
  end.
  2:{ cbn in Hrun. discriminate. }
  cbn [run] in Hrun. injection Hrun as <- <-.
  exists req, s, qrng_ref, e1, kyber, e2, dilithium, e3, f.
  repeat split; solve [assumption | reflexivity].
Qed.

Lemma select_booking_by_ref_none (d : db) (ref : str) :
  forallb (fun b => negb (sql_eq (pqc_ref (booking_cols b)) ref)) (bookings d) = true ->
  select_booking_by_ref d ref = None.
Proof.
  intros Hno. unfold select_booking_by_ref.
  replace (flat_map _ (bookings d)) with (@nil (booking * seat * flight));
    [reflexivity|].
  induction (bookings d) as [|b bs IH]; [reflexivity|].
  cbn [forallb] in Hno. apply andb_true_iff in Hno. destruct Hno as [Hb Hbs].
  apply negb_true_iff in Hb.
  cbn [flat_map]. rewrite Hb. cbn [app]. now apply IH.
Qed.

(** C10.  The reference of every booking the handler confirms is the one
    [generate_quantum_entropy] produced: "QREF-" and three groups of four
    uppercase hexadecimal digits separated by hyphens, 19 characters.  It
    is returned in the response and stored in the new row.  Its digits are
    hexadecimal, an alphabet with the look-alike characters 0 and 1, which
    the booking alphabet of the entropy service excludes; the reference is
    never a word over that alphabet, and QREF-0000-0000-0000 is a
    reference the generator can return. *)
Theorem served_reference_format (data : option booking_request) (e : entropy)
        (d d' : db) (resp : response) :
  run (create_booking data e) d fresh_conn = (Ok resp, d') ->
  status resp = 201%Z ->
  exists ref,
    jget2 "booking" "booking_ref" (body resp) = Some (JStr ref)
    /\ (exists b, In b (bookings d') /\ pqc_ref (booking_cols b) = ref)
    /\ ref = fst (generate_quantum_entropy e)
    /\ reference_format ref
    /\ ~ Forall Entropy.in_charset ref
    /\ is_upper_hex 48 = true /\ is_upper_hex 49 = true
    /\ ~ Entropy.in_charset 48 /\ ~ Entropy.in_charset 49
    /\ (exists e0, fst (generate_quantum_entropy e0) = lit "QREF-0000-0000-0000").
Proof.
  intros Hrun Hstatus.
  destruct (run_create_booking_created _ _ _ _ _ _ Hrun Hstatus)
    as (req & s & ref & e1 & kyber & e2 & dil & e3 & f & -> & _ & _ & _
        & Eq & _ & _ & -> & ->).
  cbn [quantum_trinity qrng] in Eq.
  assert (Eref : ref = fst (generate_quantum_entropy e))
    by (apply Ok_inj in Eq; now rewrite Eq).
  exists ref. split; [reflexivity|]. split.
  { exists {| booking_id := bookings_auto_increment d;
              booking_cols := booking_row req s ref kyber dil |}.
    split; [|reflexivity].
    unfold booked_state; cbn [bookings]. apply in_or_app. right. now left. }
  split; [exact Eref|].
  pose proof (generate_quantum_entropy_format e) as Hfmt. rewrite <- Eref in Hfmt.
  split; [exact Hfmt|]. split.
  { destruct Hfmt as (g1 & g2 & g3 & -> & _).
    intros Hall. apply Forall_app in Hall. destruct Hall as [Hq _].
    apply Forall_forall with (x := 45) in Hq; [|cbn; tauto].
    unfold Entropy.in_charset in Hq. cbn in Hq.
    repeat (destruct Hq as [Hq|Hq]; [discriminate|]). exact Hq. }
  split; [reflexivity|]. split; [reflexivity|].
  split; [|split].
  - unfold Entropy.in_charset. cbn. intros Hq.
    repeat (destruct Hq as [Hq|Hq]; [discriminate|]). exact Hq.
  - unfold Entropy.in_charset. cbn. intros Hq.
    repeat (destruct Hq as [Hq|Hq]; [discriminate|]). exact Hq.
  - exists {| tape := fun _ => 0; pos := 0 |}. reflexivity.
Qed.

End BookingHandler.

(** The theorems above on the seeded database. *)

Section BookingHandlerScenario.

Import Libs Store Server Scenario.

#[local] Existing Instance environment.
#[local] Existing Instance hashlib.
#[local] Existing Instance aesgcm.
#[local] Existing Instance unicode.
#[local] Existing Instance collation.

Lemma booked_confirmed : booked = (Ok confirmation, snd booked).
Proof. vm_compute. reflexivity. Qed.

Lemma served_reference_format_witness :
  exists ref,
    jget2 "booking" "booking_ref" (body confirmation) = Some (JStr ref)
    /\ (exists b, In b (bookings (snd booked)) /\ pqc_ref (booking_cols b) = ref)
    /\ ref = fst (generate_quantum_entropy zeros)
    /\ reference_format ref
    /\ ~ Forall Entropy.in_charset ref
    /\ is_upper_hex 48 = true /\ is_upper_hex 49 = true
    /\ ~ Entropy.in_charset 48 /\ ~ Entropy.in_charset 49
    /\ (exists e0, fst (generate_quantum_entropy e0) = lit "QREF-0000-0000-0000").
Proof.
  apply (served_reference_format (Some ada) zeros database (snd booked) confirmation).
  - exact booked_confirmed.
  - vm_compute. reflexivity.
Defined.

End BookingHandlerScenario.

(** ** Slices and digests *)

Lemma slice_to_nonneg {A} (n : Z) (l : list A) :
  (0 <= n)%Z -> slice_to n l = firstn (Z.to_nat n) l.
Proof.
  intros Hn. unfold slice_to, slice_bound.
  destruct (Z.ltb_spec n 0); [lia | reflexivity].
Qed.

Lemma slice_from_nonneg {A} (n : Z) (l : list A) :
  (0 <= n)%Z -> slice_from n l = skipn (Z.to_nat n) l.
Proof.
  intros Hn. unfold slice_from, slice_bound.
  destruct (Z.ltb_spec n 0); [lia | reflexivity].
Qed.

Lemma bytes_eqb_eq (a b : bytes) : bytes_eqb a b = true <-> a = b.
Proof.
  unfold bytes_eqb. destruct (list_eq_dec Byte.byte_eq_dec a b); split;
    congruence.
Qed.

Lemma bytes_eqb_neq (a b : bytes) : bytes_eqb a b = false <-> a <> b.
Proof.
  unfold bytes_eqb. destruct (list_eq_dec Byte.byte_eq_dec a b); split;
    congruence.
Qed.

Lemma hex_eq_nil (b : bytes) : hex b = [] -> b = [].
Proof. destruct b; [reflexivity | discriminate]. Qed.

Lemma hmac_digest_length (H : bytes -> bytes) (n block : nat) (key msg : bytes) :
  (forall m, List.length (H m) = n) ->
  List.length (hmac_digest H block key msg) = n.
Proof. intros Hn. unfold hmac_digest. apply Hn. Qed.

(** ** Signature service *)

Section SignerProperties.

Import Config Libs Signer.
Context {caps : Capabilities} {hashlib : Hashlib} {oqs : Oqs}.

Lemma mock_signature_prefix (mac rest : bytes) :
  List.length mac = 64%nat ->
  slice_to 64 (slice_to 3293 (repeat_seq (mac ++ rest) 26)) = mac.
Proof.
  intros Hlen. rewrite !slice_to_nonneg by lia.
  rewrite firstn_firstn.
  change (Nat.min (Z.to_nat 64) (Z.to_nat 3293)) with 64%nat.
  cbn [repeat_seq]. rewrite <- app_assoc.
  rewrite firstn_app, Hlen, Nat.sub_diag, firstn_O, app_nil_r.
  rewrite <- Hlen. apply firstn_all.
Qed.

Lemma verify_mock_eq (data signature_hex public_key_hex : str) (data_bytes signature : bytes) :
  utf8_encode data = Ok data_bytes ->
  hex_to_bytes signature_hex = Ok signature ->
  exists v,
    verify_mock data signature_hex public_key_hex = Ok v
    /\ jget "valid" v
       = Some (JBool (compare_digest (slice_to 64 signature)
                        (hmac_sha512 QuantumConfig.MOCK_HMAC_KEY data_bytes))).
Proof.
  intros Hd Hs. unfold verify_mock. rewrite Hd, Hs. cbn [bind].
  eexists. split; reflexivity.
Qed.

Lemma verify_is_verify_mock (data signature_hex public_key_hex : str) :
  LIBOQS_AVAILABLE = false ->
  data <> [] -> signature_hex <> [] -> public_key_hex <> [] ->
  verify data signature_hex public_key_hex
  = verify_mock data signature_hex public_key_hex.
Proof.
  intros Hmock Hd Hs Hp. unfold verify. rewrite Hmock.
  destruct data; [congruence|]. destruct signature_hex; [congruence|].
  destruct public_key_hex; [congruence|]. reflexivity.
Qed.

Lemma sign_mock_eq (data : str) (data_bytes : bytes) (e : entropy) :
  utf8_encode data = Ok data_bytes ->
  exists d e' public_key,
    sign_mock data e = Ok (d, e')
    /\ jget "signature" d
       = Some (JStr (bytes_to_hex
                       (slice_to 3293
                          (repeat_seq
                             (hmac_sha512 QuantumConfig.MOCK_HMAC_KEY data_bytes
                              ++ sha512 public_key) 26))))
    /\ jget "public_key" d = Some (JStr (bytes_to_hex public_key))
    /\ List.length public_key = 1952%nat.
Proof.
  intros Hd. unfold sign_mock, sha256_hash. rewrite Hd. cbn [bind].
  destruct (token_bytes 4000 e) as [sk e1].
  pose proof (token_bytes_length 1952 e1) as Hl.
  destruct (token_bytes 1952 e1) as [pk e2]. cbn [fst] in Hl.
  eexists _, _, pk. split; [reflexivity|]. repeat split. exact Hl.
Qed.

Lemma compare_digest_true (a b : bytes) : compare_digest a b = true <-> a = b.
Proof. apply bytes_eqb_eq. Qed.

(** C5 (as the code has it).  With the simulated backend, a non-empty
    message that UTF-8 can encode is signed, and its signature verifies
    under the public key returned with it and under any other non-empty
    public key, which the mock verifier does not consult.  For any
    presented message and signature, verification answers whether the first
    64 octets of the signature equal the HMAC-SHA512 of the message under
    the fixed mock key: an altered message or signature is rejected exactly
    when the alteration changes that HMAC or those octets. *)
Theorem mock_signature_verifies (M : str) (Mb : bytes) (e : entropy) :
  LIBOQS_AVAILABLE = false ->
  sha512_is_64_bytes ->
  M <> [] ->
  utf8_encode M = Ok Mb ->
  exists d e' sig pk,
    sign M e = Ok (d, e')
    /\ jget "signature" d = Some (JStr sig)
    /\ jget "public_key" d = Some (JStr pk)
    /\ pk <> []
    /\ (forall pk' : str, pk' <> [] ->
          exists v, verify M sig pk' = Ok v
                    /\ jget "valid" v = Some (JBool true))
    /\ (forall (M' : str) (Mb' s' : bytes) (pk' : str),
          M' <> [] -> s' <> [] -> pk' <> [] -> utf8_encode M' = Ok Mb' ->
          exists v b,
            verify M' (bytes_to_hex s') pk' = Ok v
            /\ jget "valid" v = Some (JBool b)
            /\ (b = true <->
                slice_to 64 s' = hmac_sha512 QuantumConfig.MOCK_HMAC_KEY Mb')).
Proof.
  intros Hmock Hsha HM Henc.
  destruct (sign_mock_eq M Mb e Henc) as (d & e' & public_key & Hs & Hsig & Hpk & Hlen).
  set (mac := hmac_sha512 QuantumConfig.MOCK_HMAC_KEY Mb) in *.
  set (sigb := slice_to 3293 (repeat_seq (mac ++ sha512 public_key) 26)) in *.
  assert (Hmac : List.length mac = 64%nat) by (apply hmac_digest_length, Hsha).
  assert (Hprefix : slice_to 64 sigb = mac) by (apply mock_signature_prefix, Hmac).
  assert (Hsigb : bytes_to_hex sigb <> []).
  { intros E. apply hex_eq_nil in E. rewrite E in Hprefix.
    rewrite <- Hprefix in Hmac. discriminate. }
  assert (Hpkne : bytes_to_hex public_key <> []).
  { intros E. apply hex_eq_nil in E. rewrite E in Hlen. discriminate. }
  exists d, e', (bytes_to_hex sigb), (bytes_to_hex public_key).
  split.
  { unfold sign. rewrite Hmock. destruct M; [congruence | exact Hs]. }
  split; [exact Hsig|]. split; [exact Hpk|]. split; [exact Hpkne|]. split.
  - intros pk' Hpk'.
    rewrite (verify_is_verify_mock _ _ _ Hmock HM Hsigb Hpk').
    destruct (verify_mock_eq M (bytes_to_hex sigb) pk' Mb sigb Henc (fromhex_hex sigb))
      as (v & Hv & Hvalid).
    exists v. split; [exact Hv|]. rewrite Hvalid, Hprefix.
    do 2 f_equal. now apply compare_digest_true.
  - intros M' Mb' s' pk' HM' Hs' Hpk' Henc'.
    assert (Hs'ne : bytes_to_hex s' <> []).
    { intros E. now apply hex_eq_nil in E. }
    rewrite (verify_is_verify_mock _ _ _ Hmock HM' Hs'ne Hpk').
    destruct (verify_mock_eq M' (bytes_to_hex s') pk' Mb' s' Henc' (fromhex_hex s'))
      as (v & Hv & Hvalid).
    exists v, (compare_digest (slice_to 64 s')
                 (hmac_sha512 QuantumConfig.MOCK_HMAC_KEY Mb')).
    split; [exact Hv|]. split; [exact Hvalid|]. apply compare_digest_true.
Qed.

(** C7 for the signer (as the code has it): a presented signature whose
    first 64 octets are not the HMAC of the presented message is answered
    with [valid] false, and nothing is raised, whenever the message is
    UTF-8 text and the signature is a string of hexadecimal octets. *)
Lemma mock_verify_rejects (M' : str) (Mb' s' : bytes) (pk' : str) :
  LIBOQS_AVAILABLE = false ->
  M' <> [] -> s' <> [] -> pk' <> [] ->
  utf8_encode M' = Ok Mb' ->
  slice_to 64 s' <> hmac_sha512 QuantumConfig.MOCK_HMAC_KEY Mb' ->
  exists v, verify M' (bytes_to_hex s') pk' = Ok v
            /\ jget "valid" v = Some (JBool false).
Proof.
  intros Hmock HM' Hs' Hpk' Henc' Hdiff.
  assert (Hs'ne : bytes_to_hex s' <> []).
  { intros E. now apply hex_eq_nil in E. }
  rewrite (verify_is_verify_mock _ _ _ Hmock HM' Hs'ne Hpk').
  destruct (verify_mock_eq M' (bytes_to_hex s') pk' Mb' s' Henc' (fromhex_hex s'))
    as (v & Hv & Hvalid).
  exists v. split; [exact Hv|]. rewrite Hvalid. do 2 f_equal.
  now apply bytes_eqb_neq.
Qed.

End SignerProperties.

(** ** Signature verification of the server *)

Lemma ascii_encode_raises (s : str) (ex : exn) :
  ascii_encode s = Raise ex -> is_Exception ex = true.
Proof.
  induction s as [|c s IH]; [discriminate|].
  cbn [ascii_encode]. destruct (c <? 128).
  - destruct (ascii_encode s); [discriminate|].
    cbn [bind]. intros [= <-]. now apply IH.
  - now intros [= <-].
Qed.

Lemma a2b_base64_loop_raises (ascii_data : bytes) :
  forall (quad_pos leftchar pads : N) (bin_data : bytes) (ex : exn),
    a2b_base64_loop ascii_data quad_pos leftchar pads bin_data = Raise ex ->
    is_Exception ex = true.
Proof.
  induction ascii_data as [|c rest IH]; intros q l p out ex.
  - cbn [a2b_base64_loop].
    destruct (q =? 0); [discriminate|].
    destruct (q =? 1); now intros [= <-].
  - cbn [a2b_base64_loop].
    destruct (Byte.eqb c BASE64_PAD).
    + destruct ((2 <=? q) && (4 <=? q + (p + 1))); [discriminate | apply IH].
    + destruct (table_a2b_base64 c); [|apply IH].
      destruct (q =? 0); [apply IH|].
      destruct (q =? 1); [apply IH|].
      destruct (q =? 2); apply IH.
Qed.

Lemma b64decode_raises (s : str) (ex : exn) :
  b64decode s = Raise ex -> is_Exception ex = true.
Proof.
  unfold b64decode.
  destruct (ascii_encode s) as [b|ex'] eqn:E; cbn [bind].
  - apply a2b_base64_loop_raises.
  - intros [= <-]. now apply ascii_encode_raises in E.
Qed.

Lemma str_eqb_eq (a b : str) : str_eqb a b = true <-> a = b.
Proof.
  unfold str_eqb. destruct (list_eq_dec N.eq_dec a b); split; congruence.
Qed.

Section ServerVerification.

Import Libs Store Server.
Context {hashlib : Hashlib}.

Lemma dilithium_verify_eq (booking_ref : str) (seat_id flight_id : Z)
      (passenger_name signature data_hash : str) (message_bytes : bytes) :
  utf8_encode (ticket_message booking_ref seat_id flight_id passenger_name)
  = Ok message_bytes ->
  dilithium_verify booking_ref seat_id flight_id passenger_name signature data_hash
  = Ok (str_eqb (hex (sha256 message_bytes)) data_hash
        && match b64decode signature with
           | Ok decoded =>
               compare_digest (hmac_sha512 mock_private_key message_bytes)
                              (slice_to 64 decoded)
           | Raise _ => false
           end).
Proof.
  intros Henc. unfold dilithium_verify. rewrite Henc. cbn [bind].
  destruct (str_eqb (hex (sha256 message_bytes)) data_hash); cbn [negb andb];
    [|reflexivity].
  destruct (b64decode signature) as [decoded|ex] eqn:Ed; cbn [bind].
  - reflexivity.
  - now rewrite (b64decode_raises _ _ Ed).
Qed.

Lemma dilithium_verify_spec (booking_ref : str) (seat_id flight_id : Z)
      (passenger_name signature data_hash : str) (message_bytes : bytes) :
  utf8_encode (ticket_message booking_ref seat_id flight_id passenger_name)
  = Ok message_bytes ->
  exists valid : bool,
    dilithium_verify booking_ref seat_id flight_id passenger_name signature data_hash
    = Ok valid
    /\ (valid = true <->
        hex (sha256 message_bytes) = data_hash
        /\ exists decoded,
            b64decode signature = Ok decoded
            /\ slice_to 64 decoded = hmac_sha512 mock_private_key message_bytes).
Proof.
  intros Henc. eexists.
  split; [exact (dilithium_verify_eq _ _ _ _ signature data_hash _ Henc)|].
  rewrite andb_true_iff, str_eqb_eq.
  destruct (b64decode signature) as [decoded|ex].
  - rewrite compare_digest_true. split.
    + intros [Hh Hs]. split; [exact Hh|]. now exists decoded.
    + intros [Hh (decoded' & [= <-] & Hs)]. now split.
  - split; [intros [_ Hf]; discriminate|].
    intros [_ (decoded' & Hd & _)]. discriminate.
Qed.

End ServerVerification.

(** C7 (as the code has it).  Verification answers false, and raises
    nothing, when the message or the leading 64 octets of the signature
    have been altered so that those octets are no longer the HMAC-SHA512 of
    the message:
    - the mock verifier of the signer, for a message that is UTF-8 text and
      a signature that is a string of hexadecimal octets;
    - [dilithium_verify] of the server, which returns a boolean for every
      signature string and every data hash once the ticket fields are UTF-8
      text, and returns true only when the hash matches, the signature is
      decodable base64 and its first 64 octets are the HMAC.
    Octets of the signature after the 64th take no part in the answer. *)
Theorem tampering_is_rejected :
  forall (caps : Config.Capabilities) (hashlib : Hashlib) (oqs : Libs.Oqs),
    (forall (M' : str) (Mb' s' : bytes) (pk' : str),
        Config.LIBOQS_AVAILABLE = false ->
        M' <> [] -> s' <> [] -> pk' <> [] ->
        utf8_encode M' = Ok Mb' ->
        slice_to 64 s' <> hmac_sha512 Config.QuantumConfig.MOCK_HMAC_KEY Mb' ->
        exists v, Signer.verify M' (Config.bytes_to_hex s') pk' = Ok v
                  /\ jget "valid" v = Some (JBool false))
    /\ (forall (booking_ref : str) (seat_id flight_id : Z)
               (passenger_name signature data_hash : str) (message_bytes : bytes),
           utf8_encode (Server.ticket_message booking_ref seat_id flight_id
                          passenger_name) = Ok message_bytes ->
           exists valid : bool,
             Server.dilithium_verify booking_ref seat_id flight_id passenger_name
               signature data_hash = Ok valid
             /\ (valid = true <->
                 hex (sha256 message_bytes) = data_hash
                 /\ exists decoded,
                     b64decode signature = Ok decoded
                     /\ slice_to 64 decoded
                        = hmac_sha512 Server.mock_private_key message_bytes)).
Proof.
  intros caps hashlib oqs. split.
  - intros. now apply mock_verify_rejects with (Mb' := Mb').
  - intros. now apply dilithium_verify_spec.
Qed.

(** The signer theorems on the ticket of the scenario. *)

Section SignerScenario.

Import Config Libs Signer Scenario.

#[local] Existing Instance capabilities.
#[local] Existing Instance hashlib.
#[local] Existing Instance oqs.
#[local] Existing Instance environment.

Lemma digest_length (n : nat) (m : bytes) : n <> 0%nat -> List.length (digest n m) = n.
Proof.
  intros Hn. unfold digest. cbn [List.length]. rewrite repeat_length. lia.
Qed.

Lemma scenario_sha512 : sha512_is_64_bytes.
Proof. intros m. now apply digest_length. Qed.

Lemma mock_signature_verifies_witness :
  exists d e' sig pk,
    sign ticket zeros = Ok (d, e')
    /\ jget "signature" d = Some (JStr sig)
    /\ jget "public_key" d = Some (JStr pk)
    /\ pk <> []
    /\ (forall pk' : str, pk' <> [] ->
          exists v, verify ticket sig pk' = Ok v
                    /\ jget "valid" v = Some (JBool true))
    /\ (forall (M' : str) (Mb' s' : bytes) (pk' : str),
          M' <> [] -> s' <> [] -> pk' <> [] -> utf8_encode M' = Ok Mb' ->
          exists v b,
            verify M' (bytes_to_hex s') pk' = Ok v
            /\ jget "valid" v = Some (JBool b)
            /\ (b = true <->
                slice_to 64 s' = hmac_sha512 QuantumConfig.MOCK_HMAC_KEY Mb')).
Proof.
  apply (mock_signature_verifies ticket (blit "ticket") zeros).
  - reflexivity.
  - exact scenario_sha512.
  - discriminate.
  - reflexivity.
Defined.

(** C5 as stated fails: the signature of the ticket still verifies when the
    public key that came with it is replaced by another one. *)
Lemma altered_public_key_still_verifies :
  is_ok signed_ticket = true
  /\ lit "00" <> ticket_public_key
  /\ valid (mock_verify ticket ticket_signature ticket_public_key) = Some true
  /\ valid (mock_verify ticket ticket_signature (lit "00")) = Some true.
Proof.
  repeat split; try (vm_compute; reflexivity).
  intros E. apply (f_equal (@List.length N)) in E. vm_compute in E. discriminate.
Qed.

(** C7 as stated fails: the signature of the ticket still verifies after
    one of its padding octets has been overwritten. *)
Lemma padding_tampering_still_verifies :
  padding_tampered_signature <> ticket_signature
  /\ List.length padding_tampered_signature = List.length ticket_signature
  /\ valid (mock_verify ticket ticket_signature ticket_public_key) = Some true
  /\ valid (mock_verify ticket padding_tampered_signature ticket_public_key)
     = Some true.
Proof.
  repeat split; try (vm_compute; reflexivity).
  intros E. apply (f_equal (fun s => nth 200 s 0)) in E. vm_compute in E.
  discriminate.
Qed.

Lemma tampering_is_rejected_witness :
  (exists v, verify (lit "tickeu") (bytes_to_hex (blit "forged")) ticket_public_key = Ok v
             /\ jget "valid" v = Some (JBool false))
  /\ (exists valid : bool,
         Server.dilithium_verify (lit "QREF-0000-0000-0000") 25 1 (lit "Ada Lovelace")
           (lit "not base64 !") (lit "00") = Ok valid
         /\ (valid = true <->
             hex (sha256 (blit "QREF-0000-0000-0000|25|1|Ada Lovelace")) = lit "00"
             /\ exists decoded,
                 b64decode (lit "not base64 !") = Ok decoded
                 /\ slice_to 64 decoded
                    = hmac_sha512 Server.mock_private_key
                        (blit "QREF-0000-0000-0000|25|1|Ada Lovelace"))).
Proof.
  split.
  - apply (proj1 (tampering_is_rejected capabilities hashlib oqs)
             (lit "tickeu") (blit "tickeu") (blit "forged") ticket_public_key);
      first [reflexivity | vm_compute; discriminate].
  - apply (proj2 (tampering_is_rejected capabilities hashlib oqs)
             (lit "QREF-0000-0000-0000") 25%Z 1%Z (lit "Ada Lovelace")
             (lit "not base64 !") (lit "00")
             (blit "QREF-0000-0000-0000|25|1|Ada Lovelace")).
    reflexivity.
Defined.

End SignerScenario.

(** ** Hybrid encryption service *)

Lemma slice_to_tail_app {A} (c t : list A) :
  List.length t = 16%nat -> slice_to (-16) (c ++ t) = c.
Proof.
  intros Ht. unfold slice_to, slice_bound. cbn [Z.ltb Z.compare].
  rewrite length_app, Ht.
  replace (Z.to_nat (Z.max 0 (Z.of_nat (List.length c + 16) + -16)))
    with (List.length c) by lia.
  rewrite firstn_app, Nat.sub_diag, firstn_O, app_nil_r. apply firstn_all.
Qed.

Lemma slice_from_tail_app {A} (c t : list A) :
  List.length t = 16%nat -> slice_from (-16) (c ++ t) = t.
Proof.
  intros Ht. unfold slice_from, slice_bound. cbn [Z.ltb Z.compare].
  rewrite length_app, Ht.
  replace (Z.to_nat (Z.max 0 (Z.of_nat (List.length c + 16) + -16)))
    with (List.length c) by lia.
  rewrite skipn_app, Nat.sub_diag, skipn_all. reflexivity.
Qed.

Lemma slice_to_head_app {A} (n : Z) (a b : list A) :
  Z.of_nat (List.length a) = n -> slice_to n (a ++ b) = a.
Proof.
  intros Hn. rewrite slice_to_nonneg by lia.
  replace (Z.to_nat n) with (List.length a) by lia.
  rewrite firstn_app, Nat.sub_diag, firstn_O, app_nil_r. apply firstn_all.
Qed.

Lemma b64decode_b64text (b : bytes) : b64decode (b64text b) = Ok b.
Proof. apply b64decode_b64encode, b64encode_str_eq. Qed.

Lemma b64text_nonempty (b : bytes) : b <> [] -> b64text b <> [].
Proof.
  unfold b64text. destruct b as [|x [|y [|z r]]]; [congruence| | |]; discriminate.
Qed.

Section EncryptionProperties.

Import Config Libs.
Context {caps : Capabilities} {hashlib : Hashlib} {pycryptodome : PyCryptodome}
        {oqs : Oqs}.

Lemma hkdf_derive_key_same (shared_secret : bytes) :
  Decryptor.hkdf_derive_key shared_secret = Encryptor.hkdf_derive_key shared_secret.
Proof. reflexivity. Qed.

(** What the mock encryption returns, by its parts. *)
Lemma kyber_encrypt_mock_parts (plaintext : bytes) (e : entropy) :
  PYCRYPTODOME_AVAILABLE = true ->
  exists (d : json) (e' : entropy)
         (private_key shared_secret rest nonce ciphertext tag : bytes),
    Encryptor.kyber_encrypt_mock plaintext e = Ok (d, e')
    /\ List.length shared_secret = 32%nat
    /\ List.length private_key = 1632%nat
    /\ List.length nonce = 12%nat
    /\ gcm_encrypt_and_digest (Encryptor.hkdf_derive_key shared_secret) nonce plaintext
       = (ciphertext, tag)
    /\ jget "ciphertext" d = Some (JStr (b64text (ciphertext ++ tag)))
    /\ jget "encapsulated_key" d = Some (JStr (b64text (shared_secret ++ rest)))
    /\ jget "nonce" d = Some (JStr (b64text nonce))
    /\ jget "private_key" d = Some (JStr (bytes_to_hex private_key)).
Proof.
  intros Haes. unfold Encryptor.kyber_encrypt_mock, Encryptor.aes_encrypt.
  rewrite Haes.
  destruct (token_bytes 800 e) as [pkb e1].
  pose proof (token_bytes_length 1632 e1) as Hsk.
  destruct (token_bytes 1632 e1) as [skb e2]. cbn [fst] in Hsk.
  destruct (token_bytes 768 e2) as [ekb e3].
  pose proof (token_bytes_length 32 e3) as Hss.
  destruct (token_bytes 32 e3) as [secret e4]. cbn [fst] in Hss.
  pose proof (token_bytes_length 12 e4) as Hn.
  destruct (token_bytes 12 e4) as [nonce e5]. cbn [fst] in Hn.
  destruct (gcm_encrypt_and_digest (Encryptor.hkdf_derive_key secret) nonce plaintext)
    as [c t] eqn:Egcm.
  cbn [bind]. rewrite !b64encode_str_eq. cbn [bind].
  eexists _, _, skb, secret, (slice_from 32 ekb), nonce, c, t.
  split; [reflexivity|]. repeat split; assumption.
Qed.

Lemma encrypt_is_mock (P : str) (Pb : bytes) (e : entropy) :
  LIBOQS_AVAILABLE = false -> P <> [] -> utf8_encode P = Ok Pb ->
  Encryptor.encrypt P e = Encryptor.kyber_encrypt_mock Pb e.
Proof.
  intros Hmock HP Henc. unfold Encryptor.encrypt.
  destruct P; [congruence|]. rewrite Henc. cbn [bind]. now rewrite Hmock.
Qed.

(** Mock decryption of base64 texts, up to the AES-GCM call. *)
Lemma kyber_decrypt_mock_parts (cwt shared_secret rest nonce : bytes)
      (private_key_hex : str) :
  List.length shared_secret = 32%nat ->
  Decryptor.kyber_decrypt_mock (b64text cwt) (b64text (shared_secret ++ rest))
    (b64text nonce) private_key_hex
  = bind (Decryptor.aes_decrypt (Encryptor.hkdf_derive_key shared_secret) cwt nonce)
      (fun plaintext =>
       bind (utf8_decode plaintext) (fun plaintext_str =>
       Ok (JObj [("success", JBool true);
                 ("plaintext", JStr plaintext_str);
                 ("algorithm", JStr (lit "Mock-Kyber512-AES256GCM"));
                 ("mock_mode", JBool true);
                 ("warning", JStr (lit "MOCK MODE decryption - Not quantum secure!"));
                 ("description", JStr (lit "Mock decryption (liboqs not available)"))]))).
Proof.
  intros Hss. unfold Decryptor.kyber_decrypt_mock.
  rewrite !b64decode_b64text. cbn [bind].
  rewrite slice_to_head_app by (rewrite Hss; reflexivity).
  reflexivity.
Qed.

(** C3 (as the code has it).  With the simulated backend and PyCryptodome
    present, every non-empty plaintext that UTF-8 can encode is encrypted,
    and decrypting the returned ciphertext with the returned encapsulated
    key, nonce and private key gives back exactly that plaintext. *)
Theorem mock_round_trip (P : str) (Pb : bytes) (e : entropy) :
  LIBOQS_AVAILABLE = false ->
  PYCRYPTODOME_AVAILABLE = true ->
  gcm_correct ->
  P <> [] ->
  utf8_encode P = Ok Pb ->
  exists (d : json) (e' : entropy)
         (ciphertext encapsulated_key nonce private_key : str) (r : json),
    Encryptor.encrypt P e = Ok (d, e')
    /\ jget "ciphertext" d = Some (JStr ciphertext)
    /\ jget "encapsulated_key" d = Some (JStr encapsulated_key)
    /\ jget "nonce" d = Some (JStr nonce)
    /\ jget "private_key" d = Some (JStr private_key)
    /\ Decryptor.decrypt ciphertext encapsulated_key nonce private_key = Ok r
    /\ jget "plaintext" r = Some (JStr P).
Proof.
  intros Hmock Haes Hgcm HP Henc.
  destruct (kyber_encrypt_mock_parts Pb e Haes)
    as (d & e' & skb & secret & rest & nonce & c & t
        & Hd & Hss & Hsk & Hn & Egcm & Fc & Fk & Fn & Fp).
  destruct (Hgcm _ _ _ _ _ Egcm) as [Ht Hdec].
  eexists d, e', _, _, _, _, _.
  split; [now rewrite (encrypt_is_mock P Pb e Hmock HP Henc)|].
  split; [exact Fc|]. split; [exact Fk|]. split; [exact Fn|]. split; [exact Fp|].
  unfold Decryptor.decrypt. rewrite Hmock.
  rewrite (kyber_decrypt_mock_parts _ _ _ _ _ Hss).
  unfold Decryptor.aes_decrypt. rewrite Haes.
  rewrite (slice_to_tail_app c t Ht), (slice_from_tail_app c t Ht), Hdec.
  cbn [bind]. rewrite (utf8_decode_encode P Pb Henc). cbn [bind].
  split; reflexivity.
Qed.

Lemma length_tamper {A} (i : nat) (x : A) (l : list A) :
  List.length (tamper i x l) = List.length l.
Proof.
  revert i. induction l as [|y l IH]; intros [|i]; cbn; try reflexivity.
  now rewrite IH.
Qed.

Lemma slice_to_tail {A} (l : list A) :
  slice_to (-16) l = firstn (List.length l - 16) l.
Proof.
  unfold slice_to, slice_bound. cbn [Z.ltb Z.compare]. f_equal. lia.
Qed.

Lemma slice_from_tail {A} (l : list A) :
  slice_from (-16) l = skipn (List.length l - 16) l.
Proof.
  unfold slice_from, slice_bound. cbn [Z.ltb Z.compare]. f_equal. lia.
Qed.

Lemma main_reports_integrity_failure
      (ciphertext encapsulated_key nonce private_key : str) (msg : string) :
  ciphertext <> [] -> encapsulated_key <> [] -> nonce <> [] -> private_key <> [] ->
  Decryptor.decrypt ciphertext encapsulated_key nonce private_key
  = Raise (ValueError msg) ->
  Decryptor.main (Decryptor.request ciphertext encapsulated_key nonce private_key)
  = Raise (Decryptor.integrity_failure msg).
Proof.
  intros Hc Hk Hn Hp Hdec.
  unfold Decryptor.main, Decryptor.request, Decryptor.get_str.
  cbn [jget assoc String.eqb Ascii.eqb Bool.eqb].
  destruct ciphertext; [congruence|]. destruct encapsulated_key; [congruence|].
  destruct nonce; [congruence|]. destruct private_key; [congruence|].
  cbn [Decryptor.nonempty andb]. rewrite Hdec. reflexivity.
Qed.

End EncryptionProperties.

(** The encryption theorems on the stand-in cipher of the scenario. *)

Section EncryptionScenario.

Import Config Libs Scenario.

#[local] Existing Instance capabilities.
#[local] Existing Instance hashlib.
#[local] Existing Instance pycryptodome.
#[local] Existing Instance oqs.

Lemma bytes_eqb_refl (a : bytes) : bytes_eqb a a = true.
Proof. now apply bytes_eqb_eq. Qed.

Lemma scenario_gcm_correct : gcm_correct.
Proof.
  intros key nonce plaintext ciphertext tag [= <- <-]. split.
  - now apply digest_length.
  - cbn. now rewrite bytes_eqb_refl.
Qed.

Lemma tamper_app {A} (i : nat) (x : A) (a b : list A) :
  tamper i x (a ++ b)
  = if (i <? List.length a)%nat then tamper i x a ++ b
    else a ++ tamper (i - List.length a) x b.
Proof.
  revert i. induction a as [|y a IH]; intros i.
  - cbn. now rewrite Nat.sub_0_r.
  - destruct i as [|i]; [reflexivity|].
    cbn [app tamper List.length]. rewrite IH.
    change (S i <? S (List.length a))%nat with (i <? List.length a)%nat.
    now destruct (i <? List.length a)%nat.
Qed.

Lemma tamper_neq {A} (i : nat) (x : A) (l : list A) :
  (i < List.length l)%nat -> nth_error l i <> Some x -> tamper i x l <> l.
Proof.
  revert i. induction l as [|y l IH]; intros i Hi Hx; [cbn in Hi; lia|].
  destruct i as [|i]; cbn in *.
  - intros [= ->]. now apply Hx.
  - intros [= E]. apply (IH i); [lia | assumption | assumption].
Qed.

Lemma app_eq_same_length {A} (a a' b b' : list A) :
  List.length a = List.length a' -> a ++ b = a' ++ b' -> a = a' /\ b = b'.
Proof.
  revert a'. induction a as [|x a IH]; intros [|x' a'] Hl E; try discriminate.
  - now split.
  - cbn in *. injection E as -> E. injection Hl as Hl.
    destruct (IH a' Hl E) as [-> ->]. now split.
Qed.

Lemma total_tamper (i : nat) (x y : byte) (m : bytes) :
  nth_error m i = Some y ->
  total (tamper i x m) + Byte.to_N y = total m + Byte.to_N x.
Proof.
  revert i. induction m as [|z m IH]; intros [|i] Hy; try discriminate.
  - cbn in Hy. injection Hy as ->. cbn. lia.
  - cbn in Hy. cbn [tamper total fold_right]. specialize (IH i Hy).
    unfold total in IH. lia.
Qed.

Lemma checksum_tamper (i : nat) (x : byte) (m : bytes) :
  (i < List.length m)%nat -> nth_error m i <> Some x ->
  checksum (tamper i x m) <> checksum m.
Proof.
  intros Hi Hx.
  destruct (nth_error m i) as [y|] eqn:Ey;
    [|apply nth_error_None in Ey; lia].
  pose proof (total_tamper i x y m Ey) as Ht.
  unfold checksum. intros E. apply (f_equal Byte.to_N) in E. rewrite !to_N_byte_of_N in E.
  assert (Hxy : Byte.to_N x <> Byte.to_N y).
  { intros En. apply to_N_inj in En. congruence. }
  pose proof (to_N_lt x). pose proof (to_N_lt y).
  zify. Z.to_euclidean_division_equations. lia.
Qed.

Lemma scenario_gcm_tamper_evident : gcm_tamper_evident.
Proof.
  intros key nonce plaintext ciphertext tag c' t' [= <- <-] Hlen
         (i & x & Hi & Hx & E).
  exists "MAC check failed"%string. cbn.
  replace (bytes_eqb t' (digest 16 c')) with false; [reflexivity|].
  symmetry. apply bytes_eqb_neq.
  rewrite tamper_app in E.
  destruct (Nat.ltb_spec i (List.length plaintext)) as [Hlt|Hge].
  - apply app_eq_same_length in E; [|now rewrite length_tamper].
    destruct E as [-> ->].
    intros [= Ec]. symmetry in Ec. revert Ec. apply checksum_tamper.
    + exact Hlt.
    + intros En. apply Hx. rewrite nth_error_app1; assumption.
  - apply app_eq_same_length in E; [|exact Hlen].
    destruct E as [-> ->]. apply tamper_neq.
    + rewrite length_app in Hi. lia.
    + intros En. apply Hx. rewrite nth_error_app2; assumption.
Qed.

Lemma mock_round_trip_witness :
  exists (d : json) (e' : entropy)
         (ciphertext encapsulated_key nonce private_key : str) (r : json),
    Encryptor.encrypt passport zeros = Ok (d, e')
    /\ jget "ciphertext" d = Some (JStr ciphertext)
    /\ jget "encapsulated_key" d = Some (JStr encapsulated_key)
    /\ jget "nonce" d = Some (JStr nonce)
    /\ jget "private_key" d = Some (JStr private_key)
    /\ Decryptor.decrypt ciphertext encapsulated_key nonce private_key = Ok r
    /\ jget "plaintext" r = Some (JStr passport).
Proof.
  apply (mock_round_trip passport (blit "P000111") zeros).
  - reflexivity.
  - reflexivity.
  - exact scenario_gcm_correct.
  - discriminate.
  - reflexivity.
Defined.

(** C3 as stated fails for the empty string: [encrypt] refuses it and
    exits through [json_error], so there is nothing to decrypt. *)
Lemma empty_plaintext_is_refused :
  Encryptor.encrypt [] zeros = Raise (SystemExit 1 (lit "Plaintext cannot be empty"))
  /\ Encryptor.main (JObj [("plaintext", JStr [])]) zeros
     = Raise (SystemExit 1 (lit "Missing required field: plaintext")).
Proof. split; reflexivity. Qed.

End EncryptionScenario.

(** ** Concurrent bookings of one seat *)

Section ContentionProofs.

Import Store Server Contention.
Context {unicode : Unicode} {collation : Collation}.
Variable q : trinity.
Variable d0 : db.
Variable s0 : seat.
Variable fl : flight.
Hypothesis Hfree : seat_is_free d0 s0 fl.

Local Abbreviation worker_at := (Contention.worker_at q d0 s0 fl).
Local Abbreviation pool_of := (Contention.pool_of q d0 s0 fl).
Local Abbreviation sound := (Contention.sound q d0 s0).
Local Abbreviation invariant := (Contention.invariant q d0 s0).
Local Abbreviation unbooked_stage := (Contention.unbooked_stage d0).
Local Abbreviation booked_stage := (Contention.booked_stage d0 s0).
Local Abbreviation row := (Contention.row s0).
Local Abbreviation sid := (seat_id s0).

Lemma count_app (p : phase -> bool) (st1 st2 : list (attempt * phase)) :
  count p (st1 ++ st2) = (count p st1 + count p st2)%nat.
Proof. unfold count. now rewrite filter_app, length_app. Qed.

Lemma count_cons (p : phase -> bool) (a : attempt) (ph : phase)
      (st : list (attempt * phase)) :
  count p ((a, ph) :: st) = ((if p ph then 1 else 0) + count p st)%nat.
Proof. unfold count. cbn [filter snd]. now destruct (p ph). Qed.

Lemma total_rank_app (st1 st2 : list (attempt * phase)) :
  total_rank (st1 ++ st2) = (total_rank st1 + total_rank st2)%nat.
Proof.
  unfold total_rank. induction st1 as [|x st1 IH]; [reflexivity|].
  cbn [app fold_right]. rewrite IH. lia.
Qed.

Ltac counts :=
  rewrite ?count_app, ?count_cons in *;
  cbn [holder writer inserted conflict won lost] in *.

(** The lock on the seat is taken exactly when some handler is in a
    lock-holding phase. *)
Lemma locked_by_pool (st : list (attempt * phase)) :
  locked_by (held_locks (pool_of st)) sid = existsb (fun x => holder (snd x)) st.
Proof.
  unfold locked_by, held_locks, Contention.pool_of.
  induction st as [|[a ph] st IH]; [reflexivity|].
  cbn [map flat_map fst snd existsb]. rewrite existsb_app, IH. f_equal.
  destruct ph; cbn; rewrite ?Z.eqb_refl; reflexivity.
Qed.

Lemma existsb_count (p : phase -> bool) (st : list (attempt * phase)) :
  existsb (fun x => p (snd x)) st = false <-> count p st = 0%nat.
Proof.
  induction st as [|[a ph] st IH]; [now split|].
  rewrite count_cons. cbn [existsb snd].
  destruct (p ph); cbn [orb]; [split; [discriminate | lia]|].
  rewrite IH. reflexivity.
Qed.

Lemma seat_coordinates (a : attempt) :
  sound a -> flight_id_of (a_data a) = seat_flight_id s0 /\ In s0 (seats d0).
Proof.
  intros (_ & Hseat & _). unfold select_seat in Hseat.
  apply find_some in Hseat. destruct Hseat as [Hin Hp].
  apply andb_true_iff in Hp. destruct Hp as [Hp _].
  apply andb_true_iff in Hp. destruct Hp as [Hp _].
  apply Z.eqb_eq in Hp. now split.
Qed.

Lemma find_map_preserved {A} (p : A -> bool) (g : A -> A) (l : list A) :
  (forall x, p (g x) = p x) -> find p (map g l) = option_map g (find p l).
Proof.
  intros Hp. induction l as [|x l IH]; [reflexivity|].
  cbn [map find]. rewrite Hp. destruct (p x); [reflexivity | exact IH].
Qed.

Lemma select_seat_booked (v : booking_values) (fid : Z) (r c : str) :
  select_seat (booked_state d0 s0 v) fid r c
  = option_map (set_booked sid) (select_seat d0 fid r c).
Proof.
  unfold select_seat, booked_state. cbn [seats].
  apply find_map_preserved. intros x. unfold set_booked.
  now destruct (seat_id x =? sid)%Z.
Qed.

Lemma set_booked_self : is_booked (set_booked sid s0) = true
                        /\ seat_id (set_booked sid s0) = sid.
Proof. unfold set_booked. rewrite Z.eqb_refl. now split. Qed.

Lemma find_exists {A} (p : A -> bool) (l : list A) (x : A) :
  In x l -> p x = true -> exists y, find p l = Some y.
Proof.
  intros Hin Hp. destruct (find p l) as [y|] eqn:E; [now exists y|].
  now rewrite (find_none _ _ E x Hin) in Hp.
Qed.

(** The quantum gap of a sound attempt, with the seat read unbooked, leaves
    the commit phase to run. *)
Lemma with_seat_free (a : attempt) :
  sound a ->
  Contention.with_seat q (a_data a) (a_entropy a) (Some s0)
  = Contention.commit_phase s0 a.
Proof.
  intros (_ & _ & Hgap & _). destruct Hfree as (Hunbooked & _).
  unfold Contention.with_seat. rewrite Hunbooked. cbv zeta.
  unfold quantum_gap_results in Hgap.
  destruct (qrng q (a_entropy a)) as [[qrng_ref e1]|]; [|discriminate].
  destruct (kem q (passport_of (a_data a)) e1) as [[kyber e2]|]; [|discriminate].
  destruct (dsa q qrng_ref sid (flight_id_of (a_data a))
              (passenger_name_of (a_data a)) e2) as [[dil e3]|]; [|discriminate].
  injection Hgap as -> -> ->. reflexivity.
Qed.

Lemma with_seat_booked (a : attempt) :
  Contention.with_seat q (a_data a) (a_entropy a) (Some (set_booked sid s0))
  = Rollback (Return (Ok (rejection a))).
Proof.
  unfold Contention.with_seat. destruct set_booked_self as [-> _]. reflexivity.
Qed.

Lemma arrived_program (a : attempt) :
  sound a ->
  create_booking_with q (Some (a_data a)) (a_entropy a)
  = Connect (fun connected =>
               match connected with
               | Raise ex => not_connected ex
               | Ok _ => StartTransaction (Contention.read_seat q a)
               end).
Proof.
  intros (Hmissing & _). unfold create_booking_with. rewrite Hmissing. reflexivity.
Qed.


(** *** One statement of one handler, phase by phase *)

Lemma step_arrived (a : attempt) (others : list Z) (d : db) :
  sound a ->
  step others d (w_conn (worker_at a Arrived)) (w_prog (worker_at a Arrived))
  = Next d (w_conn (worker_at a Connected)) (w_prog (worker_at a Connected)).
Proof.
  intros Ha. cbn [Contention.worker_at spawn w_conn w_prog].
  now rewrite (arrived_program a Ha).
Qed.

Lemma step_connected (a : attempt) (others : list Z) (d : db) :
  step others d (w_conn (worker_at a Connected)) (w_prog (worker_at a Connected))
  = Next d (w_conn (worker_at a Queued)) (w_prog (worker_at a Queued)).
Proof. reflexivity. Qed.

Lemma step_queued_free (a : attempt) (others : list Z) (d : db) :
  sound a -> seats d = seats d0 ->
  step others d (w_conn (worker_at a Queued)) (w_prog (worker_at a Queued))
  = if locked_by others sid then Waits
    else Next d (w_conn (worker_at a Locked)) (w_prog (worker_at a Locked)).
Proof.
  intros Ha Hseats. pose proof Ha as (_ & Hseat & _).
  cbn [Contention.worker_at w_conn w_prog Contention.read_seat step].
  rewrite view_fresh. unfold select_seat in *. rewrite Hseats, Hseat.
  now rewrite (with_seat_free a Ha).
Qed.

Lemma step_queued_booked (a : attempt) (others : list Z) (v : booking_values) :
  sound a ->
  step others (booked_state d0 s0 v) (w_conn (worker_at a Queued))
       (w_prog (worker_at a Queued))
  = if locked_by others sid then Waits
    else Next (booked_state d0 s0 v) (w_conn (worker_at a Conflict))
              (w_prog (worker_at a Conflict)).
Proof.
  intros (_ & Hseat & _).
  cbn [Contention.worker_at w_conn w_prog Contention.read_seat step].
  rewrite view_fresh, select_seat_booked, Hseat. cbn [option_map].
  destruct set_booked_self as [_ ->]. now rewrite with_seat_booked.
Qed.

Lemma step_conflict (a : attempt) (others : list Z) (d : db) :
  step others d (w_conn (worker_at a Conflict)) (w_prog (worker_at a Conflict))
  = Next d (w_conn (worker_at a Lost)) (w_prog (worker_at a Lost)).
Proof. reflexivity. Qed.

Lemma step_locked (a : attempt) (others : list Z) (d : db) :
  step others d (w_conn (worker_at a Locked)) (w_prog (worker_at a Locked))
  = if locked_by others sid then Waits
    else Next d (w_conn (worker_at a Updated)) (w_prog (worker_at a Updated)).
Proof. reflexivity. Qed.

Lemma existsb_false_forallb {A} (p : A -> bool) (l : list A) :
  forallb (fun x => negb (p x)) l = true -> existsb p l = false.
Proof.
  induction l as [|x l IH]; [reflexivity|]. cbn.
  intros H. apply andb_true_iff in H. destruct H as [Hx Hl].
  apply negb_true_iff in Hx. now rewrite Hx, IH.
Qed.

Lemma insert_allowed (a : attempt) (d : db) :
  sound a ->
  flights d = flights d0 -> seats d = seats d0 -> bookings d = bookings d0 ->
  insert_violation (view d (Contention.updating s0)) (row a) = None.
Proof.
  intros Ha Hf Hs Hb. pose proof Ha as (_ & _ & _ & Hfresh).
  destruct (seat_coordinates a Ha) as [Hfid Hin].
  destruct Hfree as (_ & Hnone & Hflight).
  unfold insert_violation, view.
  cbn [Contention.updating update_seat_booked Contention.holding lock_row
       fresh_conn pending app fold_left apply_write bookings seats flights].
  rewrite Hb.
  cbn [Contention.row booking_row booking_seat_id pqc_ref booking_flight_id].
  rewrite (existsb_false_forallb _ _ Hnone).
  rewrite (existsb_false_forallb _ _ Hfresh).
  unfold select_seat_by_id, select_flight. cbn [seats flights].
  rewrite Hs, Hf, Hfid. unfold select_flight in Hflight. rewrite Hflight.
  destruct (find_exists (fun s => seat_id s =? sid)%Z
              (map (set_booked sid) (seats d0)) (set_booked sid s0))
    as (y & ->); [now apply in_map | | reflexivity].
  destruct set_booked_self as [_ ->]. apply Z.eqb_refl.
Qed.

Lemma step_updated (a : attempt) (others : list Z) (d : db) :
  sound a ->
  flights d = flights d0 -> seats d = seats d0 -> bookings d = bookings d0 ->
  bookings_auto_increment d = Contention.next_id d0 ->
  step others d (w_conn (worker_at a Updated)) (w_prog (worker_at a Updated))
  = Next (bumped d) (w_conn (worker_at a Inserted)) (w_prog (worker_at a Inserted)).
Proof.
  intros Ha Hf Hs Hb Hid.
  cbn [Contention.worker_at w_conn w_prog step]. unfold insert_booking.
  rewrite (insert_allowed a d Ha Hf Hs Hb). unfold bumped. rewrite Hid.
  reflexivity.
Qed.

Lemma step_inserted (a : attempt) (others : list Z) (d : db) :
  sound a -> flights d = flights d0 ->
  step others d (w_conn (worker_at a Inserted)) (w_prog (worker_at a Inserted))
  = Next d (w_conn (worker_at a Fetched)) (w_prog (worker_at a Fetched)).
Proof.
  intros Ha Hf. destruct (seat_coordinates a Ha) as [Hfid _].
  destruct Hfree as (_ & _ & Hflight).
  cbn [Contention.worker_at w_conn w_prog step].
  replace (select_flight (view d (Contention.inserting d0 s0 a))
             (flight_id_of (a_data a))) with (Some fl); [reflexivity|].
  unfold select_flight in *. rewrite Hfid, <- Hflight, <- Hf. reflexivity.
Qed.

Lemma step_fetched (a : attempt) (others : list Z) (d : db) :
  step others d (w_conn (worker_at a Fetched)) (w_prog (worker_at a Fetched))
  = Next (view d (Contention.inserting d0 s0 a)) (w_conn (worker_at a Won))
         (w_prog (worker_at a Won)).
Proof. reflexivity. Qed.

Lemma view_inserting (a : attempt) (d : db) :
  flights d = flights d0 -> seats d = seats d0 -> bookings d = bookings d0 ->
  bookings_auto_increment d = (Contention.next_id d0 + 1)%Z ->
  view d (Contention.inserting d0 s0 a) = booked_state d0 s0 (row a).
Proof.
  intros Hf Hs Hb Hid. unfold view, booked_state.
  cbn [Contention.inserting Contention.updating update_seat_booked
       Contention.holding lock_row fresh_conn pending app fold_left apply_write
       flights seats bookings bookings_auto_increment].
  now rewrite Hf, Hs, Hb, Hid.
Qed.


(** *** The invariant is kept by every step *)

Lemma Next_inj {A} (d d' : db) (c c' : conn) (p p' : txn A) :
  Next d c p = Next d' c' p' -> d = d' /\ c = c' /\ p = p'.
Proof. now intros [= -> -> ->]. Qed.

Lemma count_le (p p' : phase -> bool) (st : list (attempt * phase)) :
  (forall ph, p ph = true -> p' ph = true) -> (count p st <= count p' st)%nat.
Proof.
  intros Hpp. induction st as [|[a ph] st IH]; [reflexivity|].
  rewrite !count_cons. specialize (Hpp ph).
  destruct (p ph); destruct (p' ph); try lia.
Qed.

Lemma inserted_le_holder (st : list (attempt * phase)) :
  (count inserted st <= count holder st)%nat.
Proof. apply count_le. now intros []. Qed.

Lemma writer_le_holder (st : list (attempt * phase)) :
  (count writer st <= count holder st)%nat.
Proof. apply count_le. now intros []. Qed.

Lemma sound_parts (st1 st2 : list (attempt * phase)) (a : attempt) (ph : phase) :
  Forall (fun x => sound (fst x)) (st1 ++ (a, ph) :: st2) ->
  sound a
  /\ forall ph', Forall (fun x => sound (fst x)) (st1 ++ (a, ph') :: st2).
Proof.
  intros H. apply Forall_app in H. destruct H as [H1 H2].
  inversion H2 as [|x l Ha H2']; subst. split; [exact Ha|].
  intros ph'. apply Forall_app. split; [exact H1|]. now constructor.
Qed.

Ltac open_stage :=
  unfold Contention.invariant, Contention.unbooked_stage,
    Contention.booked_stage in *;
  counts.

Lemma handler_step (d : db) (st1 st2 : list (attempt * phase)) (a : attempt)
      (ph : phase) (d' : db) (c' : conn) (p' : txn (result response)) :
  invariant d (st1 ++ (a, ph) :: st2) ->
  step (held_locks (pool_of (st1 ++ st2))) d (w_conn (worker_at a ph))
       (w_prog (worker_at a ph)) = Next d' c' p' ->
  exists ph',
    c' = w_conn (worker_at a ph') /\ p' = w_prog (worker_at a ph')
    /\ invariant d' (st1 ++ (a, ph') :: st2)
    /\ (rank ph' < rank ph)%nat.
Proof.
  intros (Hhold & Hsound & Hstage) Hstep.
  destruct (sound_parts st1 st2 a ph Hsound) as [Ha Hsound'].
  pose proof (inserted_le_holder st1) as Hi1.
  pose proof (inserted_le_holder st2) as Hi2.
  pose proof (writer_le_holder st1) as Hw1.
  pose proof (writer_le_holder st2) as Hw2.
  assert (Hlock : locked_by (held_locks (pool_of (st1 ++ st2))) sid = false
                  <-> count holder (st1 ++ st2) = 0%nat)
    by (rewrite locked_by_pool; apply existsb_count).
  set (others := held_locks (pool_of (st1 ++ st2))) in *.
  destruct ph.
  - (* Arrived *)
    rewrite (step_arrived a others d Ha) in Hstep.
    apply Next_inj in Hstep. destruct Hstep as (<- & <- & <-).
    exists Connected. split; [reflexivity|]. split; [reflexivity|].
    split; [|cbn; lia]. open_stage.
    split; [lia|]. split; [apply Hsound'|].
    destruct Hstage as [(Hf & Hs & Hb & Hid & Hw & Hl & Hc) | (Hv & Hw & Hwr)];
      [left | right]; repeat split; solve [assumption | lia].
  - (* Connected *)
    rewrite (step_connected a others d) in Hstep.
    apply Next_inj in Hstep. destruct Hstep as (<- & <- & <-).
    exists Queued. split; [reflexivity|]. split; [reflexivity|].
    split; [|cbn; lia]. open_stage.
    split; [lia|]. split; [apply Hsound'|].
    destruct Hstage as [(Hf & Hs & Hb & Hid & Hw & Hl & Hc) | (Hv & Hw & Hwr)];
      [left | right]; repeat split; solve [assumption | lia].
  - (* Queued *)
    open_stage.
    destruct Hstage as [(Hf & Hs & Hb & Hid & Hw & Hl & Hc) | (Hv & Hw & Hwr)].
    + rewrite (step_queued_free a others d Ha Hs) in Hstep.
      destruct (locked_by others sid) eqn:El; [discriminate|].
      apply Next_inj in Hstep. destruct Hstep as (<- & <- & <-).
      pose proof (proj1 Hlock eq_refl) as Hnone.
      exists Locked. split; [reflexivity|]. split; [reflexivity|].
      split; [|cbn; lia]. open_stage.
      split; [lia|]. split; [apply Hsound'|].
      left; repeat split; solve [assumption | lia].
    + destruct Hv as (v & ->).
      rewrite (step_queued_booked a others (row v) Ha) in Hstep.
      destruct (locked_by others sid) eqn:El; [discriminate|].
      apply Next_inj in Hstep. destruct Hstep as (<- & <- & <-).
      pose proof (proj1 Hlock eq_refl) as Hnone.
      exists Conflict. split; [reflexivity|]. split; [reflexivity|].
      split; [|cbn; lia]. open_stage.
      split; [lia|]. split; [apply Hsound'|].
      right; repeat split; solve [now exists v | lia].
  - (* Conflict *)
    rewrite (step_conflict a others d) in Hstep.
    apply Next_inj in Hstep. destruct Hstep as (<- & <- & <-).
    exists Lost. split; [reflexivity|]. split; [reflexivity|].
    split; [|cbn; lia]. open_stage.
    split; [lia|]. split; [apply Hsound'|].
    destruct Hstage as [(Hf & Hs & Hb & Hid & Hw & Hl & Hc) | (Hv & Hw & Hwr)];
      [exfalso; lia | right]; repeat split; solve [assumption | lia].
  - (* Locked *)
    open_stage.
    destruct Hstage as [(Hf & Hs & Hb & Hid & Hw & Hl & Hc) | (Hv & Hw & Hwr)];
      [|exfalso; lia].
    rewrite (step_locked a others d) in Hstep.
    destruct (locked_by others sid) eqn:El; [discriminate|].
    apply Next_inj in Hstep. destruct Hstep as (<- & <- & <-).
    exists Updated. split; [reflexivity|]. split; [reflexivity|].
    split; [|cbn; lia]. open_stage.
    split; [lia|]. split; [apply Hsound'|].
    left; repeat split; solve [assumption | lia].
  - (* Updated *)
    open_stage.
    destruct Hstage as [(Hf & Hs & Hb & Hid & Hw & Hl & Hc) | (Hv & Hw & Hwr)];
      [|exfalso; lia].
    assert (Hnext : bookings_auto_increment d = Contention.next_id d0) by lia.
    rewrite (step_updated a others d Ha Hf Hs Hb Hnext) in Hstep.
    apply Next_inj in Hstep. destruct Hstep as (<- & <- & <-).
    exists Inserted. split; [reflexivity|]. split; [reflexivity|].
    split; [|cbn; lia]. open_stage.
    split; [lia|]. split; [apply Hsound'|].
    left; unfold bumped; cbn [flights seats bookings bookings_auto_increment];
      repeat split; solve [assumption | lia].
  - (* Inserted *)
    open_stage.
    destruct Hstage as [(Hf & Hs & Hb & Hid & Hw & Hl & Hc) | (Hv & Hw & Hwr)];
      [|exfalso; lia].
    rewrite (step_inserted a others d Ha Hf) in Hstep.
    apply Next_inj in Hstep. destruct Hstep as (<- & <- & <-).
    exists Fetched. split; [reflexivity|]. split; [reflexivity|].
    split; [|cbn; lia]. open_stage.
    split; [lia|]. split; [apply Hsound'|].
    left; repeat split; solve [assumption | lia].
  - (* Fetched *)
    open_stage.
    destruct Hstage as [(Hf & Hs & Hb & Hid & Hw & Hl & Hc) | (Hv & Hw & Hwr)];
      [|exfalso; lia].
    rewrite (step_fetched a others d) in Hstep.
    apply Next_inj in Hstep. destruct Hstep as (<- & <- & <-).
    assert (Hnext : bookings_auto_increment d = (Contention.next_id d0 + 1)%Z) by lia.
    rewrite (view_inserting a d Hf Hs Hb Hnext).
    exists Won. split; [reflexivity|]. split; [reflexivity|].
    split; [|cbn; lia]. open_stage.
    split; [lia|]. split; [apply Hsound'|].
    right; repeat split; solve [now exists a | lia].
  - (* Won *) discriminate.
  - (* Lost *) discriminate.
Qed.


(** *** Steps of the pool *)

Lemma worker_eta {A} (w : worker A) : {| w_conn := w_conn w; w_prog := w_prog w |} = w.
Proof. now destruct w. Qed.

Lemma pool_of_app (st1 st2 : list (attempt * phase)) :
  pool_of (st1 ++ st2) = pool_of st1 ++ pool_of st2.
Proof. apply map_app. Qed.

Lemma pool_step_abstract (d : db) (st : list (attempt * phase))
      (s' : db * list (worker (result response))) :
  invariant d st ->
  pool_step (d, pool_of st) s' ->
  exists d' st',
    s' = (d', pool_of st') /\ invariant d' st'
    /\ map fst st' = map fst st
    /\ (total_rank st' < total_rank st)%nat.
Proof.
  intros Hinv Hstep.
  remember (d, pool_of st) as s eqn:Es.
  destruct Hstep as [d1 d1' before after w c' p' Hs].
  injection Es as -> Hws. symmetry in Hws.
  apply map_eq_app in Hws. destruct Hws as (st1 & st2' & -> & <- & Hws).
  apply map_eq_cons in Hws. destruct Hws as ([a ph] & st2 & -> & <- & <-).
  assert (Hs' : step (held_locks (pool_of (st1 ++ st2))) d
                      (w_conn (worker_at a ph)) (w_prog (worker_at a ph))
                 = Next d1' c' p').
  { rewrite pool_of_app. exact Hs. }
  destruct (handler_step d st1 st2 a ph d1' c' p' Hinv Hs')
    as (ph' & -> & -> & Hinv' & Hrank).
  exists d1', (st1 ++ (a, ph') :: st2). split; [|split; [exact Hinv'|split]].
  - rewrite worker_eta. unfold Contention.pool_of.
    now rewrite map_app.
  - now rewrite !map_app.
  - rewrite !total_rank_app. cbn [total_rank fold_right snd].
    fold (total_rank st2). lia.
Qed.

Lemma pool_steps_abstract (st0 : list (attempt * phase))
      (s : db * list (worker (result response))) :
  invariant d0 st0 ->
  pool_steps (d0, pool_of st0) s ->
  exists d st, s = (d, pool_of st) /\ invariant d st /\ map fst st = map fst st0.
Proof.
  intros Hinv Hsteps.
  remember (d0, pool_of st0) as s1 eqn:Es1.
  induction Hsteps as [s | s1 s2 s3 Hsteps IH Hstep].
  - subst s. now exists d0, st0.
  - destruct (IH Es1) as (d & st & -> & Hinv2 & Hmap).
    destruct (pool_step_abstract d st s3 Hinv2 Hstep)
      as (d' & st' & -> & Hinv3 & Hmap' & _).
    exists d', st'. split; [reflexivity|]. split; [exact Hinv3|]. congruence.
Qed.

Lemma count_arrivals (p : phase -> bool) (attempts : list attempt) :
  p Arrived = false -> count p (arrivals attempts) = 0%nat.
Proof.
  intros Hp. induction attempts as [|a l IH]; [reflexivity|].
  unfold arrivals in *. cbn [map]. now rewrite count_cons, Hp, IH.
Qed.

Lemma invariant_arrivals (attempts : list attempt) :
  Forall sound attempts -> invariant d0 (arrivals attempts).
Proof.
  intros Hsound. unfold Contention.invariant.
  split; [rewrite count_arrivals by reflexivity; lia|]. split.
  - unfold arrivals. apply Forall_map. exact Hsound.
  - left. unfold Contention.unbooked_stage.
    rewrite !count_arrivals by reflexivity. unfold Contention.next_id.
    repeat split. lia.
Qed.

(** Every execution is finite. *)
Lemma pool_terminates (d : db) (st : list (attempt * phase)) :
  invariant d st ->
  Acc (fun s2 s1 => pool_step s1 s2) (d, pool_of st).
Proof.
  remember (total_rank st) as n eqn:En. revert d st En.
  induction n as [n IH] using lt_wf_ind. intros d st -> Hinv.
  constructor. intros s' Hstep.
  destruct (pool_step_abstract d st s' Hinv Hstep)
    as (d' & st' & -> & Hinv' & _ & Hrank).
  now apply (IH (total_rank st') Hrank).
Qed.

Lemma count_split (p : phase -> bool) (st : list (attempt * phase)) :
  count p st <> 0%nat ->
  exists st1 a ph st2, st = st1 ++ (a, ph) :: st2 /\ p ph = true.
Proof.
  induction st as [|[a ph] st IH]; [intros Hc; now contradiction Hc|].
  rewrite count_cons. destruct (p ph) eqn:Ep.
  - intros _. now exists [], a, ph, st.
  - intros Hc. destruct IH as (st1 & a' & ph' & st2 & -> & Hp); [lia|].
    now exists ((a, ph) :: st1), a', ph', st2.
Qed.

Lemma final_finished (a : attempt) (ph : phase) :
  won ph = true \/ lost ph = true -> finished (worker_at a ph) <> None.
Proof. destruct ph; intros [H|H]; try discriminate H; discriminate. Qed.

Lemma finished_final (a : attempt) (ph : phase) :
  sound a ->
  finished (worker_at a ph) <> None -> won ph = true \/ lost ph = true.
Proof.
  intros Ha. destruct ph; unfold finished; cbn [Contention.worker_at w_prog];
    try (intros H; now contradiction H); try (cbn; tauto).
  unfold spawn. cbn [w_prog]. rewrite (arrived_program a Ha).
  intros H. now contradiction H.
Qed.

Lemma all_finished_count (st : list (attempt * phase)) :
  count holder st = 0%nat -> count waiting st = 0%nat ->
  all_finished (pool_of st).
Proof.
  unfold all_finished, Contention.pool_of. intros Hh Hw. apply Forall_map.
  induction st as [|[a ph] st IH]; [constructor|].
  rewrite count_cons in Hh, Hw. constructor.
  - cbn [fst snd]. apply final_finished.
    destruct ph; cbn in *; try lia; tauto.
  - apply IH; lia.
Qed.

Lemma pool_step_at (d : db) (st1 st2 : list (attempt * phase)) (a : attempt)
      (ph ph' : phase) (d' : db) :
  step (held_locks (pool_of (st1 ++ st2))) d (w_conn (worker_at a ph))
       (w_prog (worker_at a ph))
  = Next d' (w_conn (worker_at a ph')) (w_prog (worker_at a ph')) ->
  exists s', pool_step (d, pool_of (st1 ++ (a, ph) :: st2)) s'.
Proof.
  intros Hs. rewrite pool_of_app in Hs.
  eexists. unfold Contention.pool_of at 1. rewrite map_app. cbn [map fst snd].
  apply pool_step_worker. exact Hs.
Qed.

(** Some handler can always take its next step: nobody waits for a lock
    that is never released. *)
Lemma pool_progress (d : db) (st : list (attempt * phase)) :
  invariant d st ->
  all_finished (pool_of st) \/ exists s', pool_step (d, pool_of st) s'.
Proof.
  intros Hinv.
  destruct (Nat.eq_dec (count holder st) 0) as [Hnone | Hsome].
  - destruct (Nat.eq_dec (count waiting st) 0) as [Hnw | Hw].
    { left. now apply all_finished_count. }
    right. destruct (count_split waiting st Hw) as (st1 & a & ph & st2 & -> & Hph).
    destruct Hinv as (Hhold & Hsound & Hstage).
    destruct (sound_parts st1 st2 a ph Hsound) as [Ha _].
    assert (Hfree' : locked_by (held_locks (pool_of (st1 ++ st2))) sid = false).
    { rewrite locked_by_pool. apply existsb_count.
      rewrite count_app, count_cons in Hnone. rewrite count_app. lia. }
    destruct ph; try discriminate.
    + eapply pool_step_at. apply (step_arrived a _ d Ha).
    + eapply pool_step_at. apply (step_connected a _ d).
    + destruct Hstage as [(_ & Hs & _) | ((v & ->) & _)].
      * eapply pool_step_at. rewrite (step_queued_free a _ d Ha Hs), Hfree'.
        reflexivity.
      * eapply pool_step_at. rewrite (step_queued_booked a _ (row v) Ha), Hfree'.
        reflexivity.
  - right. destruct (count_split holder st Hsome) as (st1 & a & ph & st2 & -> & Hph).
    pose proof Hinv as (Hhold & Hsound & Hstage).
    destruct (sound_parts st1 st2 a ph Hsound) as [Ha _].
    pose proof (inserted_le_holder st1) as Hi1.
    pose proof (inserted_le_holder st2) as Hi2.
    assert (Hfree' : locked_by (held_locks (pool_of (st1 ++ st2))) sid = false).
    { rewrite locked_by_pool. apply existsb_count.
      rewrite count_app, count_cons, Hph in Hhold. rewrite count_app. lia. }
    destruct ph; try discriminate; open_stage.
    + eapply pool_step_at. apply (step_conflict a _ d).
    + eapply pool_step_at. rewrite (step_locked a _ d), Hfree'. reflexivity.
    + destruct Hstage as [(Hf & Hs & Hb & Hid & _) | (_ & _ & Hwr)]; [|lia].
      eapply pool_step_at. apply (step_updated a _ d Ha Hf Hs Hb). lia.
    + destruct Hstage as [(Hf & _) | (_ & _ & Hwr)]; [|lia].
      eapply pool_step_at. apply (step_inserted a _ d Ha Hf).
    + eapply pool_step_at. apply (step_fetched a _ d).
Qed.


(** *** Final states *)

Lemma all_finished_final (st : list (attempt * phase)) :
  Forall (fun x => sound (fst x)) st ->
  all_finished (pool_of st) ->
  Forall (fun x => won (snd x) = true \/ lost (snd x) = true) st.
Proof.
  unfold all_finished, Contention.pool_of. intros Hsound Hfin.
  rewrite Forall_map in Hfin. rewrite Forall_forall in *.
  intros x Hx. apply (finished_final (fst x) (snd x) (Hsound x Hx)).
  exact (Hfin x Hx).
Qed.

Lemma count_status_cons (code : Z) (r : response) (rs : list (result response)) :
  count_status code (Ok r :: rs)
  = ((if (status r =? code)%Z then 1 else 0) + count_status code rs)%nat.
Proof. unfold count_status. cbn [filter]. now destruct (status r =? code)%Z. Qed.

Lemma responses_won (a : attempt) (st : list (attempt * phase)) :
  responses (pool_of ((a, Won) :: st))
  = Ok (Contention.confirmation d0 s0 fl a) :: responses (pool_of st).
Proof. reflexivity. Qed.

Lemma responses_lost (a : attempt) (st : list (attempt * phase)) :
  responses (pool_of ((a, Lost) :: st))
  = Ok (Contention.rejection a) :: responses (pool_of st).
Proof. reflexivity. Qed.

Lemma final_responses (st : list (attempt * phase)) :
  Forall (fun x => won (snd x) = true \/ lost (snd x) = true) st ->
  List.length (responses (pool_of st)) = List.length st
  /\ count_status 201 (responses (pool_of st)) = count won st
  /\ count_status 409 (responses (pool_of st)) = count lost st
  /\ (count won st + count lost st)%nat = List.length st.
Proof.
  induction st as [|[a ph] st IH]; [now intros _|].
  intros Hall. inversion Hall as [|x l Hph Hrest]; subst.
  destruct (IH Hrest) as (Hlen & Hwon & Hlost & Hsum).
  rewrite !count_cons. cbn [snd] in Hph.
  destruct ph; destruct Hph as [Hph|Hph]; try discriminate Hph;
    rewrite ?responses_won, ?responses_lost, !count_status_cons;
    cbn [won lost List.length];
    unfold Contention.confirmation, Contention.rejection, booking_confirmation,
      seat_already_booked, error_response; cbn [status Z.eqb Pos.eqb];
    repeat split; lia.
Qed.

Lemma free_seat_has_no_booking :
  filter (fun b => (booking_seat_id (booking_cols b) =? sid)%Z) (bookings d0) = [].
Proof.
  destruct Hfree as (_ & Hnone & _). revert Hnone.
  induction (bookings d0) as [|b l IH]; [reflexivity|].
  cbn [forallb filter]. intros Hb. apply andb_true_iff in Hb.
  destruct Hb as [Hb Hl]. apply negb_true_iff in Hb. rewrite Hb. now apply IH.
Qed.

Lemma booked_state_single_row (a : attempt) :
  bookings_of_seat (booked_state d0 s0 (row a)) sid = 1%nat.
Proof.
  unfold bookings_of_seat, booked_state. cbn [bookings].
  rewrite filter_app, free_seat_has_no_booking.
  cbn [filter booking_cols Contention.row booking_row booking_seat_id app].
  now rewrite Z.eqb_refl.
Qed.

(** When every handler has answered, one answered 201, the others 409, the
    seat is booked and has one booking row. *)
Lemma final_single_winner (d : db) (st : list (attempt * phase))
      (fid : Z) (row_num col_num : str) :
  invariant d st -> st <> [] ->
  select_seat d0 fid row_num col_num = Some s0 ->
  all_finished (pool_of st) ->
  Contention.single_winner s0 (List.length st) d (pool_of st) fid row_num col_num.
Proof.
  intros (Hhold & Hsound & Hstage) Hne Hseat Hfin.
  pose proof (all_finished_final st Hsound Hfin) as Hfinal.
  destruct (final_responses st Hfinal) as (Hlen & Hwon & Hlost & Hsum).
  destruct Hstage as [(_ & _ & _ & _ & Hw & Hl & _) | ((a & ->) & Hw & _)].
  - destruct st; [now contradiction Hne | cbn [List.length] in Hsum; lia].
  - unfold Contention.single_winner. rewrite Hlen, Hwon, Hlost.
    split; [reflexivity|]. split; [exact Hw|]. split; [lia|]. split.
    + exists (set_booked sid s0). rewrite select_seat_booked, Hseat.
      destruct set_booked_self as [Hb Hid]. now repeat split.
    + apply booked_state_single_row.
Qed.

(** *** The pool of the calls *)

Lemma attempts_of_calls (calls : list (booking_request * entropy)) :
  Forall (Contention.well_behaved q d0 s0) calls ->
  exists attempts,
    Forall sound attempts
    /\ List.length attempts = List.length calls
    /\ map (fun c => spawn (create_booking_with q (Some (fst c)) (snd c))) calls
       = pool_of (arrivals attempts).
Proof.
  induction 1 as [|c calls (ref & kyber & dilithium & Hc) _ (attempts & Hs & Hl & Hp)].
  - exists []. now repeat split.
  - exists ({| a_data := fst c; a_entropy := snd c; a_ref := ref;
               a_kyber := kyber; a_dilithium := dilithium |} :: attempts).
    split; [now constructor|]. split; [cbn [List.length]; now rewrite Hl|].
    cbn [map]. rewrite Hp. reflexivity.
Qed.

Lemma arrivals_length (attempts : list attempt) :
  List.length (arrivals attempts) = List.length attempts.
Proof. apply length_map. Qed.


(** C1 (amended).  Several calls of the booking handler for one seat are
    served at once, each on its own connection, in any interleaving of their
    statements.  The seat is free at the start, has no booking row and its
    flight exists; every call carries a complete request that addresses the
    seat, its cryptographic steps raise nothing and its reference is new to
    the database.  Then every execution is finite, some handler can take a
    step as long as one has not answered, and once all have answered exactly
    one answer is 201, the others are 409, the seat is booked and exactly
    one booking row refers to it. *)
Theorem single_winner_under_contention
        (calls : list (booking_request * entropy))
        (fid : Z) (row_num col_num : str)
        (final : db * list (worker (result response))) :
  calls <> [] ->
  select_seat d0 fid row_num col_num = Some s0 ->
  Forall (Contention.well_behaved q d0 s0) calls ->
  pool_steps
    (d0, map (fun c => spawn (create_booking_with q (Some (fst c)) (snd c))) calls)
    final ->
  Acc (fun s2 s1 => pool_step s1 s2) final
  /\ (all_finished (snd final) \/ exists s', pool_step final s')
  /\ (all_finished (snd final) ->
      Contention.single_winner s0 (List.length calls) (fst final) (snd final)
        fid row_num col_num).
Proof.
  intros Hne Hseat Hcalls Hsteps.
  destruct (attempts_of_calls calls Hcalls) as (attempts & Hsound & Hlen & Hpool).
  rewrite Hpool in Hsteps.
  destruct (pool_steps_abstract (arrivals attempts) final
              (invariant_arrivals attempts Hsound) Hsteps)
    as (d & st & -> & Hinv & Hmap).
  cbn [fst snd].
  assert (Hn : List.length st = List.length calls).
  { rewrite <- Hlen, <- (arrivals_length attempts).
    rewrite <- (length_map fst st), Hmap. apply length_map. }
  split; [now apply pool_terminates|]. split; [now apply pool_progress|].
  intros Hfin. rewrite <- Hn. apply final_single_winner; try assumption.
  intros ->. destruct calls; [now contradiction Hne | discriminate Hn].
Qed.

End ContentionProofs.

(** *** Schedules *)

Section Schedules.

Import Store.
Context {collation : Collation} {A : Type}.

Lemma pool_steps_trans (s1 s2 s3 : db * list (worker A)) :
  pool_steps s1 s2 -> pool_steps s2 s3 -> pool_steps s1 s3.
Proof.
  intros H12 H23. induction H23 as [s | s2 s3 s4 _ IH Hstep]; [exact H12|].
  eapply pool_steps_step; [exact (IH H12) | exact Hstep].
Qed.

(** A schedule that is accepted is an execution of the pool. *)
Lemma schedule_sound (turns : list nat) (s s' : db * list (worker A)) :
  schedule turns s = Some s' -> pool_steps s s'.
Proof.
  revert s. induction turns as [|i turns IH]; intros [d ws]; cbn [schedule fst snd].
  - intros E. injection E as <-. apply pool_steps_refl.
  - destruct (skipn i ws) as [|w after] eqn:Eskip; [discriminate|].
    destruct (step (held_locks (firstn i ws ++ after)) d (w_conn w) (w_prog w))
      as [d' c' p'| |] eqn:Estep; try discriminate.
    intros Hrest. apply IH in Hrest.
    eapply pool_steps_trans; [|exact Hrest].
    eapply pool_steps_step; [apply pool_steps_refl|].
    rewrite <- (firstn_skipn i ws) at 1. rewrite Eskip.
    apply pool_step_worker. exact Estep.
Qed.

End Schedules.

(** The race for seat 5A on the seeded database. *)

Section ContentionScenario.

Import Libs Store Server Scenario Contention.

#[local] Existing Instance environment.
#[local] Existing Instance hashlib.
#[local] Existing Instance aesgcm.
#[local] Existing Instance unicode.
#[local] Existing Instance collation.

Lemma seat_5A_is_free : seat_is_free database seat_5A flight_1.
Proof. repeat split. Qed.

Lemma ada_is_well_behaved (e : entropy) :
  quantum_gap_results quantum_trinity (passport_of ada) (seat_id seat_5A)
    (flight_id_of ada) (passenger_name_of ada) e <> None ->
  well_behaved quantum_trinity database seat_5A (ada, e).
Proof.
  intros Hgap. cbn [fst snd].
  destruct (quantum_gap_results quantum_trinity (passport_of ada) (seat_id seat_5A)
              (flight_id_of ada) (passenger_name_of ada) e)
    as [[[ref kyber] dilithium]|] eqn:E; [|now contradiction Hgap].
  exists ref, kyber, dilithium. unfold sound. cbn [a_data a_entropy a_ref a_kyber a_dilithium fst snd].
  split; [reflexivity|]. split; [reflexivity|]. split; [exact E|reflexivity].
Qed.

Lemma race_is_well_behaved :
  Forall (well_behaved quantum_trinity database seat_5A) race_calls.
Proof.
  unfold race_calls.
  repeat constructor; apply ada_is_well_behaved; vm_compute; discriminate.
Qed.

Lemma race_is_an_execution : pool_steps (pool race_calls) race_final.
Proof. apply (schedule_sound race_turns). vm_compute. reflexivity. Qed.

Lemma race_is_over : all_finished (snd race_final).
Proof. vm_compute. repeat constructor; discriminate. Qed.

Lemma single_winner_under_contention_witness :
  pool_steps
    (database, [spawn (create_booking (Some ada) zeros);
                spawn (create_booking (Some ada) counting)])
    race_final
  /\ all_finished (snd race_final)
  /\ single_winner seat_5A 2 (fst race_final) (snd race_final) 1%Z (lit "5") (lit "A").
Proof.
  split; [exact race_is_an_execution|]. split; [exact race_is_over|].
  refine (proj2 (proj2 (single_winner_under_contention quantum_trinity database
                          seat_5A flight_1 seat_5A_is_free race_calls 1%Z
                          (lit "5") (lit "A") race_final _ _
                          race_is_well_behaved race_is_an_execution))
                race_is_over).
  - discriminate.
  - reflexivity.
Defined.

Lemma failing_is_an_execution : pool_steps (pool failing_calls) failing_final.
Proof. apply (schedule_sound failing_turns). vm_compute. reflexivity. Qed.

(** C1 as stated does not hold: two requests for the free seat 5A whose
    passport number cannot be encoded are both answered 500; nobody is
    answered 201 and the seat stays free. *)
Lemma failed_handlers_leave_no_winner :
  select_seat database 1%Z (lit "5") (lit "A") = Some seat_5A
  /\ is_booked seat_5A = false
  /\ pool_steps
       (database, [spawn (create_booking (Some unencodable) zeros);
                   spawn (create_booking (Some unencodable) counting)])
       failing_final
  /\ all_finished (snd failing_final)
  /\ count_status 201 (responses (snd failing_final)) = 0%nat
  /\ count_status 409 (responses (snd failing_final)) = 0%nat
  /\ count_status 500 (responses (snd failing_final)) = 2%nat
  /\ select_seat (fst failing_final) 1%Z (lit "5") (lit "A") = Some seat_5A
  /\ bookings_of_seat (fst failing_final) (seat_id seat_5A) = 0%nat
  /\ ~ single_winner seat_5A 2 (fst failing_final) (snd failing_final)
         1%Z (lit "5") (lit "A").
Proof.
  split; [reflexivity|]. split; [reflexivity|].
  split; [exact failing_is_an_execution|].
  split; [vm_compute; repeat constructor; discriminate|].
  assert (Hnone : count_status 201 (responses (snd failing_final)) = 0%nat)
    by (vm_compute; reflexivity).
  split; [exact Hnone|].
  split; [vm_compute; reflexivity|]. split; [vm_compute; reflexivity|].
  split; [vm_compute; reflexivity|]. split; [vm_compute; reflexivity|].
  intros (_ & Hone & _). rewrite Hnone in Hone. discriminate Hone.
Qed.

End ContentionScenario.

(** ** Tickets of the server: signing, storing, verifying *)

Lemma ascii_decode_ascii (bs : bytes) :
  Forall is_ascii_byte bs -> ascii_decode bs = Ok (map Byte.to_N bs).
Proof.
  induction 1 as [|b bs Hb _ IH]; [reflexivity|].
  cbn [ascii_decode map]. apply N.ltb_lt in Hb. rewrite Hb, IH. reflexivity.
Qed.

Lemma ascii_decode_b64encode (bin : bytes) :
  ascii_decode (b64encode bin) = Ok (b64text bin).
Proof. apply ascii_decode_ascii, b64encode_ascii. Qed.

Section ServerTickets.

Import Libs Store Server Assumptions.
Context {env : Environment} {hashlib : Hashlib} {aesgcm : AESGCM}
        {unicode : Unicode} {collation : Collation}.

Lemma dilithium_sign_eq (booking_ref : str) (seat_id flight_id : Z)
      (passenger_name : str) (e : entropy) (message_bytes : bytes) :
  utf8_encode (ticket_message booking_ref seat_id flight_id passenger_name)
  = Ok message_bytes ->
  exists r,
    dilithium_sign booking_ref seat_id flight_id passenger_name e
    = Ok (r, snd (token_bytes 3000 e))
    /\ signature r = b64text (hmac_sha512 mock_private_key message_bytes
                              ++ fst (token_bytes 3000 e))
    /\ data_hash r = hex (sha256 message_bytes).
Proof.
  intros Henc. unfold dilithium_sign. rewrite Henc. cbn [bind].
  destruct (token_bytes 3000 e) as [padding e'].
  rewrite ascii_decode_b64encode. cbn [bind].
  eexists. split; [reflexivity|]. split; reflexivity.
Qed.

(** X1.  A ticket signed by [dilithium_sign] verifies: for ticket fields
    whose message UTF-8 can encode, [dilithium_verify] called with the same
    fields and with the signature and the data hash that [dilithium_sign]
    returned answers true.  SHA-512 is taken with its digest size of 64
    octets. *)
Theorem signed_ticket_verifies (booking_ref : str) (seat_id flight_id : Z)
        (passenger_name : str) (e : entropy) (message_bytes : bytes) :
  sha512_is_64_bytes ->
  utf8_encode (ticket_message booking_ref seat_id flight_id passenger_name)
  = Ok message_bytes ->
  exists r e',
    dilithium_sign booking_ref seat_id flight_id passenger_name e = Ok (r, e')
    /\ dilithium_verify booking_ref seat_id flight_id passenger_name
         (signature r) (data_hash r) = Ok true.
Proof.
  intros Hsha Henc.
  destruct (dilithium_sign_eq booking_ref seat_id flight_id passenger_name e
              message_bytes Henc) as (r & Hr & Hsig & Hhash).
  exists r, (snd (token_bytes 3000 e)). split; [exact Hr|].
  rewrite (dilithium_verify_eq _ _ _ _ (signature r) (data_hash r) _ Henc).
  rewrite Hsig, Hhash, b64decode_b64text.
  assert (Hmac : List.length (hmac_sha512 mock_private_key message_bytes) = 64%nat)
    by (apply hmac_digest_length, Hsha).
  rewrite slice_to_head_app by (rewrite Hmac; reflexivity).
  f_equal. apply andb_true_iff. split.
  - now apply str_eqb_eq.
  - now apply bytes_eqb_eq.
Qed.


(** Every run of the booking handler ends in one of three ways: it
    committed a booking and answered 201; it answered with an error status
    and left the store as it was; or it passed an exception on. *)
Lemma run_create_booking_outcome (q : trinity) (data : option booking_request)
      (e : entropy) (d d' : db) (r : result response) :
  run (create_booking_with q data e) d fresh_conn = (r, d') ->
  (exists resp, r = Ok resp /\ d' = d
                /\ (status resp = 400 \/ status resp = 404 \/ status resp = 409
                    \/ status resp = 500)%Z)
  \/ (exists ex, r = Raise ex)
  \/ (exists req s qrng_ref e1 kyber e2 dilithium e3 f,
        data = Some req
        /\ missing_fields req = []
        /\ select_seat d (flight_id_of req) (row_num_of req) (col_num_of req) = Some s
        /\ is_booked s = false
        /\ qrng q e = Ok (qrng_ref, e1)
        /\ kem q (passport_of req) e1 = Ok (kyber, e2)
        /\ dsa q qrng_ref (seat_id s) (flight_id_of req) (passenger_name_of req) e2
           = Ok (dilithium, e3)
        /\ existsb (fun b => (booking_seat_id (booking_cols b) =? seat_id s)%Z)
                   (bookings d) = false
        /\ existsb (fun b => sql_eq (pqc_ref (booking_cols b)) qrng_ref)
                   (bookings d) = false
        /\ select_flight d (flight_id_of req) = Some f
        /\ r = Ok (booking_confirmation (bookings_auto_increment d) qrng_ref
                     (passenger_name_of req) f (seat_id s) (row_num_of req)
                     (col_num_of req) (seat_class s) kyber dilithium)
        /\ d' = booked_state d s (booking_row req s qrng_ref kyber dilithium)).
Proof.
  intros Hrun.
  assert (Hrb : forall ex c,
             run (rolled_back ex) d c = (r, d') ->
             (exists resp, r = Ok resp /\ d' = d
                           /\ (status resp = 400 \/ status resp = 404
                               \/ status resp = 409 \/ status resp = 500)%Z)
             \/ (exists ex, r = Raise ex)).
  { intros ex c Hr. destruct (run_rolled_back ex d c) as (r0 & Er & Hs).
    rewrite Er in Hr. injection Hr as <- <-.
    destruct r0 as [resp|ex0]; [left | right; now exists ex0].
    exists resp. repeat split. tauto. }
  assert (Herr : forall code msg,
             (code = 400 \/ code = 404 \/ code = 409 \/ code = 500)%Z ->
             (Ok (error_response code msg), d) = (r, d') ->
             exists resp, r = Ok resp /\ d' = d
                          /\ (status resp = 400 \/ status resp = 404
                              \/ status resp = 409 \/ status resp = 500)%Z).
  { intros code msg Hcode E. injection E as <- <-.
    exists (error_response code msg). repeat split. exact Hcode. }
  destruct data as [req|]; [|left; apply (Herr 400%Z _ ltac:(tauto) Hrun)].
  destruct (missing_fields req) as [|m ms] eqn:Hmissing.
  2:{ unfold create_booking_with in Hrun. rewrite Hmissing in Hrun.
      left. apply (Herr 400%Z _ ltac:(tauto) Hrun). }
  destruct (select_seat d (flight_id_of req) (row_num_of req) (col_num_of req))
    as [s|] eqn:Hseat.
  2:{ unfold create_booking_with in Hrun. rewrite Hmissing in Hrun.
      cbn [run] in Hrun. rewrite view_fresh, Hseat in Hrun. cbn [run] in Hrun.
      left. apply (Herr 404%Z _ ltac:(tauto) Hrun). }
  rewrite (@run_create_booking_locked _ _ q req e d s Hmissing Hseat) in Hrun.
  destruct (is_booked s) eqn:Hfree.
  { cbn [run] in Hrun. left. apply (Herr 409%Z _ ltac:(tauto) Hrun). }
  destruct (qrng q e) as [[qrng_ref e1]|ex] eqn:Eq;
    [|destruct (Hrb _ _ Hrun); tauto].
  destruct (kem q (passport_of req) e1) as [[kyber e2]|ex] eqn:Ek;
    [|destruct (Hrb _ _ Hrun); tauto].
  destruct (dsa q qrng_ref (seat_id s) (flight_id_of req)
              (passenger_name_of req) e2) as [[dilithium e3]|ex] eqn:Es;
    [|destruct (Hrb _ _ Hrun); tauto].
  cbn [run] in Hrun. unfold insert_booking in Hrun.
  match type of Hrun with
  | context [insert_violation ?v ?x] => destruct (insert_violation v x) eqn:Ei
  end.
  { destruct (Hrb _ _ Hrun); tauto. }
  cbn [run] in Hrun.
  match type of Hrun with
  | context [select_flight ?v ?x] => destruct (select_flight v x) as [f|] eqn:Ef
  end.
  2:{ cbn [run] in Hrun. injection Hrun as <- _. right. left. eexists. reflexivity. }
  cbn [run] in Hrun. injection Hrun as <- <-.
  right. right.
  exists req, s, qrng_ref, e1, kyber, e2, dilithium, e3, f.
  unfold insert_violation in Ei.
  cbn [booking_seat_id pqc_ref booking_flight_id] in Ei.
  match type of Ei with
  | context [existsb ?p (bookings ?v)] =>
      change (bookings v) with (bookings d) in Ei
  end.
  destruct (existsb (fun b => (booking_seat_id (booking_cols b) =? seat_id s)%Z)
                    (bookings d)) eqn:Eseat; [discriminate|].
  destruct (existsb (fun b => sql_eq (pqc_ref (booking_cols b)) qrng_ref)
                    (bookings d)) eqn:Eref; [discriminate|].
  repeat split; solve [assumption | reflexivity].
Qed.


(** X2.  Whatever the request, the database and the services, a response
    of the booking handler has status 201, 400, 404, 409 or 500.  It has
    added one booking row when the status is 201, and has left the store
    exactly as it was in every other case. *)
Theorem booking_row_only_with_201 (q : trinity) (data : option booking_request)
        (e : entropy) (d d' : db) (resp : response) :
  run (create_booking_with q data e) d fresh_conn = (Ok resp, d') ->
  (status resp = 201%Z
   /\ List.length (bookings d') = S (List.length (bookings d)))
  \/ ((status resp = 400 \/ status resp = 404 \/ status resp = 409
       \/ status resp = 500)%Z
      /\ d' = d).
Proof.
  intros Hrun.
  destruct (run_create_booking_outcome q data e d d' (Ok resp) Hrun)
    as [(resp' & E & Hd & Hs) | [(ex & E) |
        (req & s & ref & e1 & ky & e2 & dl & e3 & f & _ & _ & _ & _ & _ & _ & _
         & _ & _ & _ & E & ->)]].
  - apply Ok_inj in E. subst resp'. right. now split.
  - discriminate E.
  - apply Ok_inj in E. subst resp. left. split; [reflexivity|].
    unfold booked_state. cbn [bookings]. rewrite length_app. cbn [List.length]. lia.
Qed.

(** *** References survive normalisation *)

Lemma upper_hex_cases (c : N) :
  is_upper_hex c = true ->
  c = 48 \/ c = 49 \/ c = 50 \/ c = 51 \/ c = 52 \/ c = 53 \/ c = 54 \/ c = 55
  \/ c = 56 \/ c = 57 \/ c = 65 \/ c = 66 \/ c = 67 \/ c = 68 \/ c = 69 \/ c = 70.
Proof.
  unfold is_upper_hex. intros H. apply orb_true_iff in H.
  destruct H as [H|H]; apply andb_true_iff in H; destruct H as [H1 H2];
    apply N.leb_le in H1, H2; lia.
Qed.

Lemma upper_hex_fixed (c : N) :
  is_upper_hex c = true -> upper_char c = [c] /\ isspace c = false.
Proof.
  intros H. apply upper_hex_cases in H.
  repeat (destruct H as [H|H]; [subst c; split; reflexivity|]).
  subst c; split; reflexivity.
Qed.

Lemma reference_normalised (ref : str) :
  reference_format ref -> upper (strip ref) = ref.
Proof.
  intros (g1 & g2 & g3 & -> & H1 & H2 & H3 & Hall & _).
  do 4 (destruct g1 as [|? g1]; [discriminate|]). destruct g1; [|discriminate].
  do 4 (destruct g2 as [|? g2]; [discriminate|]). destruct g2; [|discriminate].
  do 4 (destruct g3 as [|? g3]; [discriminate|]). destruct g3; [|discriminate].
  repeat match goal with
         | Hf : Forall _ (_ ++ _) |- _ => cbn [app] in Hf
         | Hf : Forall _ (_ :: _) |- _ => inversion Hf; subst; clear Hf
         end.
  repeat match goal with
         | Hc : is_upper_hex _ = true |- _ => apply upper_hex_fixed in Hc; destruct Hc
         end.
  unfold strip. cbn.
  repeat match goal with
         | Hs : isspace ?c = false |- context [isspace ?c] => rewrite Hs
         end.
  cbn.
  repeat match goal with
         | Hc : upper_char ?c = _ |- context [upper_char ?c] => rewrite Hc
         end.
  reflexivity.
Qed.


Lemma dilithium_sign_encodes (booking_ref : str) (seat_id flight_id : Z)
      (passenger_name : str) (e e' : entropy) (r : dilithium_result) :
  dilithium_sign booking_ref seat_id flight_id passenger_name e = Ok (r, e') ->
  exists message_bytes,
    utf8_encode (ticket_message booking_ref seat_id flight_id passenger_name)
    = Ok message_bytes.
Proof.
  unfold dilithium_sign.
  destruct (utf8_encode (ticket_message booking_ref seat_id flight_id passenger_name))
    as [mb|ex]; [now exists mb | discriminate].
Qed.

(** The row a booking has just committed is the one its reference
    selects. *)
Lemma select_new_booking (d : db) (s : seat) (v : booking_values) (f : flight) :
  collation_reflexive ->
  existsb (fun b => sql_eq (pqc_ref (booking_cols b)) (pqc_ref v)) (bookings d)
  = false ->
  In s (seats d) -> booking_seat_id v = seat_id s ->
  select_flight d (booking_flight_id v) = Some f ->
  exists s',
    select_booking_by_ref (booked_state d s v) (pqc_ref v)
    = Some ({| booking_id := bookings_auto_increment d; booking_cols := v |}, s', f).
Proof.
  intros Hrefl Hnew Hin Hsid Hflight.
  destruct (find_exists (fun x => seat_id x =? seat_id s)%Z
              (map (set_booked (seat_id s)) (seats d)) (set_booked (seat_id s) s))
    as (s' & Hs'); [now apply in_map | |].
  { unfold set_booked. rewrite Z.eqb_refl. apply Z.eqb_refl. }
  exists s'. unfold select_booking_by_ref.
  set (d' := booked_state d s v).
  change (bookings d') with
    (bookings d ++ [{| booking_id := bookings_auto_increment d; booking_cols := v |}]).
  rewrite flat_map_app.
  match goal with
  | |- context [flat_map ?g (bookings d)] =>
      assert (Hold : flat_map g (bookings d) = [])
  end.
  { revert Hnew. induction (bookings d) as [|b bs IH]; [reflexivity|].
    cbn [existsb flat_map]. intros Hb. apply orb_false_iff in Hb.
    destruct Hb as [Hb Hbs]. rewrite Hb. cbn [app]. now apply IH. }
  rewrite Hold. cbn [app flat_map booking_cols]. rewrite Hrefl.
  unfold select_seat_by_id, select_flight in *.
  change (seats d') with (map (set_booked (seat_id s)) (seats d)).
  change (flights d') with (flights d).
  rewrite Hsid, Hs', Hflight. reflexivity.
Qed.

Lemma utf8_encode_char_raises (c : N) (ex : exn) :
  utf8_encode_char c = Raise ex -> ex = UnicodeEncodeError.
Proof.
  unfold utf8_encode_char.
  repeat match goal with
         | |- context [if ?b then _ else _] => destruct b
         end; intros E; first [discriminate E | now injection E].
Qed.

Lemma utf8_encode_raises (s : str) (ex : exn) :
  utf8_encode s = Raise ex -> ex = UnicodeEncodeError.
Proof.
  induction s as [|c s IH]; [discriminate|].
  cbn [utf8_encode].
  destruct (utf8_encode_char c) as [b|ex'] eqn:Ec; cbn [bind].
  - destruct (utf8_encode s) as [r|ex'']; cbn [bind]; [discriminate|].
    intros E. injection E as <-. now apply IH.
  - intros E. injection E as <-. now apply utf8_encode_char_raises in Ec.
Qed.

Lemma dilithium_verify_raises (booking_ref : str) (seat_id flight_id : Z)
      (passenger_name signature data_hash : str) (ex : exn) :
  dilithium_verify booking_ref seat_id flight_id passenger_name signature data_hash
  = Raise ex -> is_Exception ex = true.
Proof.
  destruct (utf8_encode (ticket_message booking_ref seat_id flight_id passenger_name))
    as [mb|ex'] eqn:Henc.
  - rewrite (dilithium_verify_eq _ _ _ _ signature data_hash mb Henc). discriminate.
  - unfold dilithium_verify. rewrite Henc. cbn [bind]. intros E. injection E as <-.
    now rewrite (utf8_encode_raises _ _ Henc).
Qed.

(** X4.  The verification handler only reads.  For every request and
    every state of the store it returns a response, never an exception, and
    leaves the store as it was; the status is 200, 400 or 500, and it is 400
    exactly when the request carries no booking reference. *)
Theorem verification_only_reads (data : option verify_request) (d : db) :
  exists resp,
    run (verify_ticket data) d fresh_conn = (Ok resp, d)
    /\ (status resp = 200 \/ status resp = 400 \/ status resp = 500)%Z
    /\ (status resp = 400%Z <->
        match data with
        | Some {| req_booking_ref := Some _ |} => False
        | _ => True
        end).
Proof.
  destruct data as [[[ref|]]|]; cbn [verify_ticket run];
    try (eexists; split; [reflexivity|]; cbn [status error_response];
         split; [tauto|]; tauto).
  rewrite view_fresh.
  destruct (select_booking_by_ref d (upper (strip ref))) as [[[b s] f]|].
  - destruct (dilithium_verify _ _ _ _ _ _) as [valid|ex] eqn:Ev.
    + cbn [run]. eexists. split; [reflexivity|]. cbn [status].
      split; [tauto|]. split; [discriminate | tauto].
    + rewrite (dilithium_verify_raises _ _ _ _ _ _ _ Ev). cbn [run].
      eexists. split; [reflexivity|]. cbn [status error_response].
      split; [tauto|]. split; [discriminate | tauto].
  - cbn [run]. eexists. split; [reflexivity|]. cbn [status booking_not_found].
    split; [tauto|]. split; [discriminate | tauto].
Qed.

Lemma absent_or_empty_false (field : option str) :
  absent_or_empty field = false <-> exists s, field = Some s /\ s <> [].
Proof.
  destruct field as [[|c s]|]; cbn; split;
    try discriminate; try (intros (s' & E & Hs); congruence).
  intros _. eexists. split; [reflexivity | discriminate].
Qed.

Lemma missing_fields_nil (data : booking_request) :
  missing_fields data = [] <->
  (exists z, req_flight_id data = Some z /\ z <> 0%Z)
  /\ (exists r, req_row data = Some r /\ r <> [])
  /\ (exists c, req_col data = Some c /\ c <> [])
  /\ (exists n, req_name data = Some n /\ n <> [])
  /\ (exists p, req_passport data = Some p /\ p <> []).
Proof.
  unfold missing_fields.
  rewrite <- !absent_or_empty_false.
  assert (Hone : forall (b : bool) (x : string) (l : list string),
             (if b then [x] else []) ++ l = [] <-> b = false /\ l = []).
  { intros b x l. destruct b; cbn [app]; split.
    - discriminate.
    - intros [E _]. discriminate E.
    - intros E. now split.
    - intros [_ E]. exact E. }
  assert (Hlast : forall (b : bool) (x : string),
             (if b then [x] else []) = [] <-> b = false).
  { intros [|] x; split; try discriminate; reflexivity. }
  rewrite !Hone, Hlast.
  assert (Hid : match req_flight_id data with
                | Some z => (z =? 0)%Z
                | None => true
                end = false
                <-> exists z, req_flight_id data = Some z /\ z <> 0%Z).
  { destruct (req_flight_id data) as [z|].
    - destruct (Z.eqb_spec z 0); split; try discriminate.
      + intros (z' & E & Hz). congruence.
      + intros _. now exists z.
      + reflexivity.
    - split; [discriminate | intros (z' & E & _); discriminate E]. }
  rewrite Hid. tauto.
Qed.

(** X5.  A request is refused with status 400 before any connection to
    the database is opened exactly when a required field is absent or
    falsy: the flight id absent or 0, or the row, the column, the name or
    the passport number absent or empty.  Otherwise the handler starts by
    connecting. *)
Theorem incomplete_request_is_refused (q : trinity) (data : booking_request)
        (e : entropy) :
  (complete_request data <->
   exists k, create_booking_with q (Some data) e = Connect k)
  /\ (~ complete_request data <->
      exists message,
        create_booking_with q (Some data) e
        = Return (Ok (error_response 400 message))).
Proof.
  assert (Hc : complete_request data <-> missing_fields data = []).
  { unfold complete_request. rewrite (missing_fields_nil data). tauto. }
  unfold create_booking_with.
  destruct (missing_fields data) as [|m ms] eqn:Hm.
  - split.
    + split; [intros _; eexists; reflexivity | intros _; now apply Hc].
    + split; [intros Hn; destruct Hn; now apply Hc | intros (msg & E); discriminate E].
  - split.
    + split; [intros H; apply Hc in H; discriminate H | intros (k & E); discriminate E].
    + split; [intros _; eexists; reflexivity
             | intros _ H; apply Hc in H; discriminate H].
Qed.

End ServerTickets.

(** The theorems on tickets, on the seeded database. *)

Section ServerTicketsScenario.

Import Libs Store Server Assumptions Scenario.

#[local] Existing Instance environment.
#[local] Existing Instance hashlib.
#[local] Existing Instance aesgcm.
#[local] Existing Instance unicode.
#[local] Existing Instance collation.

Lemma scenario_collation_reflexive : collation_reflexive.
Proof. intros s. now apply str_eqb_eq. Qed.

Lemma signed_ticket_verifies_witness :
  exists r e',
    dilithium_sign (lit "QREF-0000-0000-0000") 25 1 (lit "Ada Lovelace") zeros
    = Ok (r, e')
    /\ dilithium_verify (lit "QREF-0000-0000-0000") 25 1 (lit "Ada Lovelace")
         (signature r) (data_hash r) = Ok true.
Proof.
  apply (signed_ticket_verifies (lit "QREF-0000-0000-0000") 25 1
           (lit "Ada Lovelace") zeros
           (blit "QREF-0000-0000-0000|25|1|Ada Lovelace")).
  - exact scenario_sha512.
  - vm_compute. reflexivity.
Defined.

Lemma booking_row_only_with_201_witness :
  (status confirmation = 201%Z
   /\ List.length (bookings (snd booked)) = S (List.length (bookings database)))
  \/ ((status confirmation = 400 \/ status confirmation = 404
       \/ status confirmation = 409 \/ status confirmation = 500)%Z
      /\ snd booked = database).
Proof.
  apply (booking_row_only_with_201 quantum_trinity (Some ada) zeros database
           (snd booked) confirmation).
  exact booked_confirmed.
Defined.

End ServerTicketsScenario.

(** ** The lattice backends *)

Section RealBackends.

Import Config Libs Installed.
Context {caps : Capabilities} {hashlib : Hashlib} {pycryptodome : PyCryptodome}
        {oqs : Oqs}.

(** What the real encryption returns, by its parts. *)
Lemma kyber_encrypt_real_parts (plaintext : bytes) (e : entropy) :
  PYCRYPTODOME_AVAILABLE = true ->
  exists (d : json) (e' e1 e2 : entropy)
         (public_key private_key encapsulated shared nonce ciphertext tag : bytes),
    Encryptor.kyber_encrypt_real plaintext e = Ok (d, e')
    /\ kem_generate_keypair QuantumConfig.KYBER_VARIANT e
       = ((public_key, private_key), e1)
    /\ kem_encap_secret QuantumConfig.KYBER_VARIANT public_key e1
       = ((encapsulated, shared), e2)
    /\ gcm_encrypt_and_digest (Encryptor.hkdf_derive_key shared) nonce plaintext
       = (ciphertext, tag)
    /\ jget "ciphertext" d = Some (JStr (b64text (ciphertext ++ tag)))
    /\ jget "encapsulated_key" d = Some (JStr (b64text encapsulated))
    /\ jget "nonce" d = Some (JStr (b64text nonce))
    /\ jget "private_key" d = Some (JStr (bytes_to_hex private_key)).
Proof.
  intros Haes. unfold Encryptor.kyber_encrypt_real, Encryptor.aes_encrypt.
  rewrite Haes.
  destruct (kem_generate_keypair QuantumConfig.KYBER_VARIANT e)
    as [[pk sk] e1] eqn:Ekp.
  destruct (kem_encap_secret QuantumConfig.KYBER_VARIANT pk e1)
    as [[enc ss] e2] eqn:Eenc.
  destruct (token_bytes 12 e2) as [nonce e3].
  destruct (gcm_encrypt_and_digest (Encryptor.hkdf_derive_key ss) nonce plaintext)
    as [c t] eqn:Egcm.
  cbn [bind]. rewrite !b64encode_str_eq. cbn [bind].
  eexists _, _, e1, e2, pk, sk, enc, ss, nonce, c, t.
  split; [reflexivity|]. repeat split; solve [assumption | reflexivity].
Qed.

(** X7.  The round trip of the liboqs backend.  With liboqs and
    PyCryptodome present, every non-empty plaintext that UTF-8 can encode is
    encrypted, and decrypting the returned ciphertext with the returned
    encapsulated key, nonce and private key gives back exactly that
    plaintext.  The libraries are taken with their contracts: decapsulation
    recovers the encapsulated secret, AES-GCM has a 16-octet tag and
    decrypts what it encrypted. *)
Theorem real_round_trip (P : str) (Pb : bytes) (e : entropy) :
  LIBOQS_AVAILABLE = true ->
  PYCRYPTODOME_AVAILABLE = true ->
  kem_correct ->
  gcm_correct ->
  P <> [] ->
  utf8_encode P = Ok Pb ->
  exists (d : json) (e' : entropy)
         (ciphertext encapsulated_key nonce private_key : str) (r : json),
    Encryptor.encrypt P e = Ok (d, e')
    /\ jget "ciphertext" d = Some (JStr ciphertext)
    /\ jget "encapsulated_key" d = Some (JStr encapsulated_key)
    /\ jget "nonce" d = Some (JStr nonce)
    /\ jget "private_key" d = Some (JStr private_key)
    /\ Decryptor.decrypt ciphertext encapsulated_key nonce private_key = Ok r
    /\ jget "plaintext" r = Some (JStr P)
    /\ jget "mock_mode" r = Some (JBool false).
Proof.
  intros Hreal Haes Hkem Hgcm HP Henc.
  destruct (kyber_encrypt_real_parts Pb e Haes)
    as (d & e' & e1 & e2 & pk & sk & enc & ss & nonce & c & t
        & Hd & Ekp & Eenc & Egcm & Fc & Fk & Fn & Fp).
  destruct (Hgcm _ _ _ _ _ Egcm) as [Ht Hdec].
  pose proof (Hkem _ _ _ _ _ _ _ _ Ekp Eenc) as Hdecap.
  eexists d, e', _, _, _, _, _.
  split.
  { unfold Encryptor.encrypt. destruct P; [congruence|].
    rewrite Henc. cbn [bind]. now rewrite Hreal. }
  split; [exact Fc|]. split; [exact Fk|]. split; [exact Fn|]. split; [exact Fp|].
  unfold Decryptor.decrypt. rewrite Hreal. unfold Decryptor.kyber_decrypt_real.
  rewrite !b64decode_b64text. cbn [bind].
  unfold hex_to_bytes, bytes_to_hex. rewrite fromhex_hex. cbn [bind].
  rewrite Hdecap. cbn [bind].
  unfold Decryptor.aes_decrypt. rewrite Haes.
  rewrite (slice_to_tail_app c t Ht), (slice_from_tail_app c t Ht).
  rewrite hkdf_derive_key_same, Hdec.
  cbn [bind]. rewrite (utf8_decode_encode P Pb Henc). cbn [bind].
  split; [|split]; reflexivity.
Qed.


(** X8.  The simulated backend never consults the private key.  The
    ciphertext, encapsulated key and nonce that mock encryption returned
    for a plaintext decrypt to that plaintext under every private-key
    string whatever, because the shared secret travels in the clear as the
    first 32 octets of the encapsulated key. *)
Theorem mock_private_key_is_unused (P : str) (Pb : bytes) (e : entropy) :
  LIBOQS_AVAILABLE = false ->
  PYCRYPTODOME_AVAILABLE = true ->
  gcm_correct ->
  P <> [] ->
  utf8_encode P = Ok Pb ->
  exists (d : json) (e' : entropy) (ciphertext encapsulated_key nonce : str)
         (shared_secret : bytes),
    Encryptor.encrypt P e = Ok (d, e')
    /\ jget "ciphertext" d = Some (JStr ciphertext)
    /\ jget "encapsulated_key" d = Some (JStr encapsulated_key)
    /\ jget "nonce" d = Some (JStr nonce)
    /\ (exists decoded, b64decode encapsulated_key = Ok decoded
                        /\ slice_to 32 decoded = shared_secret
                        /\ List.length shared_secret = 32%nat)
    /\ forall private_key : str,
        exists r,
          Decryptor.decrypt ciphertext encapsulated_key nonce private_key = Ok r
          /\ jget "plaintext" r = Some (JStr P).
Proof.
  intros Hmock Haes Hgcm HP Henc.
  destruct (kyber_encrypt_mock_parts Pb e Haes)
    as (d & e' & skb & secret & rest & nonce & c & t
        & Hd & Hss & Hsk & Hn & Egcm & Fc & Fk & Fn & Fp).
  destruct (Hgcm _ _ _ _ _ Egcm) as [Ht Hdec].
  exists d, e', (b64text (c ++ t)), (b64text (secret ++ rest)), (b64text nonce), secret.
  split; [now rewrite (encrypt_is_mock P Pb e Hmock HP Henc)|].
  split; [exact Fc|]. split; [exact Fk|]. split; [exact Fn|]. split.
  { exists (secret ++ rest). split; [apply b64decode_b64text|]. split; [|exact Hss].
    apply slice_to_head_app. now rewrite Hss. }
  intros private_key.
  unfold Decryptor.decrypt. rewrite Hmock.
  rewrite (kyber_decrypt_mock_parts _ _ _ _ private_key Hss).
  unfold Decryptor.aes_decrypt. rewrite Haes.
  rewrite (slice_to_tail_app c t Ht), (slice_from_tail_app c t Ht), Hdec.
  cbn [bind]. rewrite (utf8_decode_encode P Pb Henc). cbn [bind].
  eexists. split; reflexivity.
Qed.

(** X9.  Without PyCryptodome nothing is encrypted.  Whatever the
    backend, [encrypt] on a non-empty encodable plaintext leaves through
    [json_error] with the message that PyCryptodome is required, and [main]
    lets that exit pass: it is not reported as a failed encryption. *)
Theorem encryption_needs_pycryptodome (P : str) (Pb : bytes) (e : entropy) :
  PYCRYPTODOME_AVAILABLE = false ->
  P <> [] ->
  utf8_encode P = Ok Pb ->
  Encryptor.encrypt P e
  = Raise (SystemExit 1 (lit "PyCryptodome is required for AES encryption. Install with: pip install pycryptodome"))
  /\ Encryptor.main (JObj [("plaintext", JStr P)]) e
     = Raise (SystemExit 1 (lit "PyCryptodome is required for AES encryption. Install with: pip install pycryptodome")).
Proof.
  intros Haes HP Henc.
  assert (Hencrypt :
            Encryptor.encrypt P e
            = Raise (SystemExit 1 (lit "PyCryptodome is required for AES encryption. Install with: pip install pycryptodome"))).
  { unfold Encryptor.encrypt. destruct P; [congruence|]. rewrite Henc. cbn [bind].
    destruct LIBOQS_AVAILABLE.
    - unfold Encryptor.kyber_encrypt_real, Encryptor.aes_encrypt. rewrite Haes.
      destruct (kem_generate_keypair QuantumConfig.KYBER_VARIANT e) as [[pk sk] e1].
      destruct (kem_encap_secret QuantumConfig.KYBER_VARIANT pk e1) as [[enc ss] e2].
      reflexivity.
    - unfold Encryptor.kyber_encrypt_mock, Encryptor.aes_encrypt. rewrite Haes.
      destruct (token_bytes 800 e) as [pkb e1].
      destruct (token_bytes 1632 e1) as [skb e2].
      destruct (token_bytes 768 e2) as [ekb e3].
      destruct (token_bytes 32 e3) as [secret e4].
      reflexivity. }
  split; [exact Hencrypt|].
  unfold Encryptor.main, Encryptor.get_str.
  cbn [jget assoc String.eqb Ascii.eqb Bool.eqb].
  destruct P; [congruence|]. rewrite Hencrypt. reflexivity.
Qed.

End RealBackends.

(** ** The signer with liboqs, and malformed signatures *)

Lemma fromhex_truncated (b : bytes) (c : N) :
  is_ascii_space c = false ->
  exists msg, fromhex (hex b ++ [c]) = Raise (ValueError msg).
Proof.
  intros Hc. induction b as [|x b (msg & IH)].
  - cbn [hex flat_map app fromhex]. rewrite Hc. eexists. reflexivity.
  - rewrite hex_cons, <- app_assoc, fromhex_hex_cons, IH. cbn [bind].
    now exists msg.
Qed.

Section SignerBackends.

Import Config Libs Signer Installed.
Context {caps : Capabilities} {hashlib : Hashlib} {oqs : Oqs}.

(** X10.  The round trip of the liboqs signer.  With liboqs present, a
    non-empty message that UTF-8 can encode is signed, and the returned
    signature verifies against the message under the returned public key.
    The library is taken with its contract: a signature made with the
    secret key of a pair verifies under its public key. *)
Theorem real_signature_verifies (M : str) (Mb : bytes) (e : entropy) :
  LIBOQS_AVAILABLE = true ->
  sig_correct ->
  M <> [] ->
  utf8_encode M = Ok Mb ->
  exists d e' sig pk v,
    sign M e = Ok (d, e')
    /\ jget "signature" d = Some (JStr sig)
    /\ jget "public_key" d = Some (JStr pk)
    /\ jget "mock_mode" d = Some (JBool false)
    /\ verify M sig pk = Ok v
    /\ jget "valid" v = Some (JBool true).
Proof.
  intros Hreal Hsig HM Henc.
  destruct (sig_generate_keypair QuantumConfig.DILITHIUM_VARIANT e)
    as [[pkb skb] e1] eqn:Ekp.
  destruct (sig_sign QuantumConfig.DILITHIUM_VARIANT skb Mb e1) as [sigb e2] eqn:Es.
  destruct (Hsig _ _ _ _ _ _ _ _ Ekp Es) as (Hv & Hsne & Hpne).
  eexists _, e2, (bytes_to_hex sigb), (bytes_to_hex pkb), _.
  split.
  { unfold sign. destruct M; [congruence|]. rewrite Hreal.
    unfold sign_real. rewrite Ekp, Henc. cbn [bind]. rewrite Es.
    unfold sha256_hash. rewrite Henc. cbn [bind]. reflexivity. }
  split; [reflexivity|]. split; [reflexivity|]. split; [reflexivity|].
  assert (Hs : bytes_to_hex sigb <> []) by (intros E; now apply hex_eq_nil in E).
  assert (Hp : bytes_to_hex pkb <> []) by (intros E; now apply hex_eq_nil in E).
  split.
  { unfold verify. destruct M; [congruence|].
    destruct (bytes_to_hex sigb) eqn:Esh; [congruence|].
    destruct (bytes_to_hex pkb) eqn:Eph; [congruence|].
    rewrite Hreal. unfold verify_real, hex_to_bytes.
    rewrite <- Esh, <- Eph. unfold bytes_to_hex. rewrite !fromhex_hex. cbn [bind].
    rewrite Henc. cbn [bind]. rewrite Hv. reflexivity. }
  reflexivity.
Qed.

(** X11.  A signature that is not a string of hexadecimal octets is an
    error, not an invalid signature.  When the presented signature is the
    hexadecimal form of some octets followed by one more character (so that
    a digit is left over), [verify] raises [ValueError] in both backends and
    [main] exits reporting a failed signature operation; no answer with
    [valid] false is produced. *)
Theorem truncated_signature_is_an_error (M : str) (Mb s : bytes) (c : N)
        (pk : str) (e : entropy) :
  M <> [] ->
  utf8_encode M = Ok Mb ->
  pk <> [] ->
  is_ascii_space c = false ->
  exists detail : string,
    verify M (bytes_to_hex s ++ [c]) pk = Raise (ValueError detail)
    /\ main (JObj [("verify", JBool true); ("data", JStr M);
                   ("signature", JStr (bytes_to_hex s ++ [c]));
                   ("public_key", JStr pk)]) e
       = Raise (SystemExit 1 (lit "Signature operation failed: " ++ lit detail)).
Proof.
  intros HM Henc Hpk Hc.
  destruct (fromhex_truncated s c Hc) as (msg & Hhex).
  exists msg.
  assert (Hv : verify M (bytes_to_hex s ++ [c]) pk = Raise (ValueError msg)).
  { unfold verify. destruct M; [congruence|].
    destruct (bytes_to_hex s ++ [c]) eqn:Esig;
      [now destruct (bytes_to_hex s)|].
    destruct pk; [congruence|]. rewrite <- Esig.
    destruct LIBOQS_AVAILABLE.
    - unfold verify_real, hex_to_bytes, bytes_to_hex. now rewrite Hhex.
    - unfold verify_mock, hex_to_bytes, bytes_to_hex. rewrite Henc. cbn [bind].
      now rewrite Hhex. }
  split; [exact Hv|].
  unfold main, get_str. cbn [jget assoc String.eqb Ascii.eqb Bool.eqb].
  rewrite Hv. reflexivity.
Qed.

End SignerBackends.

(** ** Malformed input of the decryptor *)

Lemma ascii_encode_non_ascii (s : str) :
  (exists x, In x s /\ 128 <= x) ->
  exists msg, ascii_encode s = Raise (ValueError msg).
Proof.
  intros (x & Hin & Hx). induction s as [|c s IH]; [destruct Hin|].
  cbn [ascii_encode]. destruct (N.ltb_spec c 128) as [Hc|Hc].
  - destruct Hin as [->|Hin]; [lia|].
    destruct (IH Hin) as (msg & ->). cbn [bind]. now exists msg.
  - eexists. reflexivity.
Qed.

Section DecryptorInput.

Import Config Libs.
Context {caps : Capabilities} {hashlib : Hashlib} {pycryptodome : PyCryptodome}
        {oqs : Oqs}.

Lemma main_reports_value_errors
      (ciphertext encapsulated_key nonce private_key : str) (ex : exn) :
  ciphertext <> [] -> encapsulated_key <> [] -> nonce <> [] -> private_key <> [] ->
  Decryptor.decrypt ciphertext encapsulated_key nonce private_key = Raise ex ->
  is_ValueError ex = true ->
  Decryptor.main (Decryptor.request ciphertext encapsulated_key nonce private_key)
  = Raise (SystemExit 1
             (lit "Decryption failed - integrity check failed or invalid data: "
              ++ exn_str ex)).
Proof.
  intros Hc Hk Hn Hp Hdec Hex.
  unfold Decryptor.main, Decryptor.request, Decryptor.get_str.
  cbn [jget assoc String.eqb Ascii.eqb Bool.eqb].
  destruct ciphertext; [congruence|]. destruct encapsulated_key; [congruence|].
  destruct nonce; [congruence|]. destruct private_key; [congruence|].
  cbn [Decryptor.nonempty andb]. rewrite Hdec, Hex. reflexivity.
Qed.

(** X12.  What the decryptor reports as an integrity failure.  For a
    request with its four fields present, every exception of class
    [ValueError] that [decrypt] raises makes [main] exit with the message of
    a failed integrity check or invalid data.  A ciphertext field holding a
    character outside ASCII is such a case, in both backends: it is refused
    while it is decoded, before any key is derived or any tag checked. *)
Theorem undecodable_ciphertext_is_reported
        (ciphertext encapsulated_key nonce private_key : str) :
  ciphertext <> [] -> encapsulated_key <> [] -> nonce <> [] -> private_key <> [] ->
  (forall ex,
      Decryptor.decrypt ciphertext encapsulated_key nonce private_key = Raise ex ->
      is_ValueError ex = true ->
      Decryptor.main (Decryptor.request ciphertext encapsulated_key nonce private_key)
      = Raise (SystemExit 1
                 (lit "Decryption failed - integrity check failed or invalid data: "
                  ++ exn_str ex)))
  /\ ((exists x, In x ciphertext /\ 128 <= x) ->
      exists detail : string,
        Decryptor.decrypt ciphertext encapsulated_key nonce private_key
        = Raise (ValueError detail)
        /\ Decryptor.main
             (Decryptor.request ciphertext encapsulated_key nonce private_key)
           = Raise (SystemExit 1
                      (lit "Decryption failed - integrity check failed or invalid data: "
                       ++ lit detail))).
Proof.
  intros Hc Hk Hn Hp. split.
  - intros ex Hdec Hex. now apply main_reports_value_errors.
  - intros Hbad. destruct (ascii_encode_non_ascii ciphertext Hbad) as (msg & Hmsg).
    exists msg.
    assert (Hdec : Decryptor.decrypt ciphertext encapsulated_key nonce private_key
                   = Raise (ValueError msg)).
    { unfold Decryptor.decrypt, Decryptor.kyber_decrypt_real,
        Decryptor.kyber_decrypt_mock, b64decode.
      rewrite Hmsg. now destruct LIBOQS_AVAILABLE. }
    split; [exact Hdec|].
    now apply (main_reports_value_errors _ _ _ _ (ValueError msg)).
Qed.

End DecryptorInput.

(** ** Hexadecimal text and booking references of the services *)

Section ServiceUtilities.

Import Config Entropy.

Lemma hex_length (b : bytes) : List.length (hex b) = (2 * List.length b)%nat.
Proof.
  induction b as [|x b IH]; [reflexivity|].
  rewrite hex_cons, length_app, IH. cbn [hex flat_map app List.length]. lia.
Qed.

(** X13.  Hexadecimal text round-trips and is checked.  [hex_to_bytes]
    returns the octets that [bytes_to_hex] rendered, two digits for each;
    when one more character that is not ASCII white space follows the
    digits, it raises [ValueError]. *)
Theorem hex_text_round_trip (data : bytes) :
  hex_to_bytes (bytes_to_hex data) = Ok data
  /\ List.length (bytes_to_hex data) = (2 * List.length data)%nat
  /\ forall c, is_ascii_space c = false ->
       exists msg, hex_to_bytes (bytes_to_hex data ++ [c]) = Raise (ValueError msg).
Proof.
  split; [apply fromhex_hex|]. split; [apply hex_length|].
  intros c Hc. now apply fromhex_truncated.
Qed.

Lemma bits_to_booking_ref_loop_shape (charset : str) (remaining : nat) :
  charset <> [] ->
  forall (num : N) (result : str) (e : entropy),
    Forall (fun c => In c charset) result ->
    exists r e', bits_to_booking_ref_loop charset remaining num result e = Ok (r, e')
                 /\ List.length r = (List.length result + remaining)%nat
                 /\ Forall (fun c => In c charset) r
                 /\ firstn (List.length result) r = result.
Proof.
  intros Hcs.
  assert (Hsize : N.of_nat (List.length charset) <> 0)
    by (destruct charset; [congruence | cbn [List.length]; lia]).
  induction remaining as [|rem IH]; intros num result e Hres.
  - exists result, e. repeat split; [cbn; lia | assumption | apply firstn_all].
  - cbn [bits_to_booking_ref_loop].
    apply N.eqb_neq in Hsize. rewrite Hsize. apply N.eqb_neq in Hsize.
    cbv zeta.
    set (result' := result ++ _).
    assert (Hres' : Forall (fun c => In c charset) result').
    { apply Forall_app. split; [assumption|]. constructor; [|constructor].
      apply nth_In.
      pose proof (N.mod_lt num (N.of_nat (List.length charset)) Hsize). lia. }
    assert (Hlen' : List.length result' = S (List.length result)).
    { unfold result'. rewrite length_app. cbn. lia. }
    assert (Hpre : forall r, firstn (List.length result') r = result' ->
                             firstn (List.length result) r = result).
    { intros r Hr.
      replace (firstn (List.length result) r)
        with (firstn (List.length result) (firstn (List.length result') r))
        by (rewrite firstn_firstn; f_equal; lia).
      rewrite Hr. unfold result'.
      rewrite firstn_app, Nat.sub_diag, firstn_all. cbn [firstn]. apply app_nil_r. }
    destruct ((num / N.of_nat (List.length charset) =? 0) && negb (Nat.eqb rem 0)).
    + destruct (randbelow_ok (N.of_nat (List.length charset) ^ N.of_nat rem) e)
        as (k & -> & _); [now apply N.pow_nonzero|].
      cbn [bind].
      destruct (IH k result' {| tape := tape e; pos := S (pos e) |} Hres')
        as (r & e' & -> & Hl & Ha & Hf).
      exists r, e'. repeat split; [lia | assumption | now apply Hpre].
    + destruct (IH (num / N.of_nat (List.length charset)) result' e Hres')
        as (r & e' & -> & Hl & Ha & Hf).
      exists r, e'. repeat split; [lia | assumption | now apply Hpre].
Qed.

(** X14.  [bits_to_booking_ref] always fills the reference.  For a
    non-empty string of binary digits and a non-empty alphabet it returns a
    reference of exactly the requested length (none for a length of zero or
    less) whose characters all belong to the alphabet, also when the bits
    run out and the loop draws fresh randomness; its first character is the
    one indexed by the value of the bits modulo the size of the alphabet.
    An empty string of bits raises [ValueError]. *)
Theorem bits_always_fill_the_reference (bits : list bool) (charset : str)
        (length : Z) (e : entropy) :
  charset <> [] ->
  match bits with
  | [] => exists msg, bits_to_booking_ref bits charset length e
                      = Raise (ValueError msg)
  | _ :: _ =>
      exists num r e',
        int_base2 bits = Ok num
        /\ bits_to_booking_ref bits charset length e = Ok (r, e')
        /\ List.length r = Z.to_nat length
        /\ Forall (fun c => In c charset) r
        /\ ((0 < length)%Z ->
            nth_error r 0
            = Some (nth (N.to_nat (num mod N.of_nat (List.length charset))) charset 0))
  end.
Proof.
  intros Hcs. destruct bits as [|b bits]; [eexists; reflexivity|].
  destruct (int_base2_ok b bits) as (num & Hnum).
  unfold bits_to_booking_ref. rewrite Hnum. cbn [bind].
  destruct (bits_to_booking_ref_loop_shape charset (Z.to_nat length) Hcs num [] e
              (Forall_nil _)) as (r & e' & Hr & Hl & Ha & _).
  exists num, r, e'. split; [reflexivity|]. split; [exact Hr|].
  split; [exact Hl|]. split; [exact Ha|].
  intros Hpos. destruct (Z.to_nat length) as [|rem] eqn:En; [lia|].
  cbn [bits_to_booking_ref_loop] in Hr.
  assert (Hsize : N.of_nat (List.length charset) <> 0)
    by (destruct charset; [congruence | cbn [List.length]; lia]).
  apply N.eqb_neq in Hsize. rewrite Hsize in Hr. apply N.eqb_neq in Hsize.
  cbv zeta in Hr. cbn [app] in Hr.
  set (first := nth (N.to_nat (num mod N.of_nat (List.length charset))) charset 0) in *.
  assert (Hfirst : forall n e0, exists r0 e0',
             bits_to_booking_ref_loop charset rem n [first] e0 = Ok (r0, e0')
             /\ firstn 1 r0 = [first]).
  { intros n e0.
    destruct (bits_to_booking_ref_loop_shape charset rem Hcs n [first] e0)
      as (r0 & e0' & Hr0 & _ & _ & Hf0).
    - constructor; [|constructor]. apply nth_In.
      pose proof (N.mod_lt num (N.of_nat (List.length charset)) Hsize). lia.
    - now exists r0, e0'. }
  destruct ((num / N.of_nat (List.length charset) =? 0) && negb (Nat.eqb rem 0)).
  - destruct (randbelow_ok (N.of_nat (List.length charset) ^ N.of_nat rem) e)
      as (k & Hk & _); [now apply N.pow_nonzero|].
    rewrite Hk in Hr. cbn [bind] in Hr.
    destruct (Hfirst k {| tape := tape e; pos := S (pos e) |})
      as (r0 & e0' & Hr0 & Hf0).
    rewrite Hr0 in Hr. apply Ok_inj in Hr. injection Hr as <- _.
    destruct r0; [discriminate Hf0 | now injection Hf0 as ->].
  - destruct (Hfirst (num / N.of_nat (List.length charset)) e)
      as (r0 & e0' & Hr0 & Hf0).
    rewrite Hr0 in Hr. apply Ok_inj in Hr. injection Hr as <- _.
    destruct r0; [discriminate Hf0 | now injection Hf0 as ->].
Qed.

End ServiceUtilities.

(** The theorems on the backends, on concrete deployments. *)

Section InstalledScenario.

Import Config Libs Installed.

#[local] Existing Instance Installed.all_installed.
#[local] Existing Instance Scenario.hashlib.
#[local] Existing Instance Scenario.pycryptodome.
#[local] Existing Instance Installed.liboqs.

Lemma keypair_same (e e1 : entropy) (public_key secret_key : bytes) :
  keypair e = ((public_key, secret_key), e1) ->
  public_key = secret_key /\ public_key <> [].
Proof.
  unfold keypair. pose proof (token_bytes_length 4 e) as Hl.
  destruct (token_bytes 4 e) as [k e']. cbn [fst] in Hl.
  intros E. injection E as <- <- _. split; [reflexivity|].
  intros ->. discriminate Hl.
Qed.

Lemma installed_kem_correct : kem_correct.
Proof.
  intros variant e e1 e2 pk sk enc ss Ekp Eenc.
  cbn [kem_generate_keypair kem_encap_secret kem_decap_secret Installed.liboqs] in *.
  apply keypair_same in Ekp. destruct Ekp as [<- _].
  destruct (token_bytes 32 e1) as [shared e'].
  injection Eenc as <- <- _.
  rewrite firstn_app, Nat.sub_diag, firstn_all. cbn [firstn].
  rewrite app_nil_r, bytes_eqb_refl.
  rewrite skipn_app, Nat.sub_diag, skipn_all. reflexivity.
Qed.

Lemma installed_sig_correct : sig_correct.
Proof.
  intros variant e e1 e2 pk sk msg sg Ekp Es.
  cbn [sig_generate_keypair sig_sign sig_verify Installed.liboqs] in *.
  apply keypair_same in Ekp. destruct Ekp as [<- Hpk].
  injection Es as <- _. rewrite bytes_eqb_refl.
  split; [reflexivity|]. split; [discriminate | exact Hpk].
Qed.

Lemma real_round_trip_witness :
  exists (d : json) (e' : entropy)
         (ciphertext encapsulated_key nonce private_key : str) (r : json),
    Encryptor.encrypt Scenario.passport Scenario.zeros = Ok (d, e')
    /\ jget "ciphertext" d = Some (JStr ciphertext)
    /\ jget "encapsulated_key" d = Some (JStr encapsulated_key)
    /\ jget "nonce" d = Some (JStr nonce)
    /\ jget "private_key" d = Some (JStr private_key)
    /\ Decryptor.decrypt ciphertext encapsulated_key nonce private_key = Ok r
    /\ jget "plaintext" r = Some (JStr Scenario.passport)
    /\ jget "mock_mode" r = Some (JBool false).
Proof.
  apply (real_round_trip Scenario.passport (blit "P000111") Scenario.zeros).
  - reflexivity.
  - reflexivity.
  - exact installed_kem_correct.
  - exact scenario_gcm_correct.
  - discriminate.
  - reflexivity.
Defined.

Lemma real_signature_verifies_witness :
  exists d e' sig pk v,
    Signer.sign Scenario.ticket Scenario.zeros = Ok (d, e')
    /\ jget "signature" d = Some (JStr sig)
    /\ jget "public_key" d = Some (JStr pk)
    /\ jget "mock_mode" d = Some (JBool false)
    /\ Signer.verify Scenario.ticket sig pk = Ok v
    /\ jget "valid" v = Some (JBool true).
Proof.
  apply (real_signature_verifies Scenario.ticket (blit "ticket") Scenario.zeros).
  - reflexivity.
  - exact installed_sig_correct.
  - discriminate.
  - reflexivity.
Defined.

Lemma truncated_signature_is_an_error_witness :
  exists detail : string,
    Signer.verify Scenario.ticket (bytes_to_hex [x01; x02] ++ [48]) (lit "00")
    = Raise (ValueError detail)
    /\ Signer.main (JObj [("verify", JBool true); ("data", JStr Scenario.ticket);
                          ("signature", JStr (bytes_to_hex [x01; x02] ++ [48]));
                          ("public_key", JStr (lit "00"))]) Scenario.zeros
       = Raise (SystemExit 1 (lit "Signature operation failed: " ++ lit detail)).
Proof.
  apply (truncated_signature_is_an_error Scenario.ticket (blit "ticket")
           [x01; x02] 48 (lit "00") Scenario.zeros).
  - discriminate.
  - reflexivity.
  - discriminate.
  - reflexivity.
Defined.

Lemma undecodable_ciphertext_is_reported_witness :
  (forall ex,
      Decryptor.decrypt [233] (lit "AAAA") (lit "AAAA") (lit "00") = Raise ex ->
      is_ValueError ex = true ->
      Decryptor.main (Decryptor.request [233] (lit "AAAA") (lit "AAAA") (lit "00"))
      = Raise (SystemExit 1
                 (lit "Decryption failed - integrity check failed or invalid data: "
                  ++ exn_str ex)))
  /\ ((exists x, In x [233] /\ 128 <= x) ->
      exists detail : string,
        Decryptor.decrypt [233] (lit "AAAA") (lit "AAAA") (lit "00")
        = Raise (ValueError detail)
        /\ Decryptor.main
             (Decryptor.request [233] (lit "AAAA") (lit "AAAA") (lit "00"))
           = Raise (SystemExit 1
                      (lit "Decryption failed - integrity check failed or invalid data: "
                       ++ lit detail))).
Proof.
  apply (undecodable_ciphertext_is_reported [233] (lit "AAAA") (lit "AAAA") (lit "00"));
    discriminate.
Defined.

Lemma bits_always_fill_the_reference_witness :
  exists num r e',
    Entropy.int_base2 [true; false; true] = Ok num
    /\ Entropy.bits_to_booking_ref [true; false; true] Entropy.BOOKING_CHARSET 8
         Scenario.zeros = Ok (r, e')
    /\ List.length r = Z.to_nat 8
    /\ Forall (fun c => In c Entropy.BOOKING_CHARSET) r
    /\ ((0 < 8)%Z ->
        nth_error r 0
        = Some (nth (N.to_nat (num mod N.of_nat (List.length Entropy.BOOKING_CHARSET)))
                    Entropy.BOOKING_CHARSET 0)).
Proof.
  apply (bits_always_fill_the_reference [true; false; true] Entropy.BOOKING_CHARSET 8
           Scenario.zeros).
  discriminate.
Defined.

End InstalledScenario.

Section MockScenario.

Import Config Libs.

#[local] Existing Instance Scenario.capabilities.
#[local] Existing Instance Scenario.hashlib.
#[local] Existing Instance Scenario.pycryptodome.
#[local] Existing Instance Scenario.oqs.

Lemma mock_private_key_is_unused_witness :
  exists (d : json) (e' : entropy) (ciphertext encapsulated_key nonce : str)
         (shared_secret : bytes),
    Encryptor.encrypt Scenario.passport Scenario.zeros = Ok (d, e')
    /\ jget "ciphertext" d = Some (JStr ciphertext)
    /\ jget "encapsulated_key" d = Some (JStr encapsulated_key)
    /\ jget "nonce" d = Some (JStr nonce)
    /\ (exists decoded, b64decode encapsulated_key = Ok decoded
                        /\ slice_to 32 decoded = shared_secret
                        /\ List.length shared_secret = 32%nat)
    /\ forall private_key : str,
        exists r,
          Decryptor.decrypt ciphertext encapsulated_key nonce private_key = Ok r
          /\ jget "plaintext" r = Some (JStr Scenario.passport).
Proof.
  apply (mock_private_key_is_unused Scenario.passport (blit "P000111") Scenario.zeros).
  - reflexivity.
  - reflexivity.
  - exact scenario_gcm_correct.
  - discriminate.
  - reflexivity.
Defined.

End MockScenario.

Section BareScenario.

Import Config Libs.

#[local] Existing Instance Installed.without_pycryptodome.
#[local] Existing Instance Scenario.hashlib.
#[local] Existing Instance Scenario.pycryptodome.
#[local] Existing Instance Scenario.oqs.

Lemma encryption_needs_pycryptodome_witness :
  Encryptor.encrypt Scenario.passport Scenario.zeros
  = Raise (SystemExit 1 (lit "PyCryptodome is required for AES encryption. Install with: pip install pycryptodome"))
  /\ Encryptor.main (JObj [("plaintext", JStr Scenario.passport)]) Scenario.zeros
     = Raise (SystemExit 1 (lit "PyCryptodome is required for AES encryption. Install with: pip install pycryptodome")).
Proof.
  apply (encryption_needs_pycryptodome Scenario.passport (blit "P000111")
           Scenario.zeros).
  - reflexivity.
  - discriminate.
  - reflexivity.
Defined.

End BareScenario.

(** ** The seat map *)

Section SeatMapProperties.

Import Store SeatMap.

Lemma neighbours_differ_snoc (l : list str) (a b : str) :
  neighbours_differ (l ++ [a]) -> a <> b -> neighbours_differ ((l ++ [a]) ++ [b]).
Proof.
  induction l as [|x l IH]; intros Hl Hab.
  - cbn. tauto.
  - destruct l as [|y l].
    + cbn in *. tauto.
    + cbn [app neighbours_differ] in *. destruct Hl as [Hxy Hl].
      split; [exact Hxy|]. now apply IH.
Qed.

Lemma seat_map_of_rows (seats : list seat) :
  seat_map_of seats = rows_held (fold_left loop_body seats ([], None)).
Proof.
  unfold seat_map_of, rows_held.
  destruct (fold_left loop_body seats ([], None)) as [sm [[r rd]|]]; reflexivity.
Qed.

Lemma loop_invariant (seats : list seat) :
  let st := fold_left loop_body seats ([], None) in
  List.concat (map rd_seats (rows_held st)) = map entry_of seats
  /\ Forall (fun rd => rd_seats rd <> []) (rows_held st)
  /\ neighbours_differ (map rd_row (rows_held st))
  /\ Forall (fun rd =>
               Forall (fun en => entry_label en = rd_row rd ++ entry_col en)
                      (rd_seats rd)) (rows_held st)
  /\ match snd st with
     | Some (r, rd) => rd_row rd = r
     | None => fst st = [] /\ seats = []
     end.
Proof.
  induction seats as [|x l IH] using rev_ind.
  - cbn. repeat split; constructor.
  - cbv zeta in *. rewrite fold_left_app. cbn [fold_left].
    destruct (fold_left loop_body l ([], None)) as [sm cur].
    destruct IH as (Hflat & Hne & Hnd & Hlab & Hcur).
    unfold rows_held in *. cbn [fst snd] in *.
    rewrite map_app. cbn [map].
    destruct cur as [[r rd]|].
    + subst r. unfold loop_body.
      destruct (str_eqb (row_num x) (rd_row rd)) eqn:Erow; cbn [negb fst snd].
      * (* the seat continues the row in progress *)
        apply str_eqb_eq in Erow.
        rewrite !map_app, concat_app in *. cbn [map List.concat rd_seats] in *.
        rewrite !app_nil_r in *.
        apply Forall_app in Hne. destruct Hne as [Hne1 _].
        apply Forall_app in Hlab. destruct Hlab as [Hlab1 Hlab2].
        inversion Hlab2 as [|? ? Hrd _]; subst.
        repeat split.
        -- rewrite app_assoc, Hflat. reflexivity.
        -- apply Forall_app. split; [exact Hne1|]. constructor; [|constructor].
           cbn [rd_seats]. now destruct (rd_seats rd).
        -- exact Hnd.
        -- apply Forall_app. split; [exact Hlab1|]. constructor; [|constructor].
           cbn [rd_seats rd_row]. apply Forall_app. split; [exact Hrd|].
           constructor; [|constructor]. cbn [entry_of entry_label entry_col].
           now rewrite Erow.
        -- now symmetry.
      * (* the seat opens a new row *)
        assert (Hdiff : rd_row rd <> row_num x).
        { intros E. symmetry in E. apply str_eqb_eq in E. congruence. }
        rewrite !map_app, !concat_app in *. cbn [map List.concat rd_seats rd_row] in *.
        rewrite !app_nil_r in *.
        repeat split.
        -- rewrite Hflat. reflexivity.
        -- apply Forall_app. split; [exact Hne|]. constructor; [|constructor].
           cbn [rd_seats]. discriminate.
        -- now apply neighbours_differ_snoc.
        -- apply Forall_app. split; [exact Hlab|]. constructor; [|constructor].
           cbn [rd_seats rd_row]. constructor; [|constructor]. reflexivity.
    + destruct Hcur as [-> ->]. cbn. repeat split; repeat constructor.
      discriminate.
Qed.

Lemma filter_length_le {A} (p : A -> bool) (l : list A) :
  (List.length (filter p l) <= List.length l)%nat.
Proof.
  induction l as [|x l IH]; [constructor|].
  cbn [filter]. destruct (p x); cbn [List.length]; lia.
Qed.

(** X15.  The seat map of [get_seats] loses nothing.  Whatever rows were
    fetched and in whatever order, the seats of the map taken row after row
    are exactly the fetched seats in their order, each labelled with its
    row and column; no row of the map is empty and neighbouring rows carry
    different row numbers.  The statistics add up: the booked and the
    available seats make the total, which is the number of seats in the
    map, and neither count is negative. *)
Theorem seat_map_keeps_every_seat (seats : list seat) :
  List.concat (map rd_seats (seat_map_of seats)) = map entry_of seats
  /\ Forall (fun rd => rd_seats rd <> []) (seat_map_of seats)
  /\ neighbours_differ (map rd_row (seat_map_of seats))
  /\ Forall (fun rd =>
               Forall (fun en => entry_label en = rd_row rd ++ entry_col en)
                      (rd_seats rd)) (seat_map_of seats)
  /\ (booked_seats seats + available_seats seats = total_seats seats)%Z
  /\ total_seats seats
     = Z.of_nat (List.length (List.concat (map rd_seats (seat_map_of seats))))
  /\ (0 <= booked_seats seats)%Z /\ (0 <= available_seats seats)%Z.
Proof.
  rewrite seat_map_of_rows.
  destruct (loop_invariant seats) as (Hflat & Hne & Hnd & Hlab & _).
  split; [exact Hflat|]. split; [exact Hne|]. split; [exact Hnd|].
  split; [exact Hlab|].
  unfold available_seats, booked_seats, total_seats.
  pose proof (filter_length_le is_booked seats).
  rewrite Hflat, length_map. repeat split; lia.
Qed.

End SeatMapProperties.
(** ** The seeded database *)

Lemma NoDup_map_injective {A B} (f : A -> B) (l : list A) :
  (forall x y, f x = f y -> x = y) -> NoDup l -> NoDup (map f l).
Proof.
  intros Hinj. induction 1 as [|x l Hx _ IH]; [constructor|].
  cbn [map]. constructor; [|exact IH].
  intros Hin. apply in_map_iff in Hin. destruct Hin as (y & E & Hy).
  apply Hinj in E. now subst y.
Qed.

Lemma find_ext_in {A} (p q : A -> bool) (l : list A) :
  (forall x, In x l -> p x = q x) -> find p l = find q l.
Proof.
  induction l as [|x l IH]; [reflexivity|]. intros H.
  cbn [find]. rewrite (H x (or_introl eq_refl)).
  destruct (q x); [reflexivity|]. apply IH. intros y Hy. apply H. now right.
Qed.

Lemma label_eq_dec (x y : str * str) : {x = y} + {x <> y}.
Proof. repeat decide equality. Defined.

Section InitDbProperties.

Import Store InitDb.

Lemma seat_data_cons (f_id : Z) (flight_ids : list Z) :
  seat_data (f_id :: flight_ids) = seat_data [f_id] ++ seat_data flight_ids.
Proof. unfold seat_data. cbn [flat_map]. now rewrite app_nil_r. Qed.

Lemma seat_data_keys (f_id : Z) :
  map seat_key (seat_data [f_id])
  = map (fun rc => (f_id, fst rc, snd rc))
        (flat_map (fun r => map (fun c => (str_of_Z r, c)) columns) rows).
Proof. reflexivity. Qed.

Lemma labels_distinct :
  NoDup (flat_map (fun r => map (fun c => (str_of_Z r, c)) columns) rows).
Proof.
  match goal with
  | |- NoDup ?l =>
      replace l with (nodup label_eq_dec l) by (vm_compute; reflexivity)
  end.
  apply NoDup_nodup.
Qed.

Lemma seat_data_flight (flight_ids : list Z) (row : Z * str * str * str) :
  In row (seat_data flight_ids) -> In (fst (fst (seat_key row))) flight_ids.
Proof.
  unfold seat_data. intros Hin. apply in_flat_map in Hin.
  destruct Hin as (f & Hf & Hin). apply in_flat_map in Hin.
  destruct Hin as (r & _ & Hin). apply in_map_iff in Hin.
  destruct Hin as (c & <- & _). exact Hf.
Qed.

(** X16.  The seats [init_db] generates satisfy the table's constraints.
    For the flight ids it is given, [seat_data] holds sixty rows per
    flight; when the ids are distinct no two rows agree on flight, row
    number and column, so the UNIQUE key [unique_seat] is never violated;
    every row number is one of 1 to 10, every column one of A to F, and
    every class one of the values of the ENUM, first for the rows 1 and 2,
    business for 3 and 4, economy from 5 on. *)
Theorem seeding_respects_unique_seat (flight_ids : list Z) :
  List.length (seat_data flight_ids) = (60 * List.length flight_ids)%nat
  /\ (NoDup flight_ids -> NoDup (map seat_key (seat_data flight_ids)))
  /\ Forall (fun row =>
               let '(f_id, r, c, class) := row in
               In f_id flight_ids
               /\ In c columns
               /\ exists n, In n rows /\ r = str_of_Z n
                  /\ class = (if (n <=? 2)%Z then lit "first"
                              else if (n <=? 4)%Z then lit "business"
                              else lit "economy"))
            (seat_data flight_ids).
Proof.
  split; [|split].
  - induction flight_ids as [|f ids IH]; [reflexivity|].
    rewrite seat_data_cons, length_app, IH. cbn [List.length].
    change (List.length (seat_data [f])) with 60%nat. lia.
  - induction 1 as [|f ids Hf _ IH]; [constructor|].
    rewrite seat_data_cons, map_app. apply NoDup_app.
    + rewrite seat_data_keys. apply NoDup_map_injective; [|exact labels_distinct].
      intros [r1 c1] [r2 c2] E. cbn [fst snd] in E. now injection E as -> ->.
    + exact IH.
    + intros k Hk1 Hk2. rewrite seat_data_keys in Hk1.
      apply in_map_iff in Hk1. destruct Hk1 as (rc & <- & _).
      apply in_map_iff in Hk2. destruct Hk2 as (row & E & Hrow).
      apply seat_data_flight in Hrow. rewrite E in Hrow. cbn [fst] in Hrow.
      contradiction.
  - apply Forall_forall. intros [[[f r] c] class] Hin.
    unfold seat_data in Hin. apply in_flat_map in Hin.
    destruct Hin as (f' & Hf & Hin). apply in_flat_map in Hin.
    destruct Hin as (n & Hn & Hin). apply in_map_iff in Hin.
    destruct Hin as (c' & E & Hc). injection E as <- <- <- <-.
    split; [exact Hf|]. split; [exact Hc|]. exists n. now repeat split.
Qed.


(** *** Looking the seeded seats up *)

Lemma book_where_labels `{Collation} (fid : Z) (row col : str) (s : seat) :
  row_num (book_where fid row col s) = row_num s
  /\ col_num (book_where fid row col s) = col_num s.
Proof. unfold book_where. now destruct (_ && _). Qed.

Lemma seeded_labels (next_id : Z) (flight_ids : list Z) :
  Forall (fun s => In (row_num s) (map str_of_Z rows ++ columns)
                   /\ In (col_num s) (map str_of_Z rows ++ columns))
         (insert_seats next_id (seat_data flight_ids)).
Proof.
  destruct (seeding_respects_unique_seat flight_ids) as (_ & _ & Hall).
  revert next_id. induction Hall as [|[[[f r] c] class] data Hrow _ IH];
    intros next_id; [constructor|].
  cbn [insert_seats]. constructor; [|apply IH].
  destruct Hrow as (_ & Hc & n & Hn & -> & _). cbn [row_num col_num]. split.
  - apply in_or_app. left. now apply in_map.
  - apply in_or_app. now right.
Qed.

(** With a collation that is exact on the labels, the seeded state is the
    one computed with exact comparison. *)
Lemma init_db_exact `{Collation} :
  exact_on_labels -> init_db = @init_db Scenario.collation.
Proof.
  intros Hexact. unfold init_db. f_equal.
  pose proof (seeded_labels 1 (map flight_id (insert_flights 1 flights_data)))
    as Hlab.
  set (seats0 := insert_seats 1 _) in *.
  assert (H1 : In (lit "1") (map str_of_Z rows ++ columns)) by (cbn; tauto).
  assert (HA : In (lit "A") (map str_of_Z rows ++ columns))
    by (apply in_or_app; right; cbn; tauto).
  assert (HB : In (lit "B") (map str_of_Z rows ++ columns))
    by (apply in_or_app; right; cbn; tauto).
  assert (Hbook : forall col, In col (map str_of_Z rows ++ columns) ->
            forall s, In (row_num s) (map str_of_Z rows ++ columns) ->
                      In (col_num s) (map str_of_Z rows ++ columns) ->
                      book_where 1 (lit "1") col s
                      = @book_where Scenario.collation 1 (lit "1") col s).
  { intros col Hcol s Hr Hc. unfold book_where.
    rewrite (Hexact _ _ Hr H1), (Hexact _ _ Hc Hcol). reflexivity. }
  rewrite Forall_forall in Hlab.
  transitivity (map (book_where 1 (lit "1") (lit "B"))
                    (map (@book_where Scenario.collation 1 (lit "1") (lit "A")) seats0)).
  - f_equal. apply map_ext_in. intros s Hs. destruct (Hlab s Hs). now apply Hbook.
  - apply map_ext_in. intros s Hs. apply in_map_iff in Hs.
    destruct Hs as (s0 & <- & Hs0). destruct (Hlab s0 Hs0) as [Hr Hc].
    destruct (@book_where_labels Scenario.collation 1 (lit "1") (lit "A") s0)
      as [Er Ec].
    apply Hbook; [exact HB | now rewrite Er | now rewrite Ec].
Qed.


Lemma seeded_lookup_table :
  forallb (fun f =>
    forallb (fun r =>
      forallb (fun c =>
        match @select_seat Scenario.collation (@init_db Scenario.collation)
                f (str_of_Z r) c with
        | Some s =>
            (seat_id s =? 60 * (f - 1) + 6 * (r - 1) + column_index c + 1)%Z
            && str_eqb (seat_class s) (seat_class_of r)
            && Bool.eqb (is_booked s)
                 ((f =? 1)%Z && (r =? 1)%Z && (column_index c <? 2)%Z)
        | None => false
        end) columns) rows) [1; 2; 3; 4; 5]%Z = true.
Proof. vm_compute. reflexivity. Qed.

Lemma init_db_labels :
  Forall (fun s => In (row_num s) (map str_of_Z rows ++ columns)
                   /\ In (col_num s) (map str_of_Z rows ++ columns))
         (seats (@init_db Scenario.collation)).
Proof.
  unfold init_db. cbn [seats].
  pose proof (seeded_labels 1 (map flight_id (insert_flights 1 flights_data)))
    as Hlab.
  rewrite Forall_forall in *. intros s Hs.
  apply in_map_iff in Hs. destruct Hs as (s1 & <- & Hs1).
  apply in_map_iff in Hs1. destruct Hs1 as (s0 & <- & Hs0).
  destruct (Hlab s0 Hs0) as [Hr Hc].
  destruct (@book_where_labels Scenario.collation 1 (lit "1") (lit "A") s0)
    as [Er Ec].
  destruct (@book_where_labels Scenario.collation 1 (lit "1") (lit "B")
              (@book_where Scenario.collation 1 (lit "1") (lit "A") s0))
    as [Er' Ec'].
  rewrite Er', Ec', Er, Ec. now split.
Qed.

(** X17.  Every seeded seat is found where [init_db] put it.  In the
    state [init_db] leaves there are the flights 1 to 5 and no booking; for
    each of these flights, each row 1 to 10 and each column A to F the
    query of the booking handler finds one seat, whose id is
    60 (f - 1) + 6 (r - 1) + the position of the column + 1, whose class is
    that of its row, and which is booked exactly when it is seat 1A or 1B of
    flight 1.  The collation is taken to compare the labels "1" to "10" and
    "A" to "F" as written. *)
Theorem seeded_seats_are_found `{Collation} (f r : Z) (c : str) :
  exact_on_labels ->
  In f (map flight_id (flights init_db)) ->
  In r rows ->
  In c columns ->
  map flight_id (flights init_db) = [1; 2; 3; 4; 5]%Z
  /\ bookings init_db = []
  /\ exists s,
      select_seat init_db f (str_of_Z r) c = Some s
      /\ seat_id s = (60 * (f - 1) + 6 * (r - 1) + column_index c + 1)%Z
      /\ seat_class s = seat_class_of r
      /\ (is_booked s = true <->
          f = 1%Z /\ r = 1%Z /\ (c = lit "A" \/ c = lit "B")).
Proof.
  intros Hexact Hf Hr Hc.
  split; [reflexivity|]. split; [reflexivity|].
  change (map flight_id (flights init_db)) with [1; 2; 3; 4; 5]%Z in Hf.
  pose proof seeded_lookup_table as Htable.
  rewrite forallb_forall in Htable. specialize (Htable f Hf).
  rewrite forallb_forall in Htable. specialize (Htable r Hr).
  rewrite forallb_forall in Htable. specialize (Htable c Hc).
  assert (Hsel : select_seat init_db f (str_of_Z r) c
                 = @select_seat Scenario.collation (@init_db Scenario.collation)
                     f (str_of_Z r) c).
  { rewrite (init_db_exact Hexact). unfold select_seat.
    apply find_ext_in. intros s Hs.
    pose proof init_db_labels as Hlab. rewrite Forall_forall in Hlab.
    destruct (Hlab s Hs) as [Hsr Hsc].
    rewrite (Hexact (row_num s) (str_of_Z r)), (Hexact (col_num s) c);
      try assumption; [reflexivity | | ].
    - apply in_or_app. now right.
    - apply in_or_app. left. now apply in_map. }
  rewrite Hsel.
  destruct (@select_seat Scenario.collation (@init_db Scenario.collation)
              f (str_of_Z r) c) as [s|]; [|discriminate Htable].
  apply andb_true_iff in Htable. destruct Htable as [Htable Hbooked].
  apply andb_true_iff in Htable. destruct Htable as [Hid Hclass].
  apply Z.eqb_eq in Hid. apply str_eqb_eq in Hclass. apply eqb_prop in Hbooked.
  exists s. split; [reflexivity|]. split; [exact Hid|]. split; [exact Hclass|].
  rewrite Hbooked, !andb_true_iff, !Z.eqb_eq, Z.ltb_lt.
  assert (Hcol : (column_index c < 2)%Z <-> c = lit "A" \/ c = lit "B").
  { cbn in Hc.
    destruct Hc as [<-|[<-|[<-|[<-|[<-|[<-|[]]]]]]]; cbn; split;
      try lia; try tauto; intros [E|E]; discriminate E. }
  rewrite Hcol. tauto.
Qed.

End InitDbProperties.
(** ** The capsule of the server *)

Lemma xor_byte_involution (a b : byte) :
  Byte.eqb (byte_of_N (N.lxor (Byte.to_N (byte_of_N (N.lxor (Byte.to_N a) (Byte.to_N b))))
                              (Byte.to_N b))) a = true.
Proof.
  revert a b. apply byte_forall2. vm_compute. reflexivity.
Qed.

Lemma xor_zip_involution (a b : bytes) :
  (List.length a <= List.length b)%nat -> xor_zip (xor_zip a b) b = a.
Proof.
  revert b. induction a as [|x a IH]; intros [|y b] Hlen; try reflexivity.
  - cbn in Hlen. lia.
  - cbn [xor_zip]. cbn [List.length] in Hlen. f_equal.
    + apply byte_eqb_eq, xor_byte_involution.
    + apply IH. lia.
Qed.

Lemma xor_zip_length (a b : bytes) :
  (List.length a <= List.length b)%nat ->
  List.length (xor_zip a b) = List.length a.
Proof.
  revert b. induction a as [|x a IH]; intros [|y b] Hlen; try reflexivity.
  - cbn in Hlen. lia.
  - cbn [xor_zip List.length] in *. f_equal. apply IH. lia.
Qed.

Lemma repeat_seq_length {A} (l : list A) (n : nat) :
  List.length (repeat_seq l n) = (n * List.length l)%nat.
Proof.
  induction n as [|n IH]; [reflexivity|].
  cbn [repeat_seq]. rewrite length_app, IH. lia.
Qed.

Section ServerCapsule.

Import Libs Store Server Assumptions.
Context {env : Environment} {hashlib : Hashlib} {aesgcm : AESGCM}.

(** X18.  The capsule of the server reveals the key.  For a passport
    number that UTF-8 can encode, [kyber_encrypt] returns a nonce of 12
    octets in hexadecimal and a capsule that decodes to 800 octets; the AES
    key is the last 32 of them combined by exclusive-or with the SHA-256
    digest of a constant of the source, so whoever reads the stored row can
    compute it.  With the [cryptography] package the data is the AES-GCM
    encryption under that key and nonce; without it, the data is the
    passport combined by exclusive-or with the repeated key, and the same
    operation with the key recovered from the capsule gives the passport
    back.  SHA-256 is taken with its digest size of 32 octets. *)
Theorem capsule_reveals_the_key (passport_data : str) (data_bytes : bytes)
        (e : entropy) :
  sha256_is_32_bytes ->
  utf8_encode passport_data = Ok data_bytes ->
  exists (r : kyber_result) (e' : entropy) (aes_key nonce_bytes decoded : bytes),
    kyber_encrypt passport_data e = Ok (r, e')
    /\ List.length aes_key = 32%nat
    /\ List.length nonce_bytes = 12%nat
    /\ Server.nonce r = hex nonce_bytes
    /\ b64decode (capsule r) = Ok decoded
    /\ List.length decoded = 800%nat
    /\ xor_zip (slice_from 768 decoded) (sha256 (blit "QUANTUM_MOCK_KYBER_KEY"))
       = aes_key
    /\ if CRYPTO_AVAILABLE
       then encrypted_data r = hex (aesgcm_encrypt aes_key nonce_bytes data_bytes)
       else exists ciphertext,
           fromhex (encrypted_data r) = Ok ciphertext
           /\ List.length ciphertext = List.length data_bytes
           /\ xor_zip ciphertext
                (slice_to (Z.of_nat (List.length data_bytes))
                   (repeat_seq aes_key (List.length data_bytes / 32 + 1)))
              = data_bytes.
Proof.
  intros Hsha Henc. unfold kyber_encrypt.
  pose proof (token_bytes_length 32 e) as Hkey.
  destruct (token_bytes 32 e) as [aes_key e1]. cbn [fst] in Hkey.
  pose proof (token_bytes_length 12 e1) as Hnonce.
  destruct (token_bytes 12 e1) as [nonce_bytes e2]. cbn [fst] in Hnonce.
  rewrite Henc. cbn [bind].
  pose proof (token_bytes_length 768 e2) as Hcap.
  destruct (token_bytes 768 e2) as [capsule_data e3]. cbn [fst] in Hcap.
  rewrite ascii_decode_b64encode. cbn [bind].
  set (mask := sha256 (blit "QUANTUM_MOCK_KYBER_KEY")).
  assert (Hmask : List.length mask = 32%nat) by apply Hsha.
  assert (Hmasked : List.length (xor_zip aes_key mask) = 32%nat)
    by (rewrite xor_zip_length; lia).
  eexists _, e3, aes_key, nonce_bytes, (capsule_data ++ xor_zip aes_key mask).
  split; [reflexivity|]. split; [exact Hkey|]. split; [exact Hnonce|].
  split; [reflexivity|]. cbn [capsule encrypted_data].
  split; [apply b64decode_b64text|].
  split; [rewrite length_app; lia|].
  split.
  { rewrite slice_from_nonneg by lia.
    replace (Z.to_nat 768) with (List.length capsule_data) by lia.
    rewrite skipn_app, Nat.sub_diag, skipn_all. cbn [skipn app].
    apply xor_zip_involution. lia. }
  destruct CRYPTO_AVAILABLE; [reflexivity|].
  set (n := List.length data_bytes).
  set (stream := slice_to (Z.of_nat n) (repeat_seq aes_key (n / 32 + 1))).
  assert (Hstream : (n <= List.length stream)%nat).
  { unfold stream. rewrite slice_to_nonneg by lia. rewrite Nat2Z.id.
    rewrite length_firstn, repeat_seq_length, Hkey.
    pose proof (Nat.div_mod_eq n 32) as Hdiv.
    pose proof (Nat.mod_upper_bound n 32). lia. }
  exists (xor_zip data_bytes stream).
  split; [apply fromhex_hex|]. split; [now apply xor_zip_length|].
  now apply xor_zip_involution.
Qed.

End ServerCapsule.

(** The seeded database and the capsule, on the scenario. *)

Section SeededScenario.

Import Libs Store Server Assumptions InitDb Scenario.

#[local] Existing Instance environment.
#[local] Existing Instance hashlib.
#[local] Existing Instance aesgcm.
#[local] Existing Instance collation.

Lemma scenario_exact_on_labels : exact_on_labels.
Proof. intros a b _ _. reflexivity. Qed.

(** The rows of the scenario are rows of the seeded database. *)
Lemma scenario_rows_are_seeded :
  In flight_1 (flights init_db)
  /\ In seat_1A (seats init_db) /\ In seat_5A (seats init_db)
  /\ bookings database = bookings init_db
  /\ bookings_auto_increment database = bookings_auto_increment init_db.
Proof.
  split; [left; reflexivity|].
  split; [left; reflexivity|].
  split; [|split; reflexivity].
  do 24 right. left. reflexivity.
Qed.

Lemma seeded_seats_are_found_witness :
  map flight_id (flights init_db) = [1; 2; 3; 4; 5]%Z
  /\ bookings init_db = []
  /\ exists s,
      select_seat init_db 1 (str_of_Z 5) (lit "A") = Some s
      /\ seat_id s = (60 * (1 - 1) + 6 * (5 - 1) + column_index (lit "A") + 1)%Z
      /\ seat_class s = seat_class_of 5
      /\ (is_booked s = true <->
          1%Z = 1%Z /\ 5%Z = 1%Z /\ (lit "A" = lit "A" \/ lit "A" = lit "B")).
Proof.
  apply (seeded_seats_are_found 1 5 (lit "A")).
  - exact scenario_exact_on_labels.
  - vm_compute. tauto.
  - vm_compute. tauto.
  - vm_compute. tauto.
Defined.

Lemma scenario_sha256 : sha256_is_32_bytes.
Proof. intros m. now apply digest_length. Qed.

Lemma capsule_reveals_the_key_witness :
  exists (r : kyber_result) (e' : entropy) (aes_key nonce_bytes decoded : bytes),
    kyber_encrypt passport zeros = Ok (r, e')
    /\ List.length aes_key = 32%nat
    /\ List.length nonce_bytes = 12%nat
    /\ Server.nonce r = hex nonce_bytes
    /\ b64decode (capsule r) = Ok decoded
    /\ List.length decoded = 800%nat
    /\ xor_zip (slice_from 768 decoded) (sha256 (blit "QUANTUM_MOCK_KYBER_KEY"))
       = aes_key
    /\ if CRYPTO_AVAILABLE
       then encrypted_data r = hex (aesgcm_encrypt aes_key nonce_bytes (blit "P000111"))
       else exists ciphertext,
           fromhex (encrypted_data r) = Ok ciphertext
           /\ List.length ciphertext = List.length (blit "P000111")
           /\ xor_zip ciphertext
                (slice_to (Z.of_nat (List.length (blit "P000111")))
                   (repeat_seq aes_key (List.length (blit "P000111") / 32 + 1)))
              = blit "P000111".
Proof.
  apply (capsule_reveals_the_key passport (blit "P000111") zeros).
  - exact scenario_sha256.
  - reflexivity.
Defined.

End SeededScenario.

(** ** Column widths *)

Lemma utf8_encode_char_length (c : N) (b : bytes) :
  utf8_encode_char c = Ok b -> (List.length b <= 4)%nat.
Proof.
  unfold utf8_encode_char.
  repeat match goal with
         | |- context [if ?x then _ else _] => destruct x
         end; intros E; first [discriminate E | injection E as <-; cbn; lia].
Qed.

Lemma utf8_encode_length (s : str) (b : bytes) :
  utf8_encode s = Ok b -> (List.length b <= 4 * List.length s)%nat.
Proof.
  revert b. induction s as [|c s IH]; intros b.
  - intros [= <-]. cbn. lia.
  - cbn [utf8_encode].
    destruct (utf8_encode_char c) as [bc|ex] eqn:Ec; cbn [bind]; [|discriminate].
    destruct (utf8_encode s) as [bs|ex]; cbn [bind]; [|discriminate].
    intros [= <-]. rewrite length_app. cbn [List.length].
    pose proof (utf8_encode_char_length c bc Ec). specialize (IH bs eq_refl). lia.
Qed.

Lemma fits_text_short (s : str) :
  N.of_nat (List.length s) <= 16383 -> Session.fits_text s = true.
Proof.
  intros Hs. unfold Session.fits_text, Session.utf8_length, Session.TEXT_OCTETS.
  apply N.leb_le.
  destruct (utf8_encode s) as [b|ex] eqn:E; [|cbn; lia].
  pose proof (utf8_encode_length s b E). lia.
Qed.

Lemma b64encode_length (bin : bytes) :
  (List.length (b64encode bin) <= 2 * List.length bin + 4)%nat.
Proof.
  induction bin as [bin IH] using (induction_ltof1 _ (@List.length byte)).
  unfold ltof in IH.
  destruct bin as [|a [|b [|c rest]]]; cbn [b64encode List.length]; try lia.
  specialize (IH rest). cbn [List.length] in IH. lia.
Qed.


(** ** The handlers on a live connection *)

Section LiveConnection.

Import Libs Store Server Session Assumptions.
Context {env : Environment} {hashlib : Hashlib} {aesgcm : AESGCM}
        {unicode : Unicode} {collation : Collation} {deployment : Deployment}.

(** The handler up to the point where the seat row has been read under
    its lock, on a connection that was obtained. *)
Lemma execute_create_booking_locked (q : trinity) (data : booking_request)
      (e : entropy) (d : db) (s : seat) :
  missing_fields data = [] ->
  encodable (row_num_of data) = true ->
  encodable (col_num_of data) = true ->
  select_seat d (flight_id_of data) (row_num_of data) (col_num_of data) = Some s ->
  Session.create_booking (Ok tt) q (Some data) e d =
  execute (Ok tt) rolled_back
      (if is_booked s then
         Rollback (Return (Ok (seat_already_booked (row_num_of data) (col_num_of data))))
       else
         match qrng q e with
         | Raise ex => rolled_back ex
         | Ok (qrng_ref, e) =>
         match kem q (passport_of data) e with
         | Raise ex => rolled_back ex
         | Ok (kyber_result, e) =>
         match dsa q qrng_ref (seat_id s) (flight_id_of data)
                 (passenger_name_of data) e with
         | Raise ex => rolled_back ex
         | Ok (dilithium_result, e) =>
             UpdateSeatBooked (seat_id s) (
             InsertBooking (booking_row data s qrng_ref kyber_result dilithium_result)
               (fun inserted =>
             match inserted with
             | Raise ex => rolled_back ex
             | Ok booking_id =>
                 SelectFlight (flight_id_of data) (fun flight =>
                 Commit (
                 match flight with
                 | Some flight =>
                     Return (Ok (booking_confirmation booking_id qrng_ref
                                   (passenger_name_of data) flight (seat_id s)
                                   (row_num_of data) (col_num_of data)
                                   (seat_class s) kyber_result dilithium_result))
                 | None =>
                     Return (Raise (DatabaseError "MySQL Connection not available."))
                 end))
             end))
         end end end)
      d (lock_row fresh_conn (seat_id s))
      [Connected; TransactionStarted;
       SeatSelectedForUpdate (flight_id_of data) (row_num_of data) (col_num_of data)].
Proof.
  intros Hmissing Hrow Hcol Hseat.
  unfold Session.create_booking, create_booking_with. rewrite Hmissing.
  cbn [execute app]. rewrite Hrow, Hcol. cbn [andb].
  rewrite view_fresh, Hseat. reflexivity.
Qed.

(** The [except] clauses of the booking handler, for an exception they
    catch: the transaction is rolled back, which empties the connection of
    its buffered writes and of its locks, and the answer has status 500. *)
Lemma observe_rolled_back (ex : exn) (d : db) (c : conn) (l : list event) :
  is_Exception ex = true ->
  exists resp,
    observe (Ok tt) (rolled_back ex) d c l
    = {| answer := Ok resp; stored := d; session := fresh_conn;
         log := l ++ [RolledBack] |}
    /\ status resp = 500%Z.
Proof.
  intros Hex. unfold rolled_back.
  destruct (is_mysql_Error ex); [eexists; split; reflexivity|].
  rewrite Hex. eexists; split; reflexivity.
Qed.

Lemma execute_rolled_back (ex : exn) (d : db) (c : conn) (l : list event) :
  is_Exception ex = true ->
  exists resp,
    execute (Ok tt) rolled_back (rolled_back ex) d c l
    = {| answer := Ok resp; stored := d; session := fresh_conn;
         log := l ++ [RolledBack] |}
    /\ status resp = 500%Z.
Proof.
  intros Hex. unfold rolled_back at 2.
  destruct (is_mysql_Error ex); [eexists; split; reflexivity|].
  rewrite Hex. eexists; split; reflexivity.
Qed.

(** An exception outside [Exception] leaves the handler as it is: no
    statement follows it. *)
Lemma execute_passes_through (ex : exn) (d : db) (c : conn) (l : list event) :
  is_Exception ex = false ->
  execute (Ok tt) rolled_back (rolled_back ex) d c l
  = {| answer := Raise ex; stored := d; session := c; log := l |}.
Proof.
  intros Hex. unfold rolled_back at 2.
  destruct ex; try discriminate Hex. reflexivity.
Qed.

(** C4.  When the seat addressed by the request exists and is already
    booked, the booking handler aborts its transaction and answers with the
    conflict response (status 409).  After the locking read of the seat row
    the only statement it issues is ROLLBACK: the connection is left with
    no lock and no buffered write, and the stored state is what it was
    before the call. *)
Theorem already_booked_rolls_back_with_conflict (q : trinity)
        (data : booking_request) (e : entropy) (d : db) (s : seat) :
  missing_fields data = [] ->
  encodable (row_num_of data) = true ->
  encodable (col_num_of data) = true ->
  select_seat d (flight_id_of data) (row_num_of data) (col_num_of data) = Some s ->
  is_booked s = true ->
  Session.create_booking (Ok tt) q (Some data) e d
  = {| answer := Ok (seat_already_booked (row_num_of data) (col_num_of data));
       stored := d;
       session := fresh_conn;
       log := [Connected; TransactionStarted;
               SeatSelectedForUpdate (flight_id_of data) (row_num_of data)
                 (col_num_of data);
               RolledBack] |}
  /\ status (seat_already_booked (row_num_of data) (col_num_of data)) = 409%Z.
Proof.
  intros Hmissing Hrow Hcol Hseat Hbooked.
  rewrite (execute_create_booking_locked q data e d s Hmissing Hrow Hcol Hseat).
  rewrite Hbooked. split; reflexivity.
Qed.

(** C2.  When, with the seat row locked and found unbooked, the reference
    generation, the passport encryption or the signing raises, the handler
    writes nothing: no UPDATE and no INSERT is issued, the stored state is
    exactly what it was, the seat is still unbooked and the bookings table
    has the rows it had.  For an exception the [except] clauses catch
    (an [Exception]) the one statement that follows the locking read is
    ROLLBACK, which releases the lock, and the caller gets status 500; an
    exception outside [Exception] leaves the handler at once. *)
Theorem crypto_failure_rolls_back (q : trinity) (data : booking_request)
        (e : entropy) (d : db) (s : seat) (ex : exn) :
  missing_fields data = [] ->
  encodable (row_num_of data) = true ->
  encodable (col_num_of data) = true ->
  select_seat d (flight_id_of data) (row_num_of data) (col_num_of data) = Some s ->
  is_booked s = false ->
  gap_exception q (passport_of data) (seat_id s) (flight_id_of data)
                (passenger_name_of data) e = Some ex ->
  exists en,
    Session.create_booking (Ok tt) q (Some data) e d = en
    /\ stored en = d
    /\ pending (session en) = []
    /\ select_seat (stored en) (flight_id_of data) (row_num_of data) (col_num_of data)
       = Some s
    /\ bookings (stored en) = bookings d
    /\ if is_Exception ex then
         (exists resp, answer en = Ok resp /\ status resp = 500%Z)
         /\ session en = fresh_conn
         /\ log en = [Connected; TransactionStarted;
                      SeatSelectedForUpdate (flight_id_of data) (row_num_of data)
                        (col_num_of data);
                      RolledBack]
       else
         answer en = Raise ex
         /\ log en = [Connected; TransactionStarted;
                      SeatSelectedForUpdate (flight_id_of data) (row_num_of data)
                        (col_num_of data)].
Proof.
  intros Hmissing Hrow Hcol Hseat Hfree Hgap.
  eexists. split; [reflexivity|].
  rewrite (execute_create_booking_locked q data e d s Hmissing Hrow Hcol Hseat).
  rewrite Hfree.
  assert (Hrb : forall ex0 : exn, ex0 = ex ->
            let en := execute (Ok tt) rolled_back (rolled_back ex0) d
                        (lock_row fresh_conn (seat_id s))
                        [Connected; TransactionStarted;
                         SeatSelectedForUpdate (flight_id_of data) (row_num_of data)
                           (col_num_of data)] in
            stored en = d
            /\ pending (session en) = []
            /\ select_seat (stored en) (flight_id_of data) (row_num_of data)
                 (col_num_of data) = Some s
            /\ bookings (stored en) = bookings d
            /\ if is_Exception ex then
                 (exists resp, answer en = Ok resp /\ status resp = 500%Z)
                 /\ session en = fresh_conn
                 /\ log en = [Connected; TransactionStarted;
                              SeatSelectedForUpdate (flight_id_of data)
                                (row_num_of data) (col_num_of data);
                              RolledBack]
               else
                 answer en = Raise ex
                 /\ log en = [Connected; TransactionStarted;
                              SeatSelectedForUpdate (flight_id_of data)
                                (row_num_of data) (col_num_of data)]).
  { intros ex0 ->. cbv zeta.
    destruct (is_Exception ex) eqn:Hex.
    - destruct (execute_rolled_back ex d (lock_row fresh_conn (seat_id s))
                  [Connected; TransactionStarted;
                   SeatSelectedForUpdate (flight_id_of data) (row_num_of data)
                     (col_num_of data)] Hex) as (resp & -> & Hs).
      cbn [stored session answer log app pending fresh_conn].
      repeat split; try assumption. now exists resp.
    - rewrite (execute_passes_through ex d _ _ Hex).
      cbn [stored session answer log pending lock_row fresh_conn].
      repeat split; assumption. }
  unfold gap_exception in Hgap.
  destruct (qrng q e) as [[qrng_ref e1]|ex1].
  2:{ apply Hrb. congruence. }
  destruct (kem q (passport_of data) e1) as [[kyber e2]|ex1].
  2:{ apply Hrb. congruence. }
  destruct (dsa q qrng_ref (seat_id s) (flight_id_of data)
              (passenger_name_of data) e2) as [[dil e3]|ex1].
  { discriminate Hgap. }
  apply Hrb. congruence.
Qed.

(** The services of this module raise nothing but what the [except]
    clauses catch. *)
Lemma quantum_trinity_raises_exceptions (passport : str) (seat_id flight_id : Z)
      (passenger_name : str) (e : entropy) (ex : exn) :
  gap_exception quantum_trinity passport seat_id flight_id passenger_name e = Some ex ->
  is_Exception ex = true.
Proof.
  unfold gap_exception. cbn [quantum_trinity qrng kem dsa].
  destruct (generate_quantum_entropy e) as [ref e1].
  destruct (kyber_encrypt passport e1) as [[ky e2]|ex1] eqn:Ek.
  - destruct (dilithium_sign ref seat_id flight_id passenger_name e2)
      as [[dl e3]|ex1] eqn:Es; [discriminate|].
    intros [= <-]. unfold dilithium_sign in Es.
    destruct (utf8_encode (ticket_message ref seat_id flight_id passenger_name))
      as [mb|ex2] eqn:Henc; cbn [bind] in Es.
    + destruct (token_bytes 3000 e2) as [padding e4].
      rewrite ascii_decode_b64encode in Es. discriminate Es.
    + injection Es as <-. now rewrite (utf8_encode_raises _ _ Henc).
  - intros [= <-]. unfold kyber_encrypt in Ek.
    destruct (token_bytes 32 e1) as [aes_key e2].
    destruct (token_bytes 12 e2) as [nonce e3].
    destruct (utf8_encode passport) as [pb|ex2] eqn:Henc; cbn [bind] in Ek.
    + destruct (token_bytes 768 e3) as [capsule_data e4].
      rewrite ascii_decode_b64encode in Ek. discriminate Ek.
    + injection Ek as <-. now rewrite (utf8_encode_raises _ _ Henc).
Qed.

(** C9.  A verification request whose (stripped and upper-cased)
    reference is text UTF-8 can encode and equals the reference of no
    stored booking is answered, on a connection that was obtained, with
    status 200, [success] true and [verified] false; the one statement
    issued is the SELECT, and the store is left as it was. *)
Theorem unmatched_reference_is_not_verified (ref : str) (d : db) :
  encodable (upper (strip ref)) = true ->
  forallb (fun b => negb (sql_eq (pqc_ref (booking_cols b)) (upper (strip ref))))
          (bookings d) = true ->
  Session.verify_ticket (Ok tt) (Some {| req_booking_ref := Some ref |}) d
  = {| answer := Ok booking_not_found;
       stored := d;
       session := fresh_conn;
       log := [Connected; BookingSelected (upper (strip ref))] |}
  /\ status booking_not_found = 200%Z
  /\ jget "success" (body booking_not_found) = Some (JBool true)
  /\ option_map (jget "verified") (jget "data" (body booking_not_found))
     = Some (Some (JBool false)).
Proof.
  intros Henc Hno. split; [|repeat split].
  unfold Session.verify_ticket, Server.verify_ticket.
  cbn [execute app]. rewrite Henc, view_fresh.
  now rewrite (select_booking_by_ref_none d _ Hno).
Qed.

(** *** What a confirmed booking has done *)

Lemma observe_rolled_back_answer (ex : exn) (d : db) (c : conn) (l : list event)
      (resp : response) :
  answer (observe (Ok tt) (rolled_back ex) d c l) = Ok resp -> status resp = 500%Z.
Proof.
  unfold rolled_back.
  destruct (is_mysql_Error ex); [now intros [= <-]|].
  destruct (is_Exception ex); [now intros [= <-] | discriminate].
Qed.

Lemma execute_rolled_back_answer (ex : exn) (d : db) (c : conn) (l : list event)
      (resp : response) :
  answer (execute (Ok tt) rolled_back (rolled_back ex) d c l) = Ok resp ->
  status resp = 500%Z.
Proof.
  unfold rolled_back at 2.
  destruct (is_mysql_Error ex); [now intros [= <-]|].
  destruct (is_Exception ex); [now intros [= <-] | discriminate].
Qed.

Lemma insert_after_update (d : db) (s : seat) (v : booking_values) :
  In s (seats d) ->
  booking_seat_id v = seat_id s ->
  insert_violation
    (view d (update_seat_booked (lock_row fresh_conn (seat_id s)) (seat_id s))) v
  = None ->
  existsb (fun b => (booking_seat_id (booking_cols b) =? seat_id s)%Z) (bookings d)
  = false
  /\ existsb (fun b => sql_eq (pqc_ref (booking_cols b)) (pqc_ref v)) (bookings d)
     = false
  /\ exists f, select_flight d (booking_flight_id v) = Some f.
Proof.
  intros Hin Hsid. unfold insert_violation. rewrite Hsid.
  match goal with
  | |- context [existsb _ (bookings ?x)] => change (bookings x) with (bookings d)
  end.
  destruct (existsb (fun b => (booking_seat_id (booking_cols b) =? seat_id s)%Z)
                    (bookings d)); [discriminate|].
  destruct (existsb (fun b => sql_eq (pqc_ref (booking_cols b)) (pqc_ref v))
                    (bookings d)); [discriminate|].
  match goal with
  | |- context [select_flight ?x ?y] =>
      change (select_flight x y) with (select_flight d (booking_flight_id v))
  end.
  destruct (select_seat_by_id _ _); [|discriminate].
  destruct (select_flight d (booking_flight_id v)) as [f|]; [|discriminate].
  intros _. repeat split. now exists f.
Qed.

Lemma execute_create_booking_created (q : trinity) (data : booking_request)
      (e : entropy) (d : db) (resp : response) :
  answer (Session.create_booking (Ok tt) q (Some data) e d) = Ok resp ->
  status resp = 201%Z ->
  exists s qrng_ref e1 kyber e2 dilithium e3 f,
    select_seat d (flight_id_of data) (row_num_of data) (col_num_of data) = Some s
    /\ is_booked s = false
    /\ qrng q e = Ok (qrng_ref, e1)
    /\ kem q (passport_of data) e1 = Ok (kyber, e2)
    /\ dsa q qrng_ref (seat_id s) (flight_id_of data) (passenger_name_of data) e2
       = Ok (dilithium, e3)
    /\ sendable (booking_row data s qrng_ref kyber dilithium) = true
    /\ (fits (booking_row data s qrng_ref kyber dilithium) = true \/ strict = false)
    /\ existsb (fun b => sql_eq (pqc_ref (booking_cols b))
                           (pqc_ref (stored_row (booking_row data s qrng_ref kyber
                                                   dilithium))))
               (bookings d) = false
    /\ select_flight d (flight_id_of data) = Some f
    /\ resp = booking_confirmation (bookings_auto_increment d) qrng_ref
                (passenger_name_of data) f (seat_id s) (row_num_of data)
                (col_num_of data) (seat_class s) kyber dilithium
    /\ stored (Session.create_booking (Ok tt) q (Some data) e d)
       = booked_state d s (stored_row (booking_row data s qrng_ref kyber dilithium)).
Proof.
  intros Hrun Hstatus.
  assert (Hrb : forall ex c l,
             answer (execute (Ok tt) rolled_back (rolled_back ex) d c l) = Ok resp ->
             False).
  { intros ex c l Hr. apply execute_rolled_back_answer in Hr.
    rewrite Hr in Hstatus. discriminate. }
  assert (Hob : forall ex c l,
             answer (observe (Ok tt) (rolled_back ex) d c l) = Ok resp -> False).
  { intros ex c l Hr. apply observe_rolled_back_answer in Hr.
    rewrite Hr in Hstatus. discriminate. }
  destruct (missing_fields data) as [|m ms] eqn:Hmissing.
  2:{ unfold Session.create_booking, create_booking_with in Hrun.
      rewrite Hmissing in Hrun. cbn in Hrun. injection Hrun as <-. discriminate. }
  destruct (encodable (row_num_of data) && encodable (col_num_of data)) eqn:Hp.
  2:{ unfold Session.create_booking, create_booking_with in Hrun.
      rewrite Hmissing in Hrun. cbn [execute app] in Hrun. rewrite Hp in Hrun.
      now apply Hob in Hrun. }
  apply andb_true_iff in Hp. destruct Hp as [Hrow Hcol].
  destruct (select_seat d (flight_id_of data) (row_num_of data) (col_num_of data))
    as [s|] eqn:Hseat.
  2:{ unfold Session.create_booking, create_booking_with in Hrun.
      rewrite Hmissing in Hrun. cbn [execute app] in Hrun.
      rewrite Hrow, Hcol, view_fresh, Hseat in Hrun.
      cbn in Hrun. injection Hrun as <-. discriminate. }
  pose proof (execute_create_booking_locked q data e d s Hmissing Hrow Hcol Hseat)
    as Hlocked.
  rewrite Hlocked in Hrun. rewrite Hlocked. clear Hlocked.
  destruct (is_booked s) eqn:Hfree.
  { cbn in Hrun. injection Hrun as <-. discriminate. }
  destruct (qrng q e) as [[qrng_ref e1]|ex] eqn:Eq; [|now apply Hrb in Hrun].
  destruct (kem q (passport_of data) e1) as [[kyber e2]|ex] eqn:Ek;
    [|now apply Hrb in Hrun].
  destruct (dsa q qrng_ref (seat_id s) (flight_id_of data)
              (passenger_name_of data) e2) as [[dilithium e3]|ex] eqn:Es;
    [|now apply Hrb in Hrun].
  set (v := booking_row data s qrng_ref kyber dilithium) in *.
  cbn [execute] in Hrun. cbn [execute].
  destruct (sendable v) eqn:Hsend; cbn [negb] in Hrun |- *;
    [|now apply Hob in Hrun].
  destruct (negb (fits v) && strict) eqn:Hwide.
  { now apply Hrb in Hrun. }
  unfold insert_booking in Hrun |- *.
  assert (Hin : In s (seats d)).
  { unfold select_seat in Hseat. now apply find_some in Hseat. }
  assert (Hsid : booking_seat_id (stored_row v) = seat_id s).
  { unfold stored_row. now destruct (fits v). }
  assert (Hfid : booking_flight_id (stored_row v) = flight_id_of data).
  { unfold stored_row. now destruct (fits v). }
  destruct (insert_violation _ (stored_row v)) eqn:Ei.
  { now apply Hrb in Hrun. }
  destruct (insert_after_update d s (stored_row v) Hin Hsid Ei)
    as (_ & Hnew & f & Hflight).
  rewrite Hfid in Hflight.
  cbn [execute] in Hrun |- *.
  match type of Hrun with
  | context [select_flight ?x ?y] =>
      change (select_flight x y) with (select_flight d (flight_id_of data)) in Hrun |- *
  end.
  rewrite Hflight in Hrun |- *. cbn [execute answer stored] in Hrun |- *.
  injection Hrun as <-.
  exists s, qrng_ref, e1, kyber, e2, dilithium, e3, f.
  repeat split; try assumption; try reflexivity.
  change (fits v = true \/ strict = false).
  destruct (fits v); [now left | right]. exact Hwide.
Qed.

(** The columns a verification reads are stored as they were sent when
    each of them fits. *)
Lemma stored_row_ticket (v : booking_values) :
  fits v = true
  \/ (fits_varchar 100 (pqc_ref v) = true
      /\ fits_varchar 255 (Store.passenger_name v) = true
      /\ fits_text (pqc_signature v) = true
      /\ fits_text (ticket_data_hash v) = true) ->
  pqc_ref (stored_row v) = pqc_ref v
  /\ booking_seat_id (stored_row v) = booking_seat_id v
  /\ booking_flight_id (stored_row v) = booking_flight_id v
  /\ Store.passenger_name (stored_row v) = Store.passenger_name v
  /\ pqc_signature (stored_row v) = pqc_signature v
  /\ ticket_data_hash (stored_row v) = ticket_data_hash v.
Proof.
  unfold stored_row. intros [Hfits | (Href & Hname & Hsig & Hhash)].
  - rewrite Hfits. repeat split.
  - destruct (fits v); [repeat split|].
    unfold clipped, clip_text, fits_varchar in *.
    cbn [pqc_ref booking_seat_id booking_flight_id Store.passenger_name
         pqc_signature ticket_data_hash].
    rewrite Hsig, Hhash.
    apply Nat.leb_le in Href, Hname.
    rewrite !firstn_all2 by assumption. repeat split.
Qed.

(** X3.  A booking that was confirmed verifies.  When [create_booking]
    has answered 201, a verification request with the booking reference of
    that answer, served on the state the booking left, is answered 200 with
    [verified] true; it issues the SELECT and nothing else.  The passenger
    name has at most 255 characters, the width of its column, unless the
    server is strict (and so refuses a longer one instead of truncating
    it).  The digests are taken with their sizes and the collation of the
    database with reflexivity. *)
Theorem confirmed_booking_is_verified (data : booking_request) (e : entropy)
        (d : db) (resp : response) :
  sha256_is_32_bytes ->
  sha512_is_64_bytes ->
  collation_reflexive ->
  strict = true \/ (List.length (passenger_name_of data) <= 255)%nat ->
  answer (Session.create_booking (Ok tt) quantum_trinity (Some data) e d) = Ok resp ->
  status resp = 201%Z ->
  exists ref resp',
    jget2 "booking" "booking_ref" (body resp) = Some (JStr ref)
    /\ Session.verify_ticket (Ok tt) (Some {| req_booking_ref := Some ref |})
         (stored (Session.create_booking (Ok tt) quantum_trinity (Some data) e d))
       = {| answer := Ok resp';
            stored := stored (Session.create_booking (Ok tt) quantum_trinity
                                (Some data) e d);
            session := fresh_conn;
            log := [Connected; BookingSelected ref] |}
    /\ status resp' = 200%Z
    /\ jget2 "data" "verified" (body resp') = Some (JBool true).
Proof.
  intros Hsha256 Hsha Hrefl Hname Hrun Hstatus.
  destruct (execute_create_booking_created quantum_trinity data e d resp Hrun Hstatus)
    as (s & ref & e1 & ky & e2 & dl & e3 & f & Hseat & _ & Eq & _ & Es & Hsend
        & Hfits & Hnew & Hflight & -> & ->).
  cbn [quantum_trinity qrng dsa] in Eq, Es.
  assert (Eref : ref = fst (generate_quantum_entropy e))
    by (apply Ok_inj in Eq; now rewrite Eq).
  pose proof (generate_quantum_entropy_format e) as Hfmt. rewrite <- Eref in Hfmt.
  destruct (dilithium_sign_encodes _ _ _ _ _ _ _ Es) as (mb & Henc).
  destruct (dilithium_sign_eq ref (seat_id s) (flight_id_of data)
              (passenger_name_of data) e2 mb Henc) as (r0 & Hr0 & Hsig & Hhash).
  rewrite Es in Hr0. apply Ok_inj in Hr0. injection Hr0 as <- _.
  destruct (signed_ticket_verifies ref (seat_id s) (flight_id_of data)
              (passenger_name_of data) e2 mb Hsha Henc) as (r & e' & Hr & Hv).
  rewrite Es in Hr. apply Ok_inj in Hr. injection Hr as <- _.
  assert (Hin : In s (seats d)).
  { unfold select_seat in Hseat. now apply find_some in Hseat. }
  set (v := booking_row data s ref ky dl) in *.
  assert (Hcols : fits v = true
                  \/ (fits_varchar 100 (pqc_ref v) = true
                      /\ fits_varchar 255 (Store.passenger_name v) = true
                      /\ fits_text (pqc_signature v) = true
                      /\ fits_text (ticket_data_hash v) = true)).
  { destruct Hfits as [Hfits | Hlenient]; [now left | right].
    destruct Hname as [Hstrict | Hname]; [congruence|].
    unfold v. cbn [booking_row pqc_ref Store.passenger_name pqc_signature
                   ticket_data_hash].
    split; [|split; [|split]].
    - unfold fits_varchar. apply Nat.leb_le.
      destruct Hfmt as (_ & _ & _ & _ & _ & _ & _ & _ & ->). lia.
    - unfold fits_varchar. now apply Nat.leb_le.
    - apply fits_text_short. rewrite Hsig. unfold b64text. rewrite length_map.
      pose proof (b64encode_length
                    (hmac_sha512 mock_private_key mb ++ fst (token_bytes 3000 e2)))
        as Hb.
      rewrite length_app, token_bytes_length in Hb.
      assert (Hmac : List.length (hmac_sha512 mock_private_key mb) = 64%nat)
        by (apply hmac_digest_length, Hsha).
      rewrite Hmac in Hb. lia.
    - apply fits_text_short. rewrite Hhash, hex_length, Hsha256. lia. }
  destruct (stored_row_ticket v Hcols) as (Cref & Csid & Cfid & Cname & Csig & Chash).
  assert (Href : pqc_ref (stored_row v) = ref) by exact Cref.
  assert (Hflight' : select_flight d (booking_flight_id (stored_row v)) = Some f)
    by (rewrite Cfid; exact Hflight).
  destruct (select_new_booking d s (stored_row v) f Hrefl Hnew Hin Csid Hflight')
    as (s' & Hsel).
  rewrite Href in Hsel.
  assert (Hsendable : encodable ref = true).
  { unfold sendable in Hsend. repeat (apply andb_true_iff in Hsend;
                                      destruct Hsend as [Hsend _]).
    exact Hsend. }
  exists ref. eexists. split; [reflexivity|].
  unfold Session.verify_ticket, Server.verify_ticket. cbn [execute app].
  rewrite (reference_normalised ref Hfmt), Hsendable, view_fresh, Hsel.
  cbn [booking_cols]. rewrite Cref, Csid, Cfid, Cname, Csig, Chash.
  unfold v at 1 2 3 4 5 6.
  cbn [booking_row pqc_ref booking_seat_id booking_flight_id Store.passenger_name
       pqc_signature ticket_data_hash].
  rewrite Hv. cbn [execute]. split; [reflexivity|]. split; reflexivity.
Qed.

(** X6.  Booking a free seat succeeds.  When the request is complete and
    addresses a seat that is not booked, the three cryptographic services
    return, the values of the new row can be sent and fit their columns
    (100 characters for the reference, 255 for the name, 65535 octets for
    each TEXT column),
    no booking row refers to the seat, the new reference equals that of no
    stored booking and the flight exists, the handler answers 201 with the
    next id of the bookings table.  It issues the locking read, the UPDATE,
    the INSERT, the read of the flight and COMMIT, in this order, which
    stores the row as sent and leaves the connection without lock or
    buffered write; the seat, read again at the same coordinates, is
    booked. *)
Theorem free_seat_gets_booked (q : trinity) (data : booking_request) (e : entropy)
        (d : db) (s : seat) (f : flight) (ref : str)
        (kyber : kyber_result) (dilithium : dilithium_result)
        (e1 e2 e3 : entropy) :
  missing_fields data = [] ->
  encodable (row_num_of data) = true ->
  encodable (col_num_of data) = true ->
  select_seat d (flight_id_of data) (row_num_of data) (col_num_of data) = Some s ->
  is_booked s = false ->
  qrng q e = Ok (ref, e1) ->
  kem q (passport_of data) e1 = Ok (kyber, e2) ->
  dsa q ref (seat_id s) (flight_id_of data) (passenger_name_of data) e2
  = Ok (dilithium, e3) ->
  sendable (booking_row data s ref kyber dilithium) = true ->
  (List.length ref <= 100)%nat ->
  (List.length (passenger_name_of data) <= 255)%nat ->
  N.of_nat (utf8_length (capsule kyber)) <= 65535 ->
  N.of_nat (utf8_length (encrypted_data kyber)) <= 65535 ->
  N.of_nat (utf8_length (nonce kyber)) <= 65535 ->
  N.of_nat (utf8_length (signature dilithium)) <= 65535 ->
  N.of_nat (utf8_length (data_hash dilithium)) <= 65535 ->
  existsb (fun b => (booking_seat_id (booking_cols b) =? seat_id s)%Z) (bookings d)
  = false ->
  existsb (fun b => sql_eq (pqc_ref (booking_cols b)) ref) (bookings d) = false ->
  select_flight d (flight_id_of data) = Some f ->
  Session.create_booking (Ok tt) q (Some data) e d
  = {| answer :=
         Ok (booking_confirmation (bookings_auto_increment d) ref
               (passenger_name_of data) f (seat_id s) (row_num_of data)
               (col_num_of data) (seat_class s) kyber dilithium);
       stored := booked_state d s (booking_row data s ref kyber dilithium);
       session := fresh_conn;
       log := [Connected; TransactionStarted;
               SeatSelectedForUpdate (flight_id_of data) (row_num_of data)
                 (col_num_of data);
               SeatUpdated (seat_id s);
               BookingInserted (booking_row data s ref kyber dilithium);
               FlightSelected (flight_id_of data);
               Committed] |}
  /\ exists s',
      select_seat (booked_state d s (booking_row data s ref kyber dilithium))
        (flight_id_of data) (row_num_of data) (col_num_of data) = Some s'
      /\ seat_id s' = seat_id s /\ is_booked s' = true.
Proof.
  intros Hmissing Hrow Hcol Hseat Hfree Eq Ek Es Hsend Wref Wname Wcapsule Wdata
         Wnonce Wsig Whash Hnone Hnew Hflight.
  assert (Hfits : fits (booking_row data s ref kyber dilithium) = true).
  { unfold fits, fits_varchar, fits_text, TEXT_OCTETS.
    cbn [booking_row pqc_ref Store.passenger_name kyber_capsule passport_enc
         encryption_nonce pqc_signature ticket_data_hash].
    apply Nat.leb_le in Wref, Wname.
    apply N.leb_le in Wcapsule, Wdata, Wnonce, Wsig, Whash.
    now rewrite Wref, Wname, Wcapsule, Wdata, Wnonce, Wsig, Whash. }
  assert (Hin : In s (seats d)).
  { unfold select_seat in Hseat. now apply find_some in Hseat. }
  split.
  - rewrite (execute_create_booking_locked q data e d s Hmissing Hrow Hcol Hseat).
    rewrite Hfree, Eq, Ek, Es. cbn [execute app].
    rewrite Hsend, Hfits. cbn [negb andb]. unfold stored_row. rewrite Hfits.
    unfold insert_booking.
    match goal with
    | |- context [insert_violation ?v ?x] =>
        assert (Hok : insert_violation v x = None)
    end.
    { unfold insert_violation.
      cbn [booking_row booking_seat_id pqc_ref booking_flight_id].
      match goal with
      | |- context [existsb _ (bookings ?v)] =>
          change (bookings v) with (bookings d)
      end.
      rewrite Hnone, Hnew.
      unfold select_seat_by_id, select_flight in *.
      match goal with
      | |- context [find _ (seats ?v)] =>
          change (seats v) with (map (set_booked (seat_id s)) (seats d));
          change (flights v) with (flights d)
      end.
      rewrite Hflight.
      destruct (find_exists (fun x => seat_id x =? seat_id s)%Z
                  (map (set_booked (seat_id s)) (seats d))
                  (set_booked (seat_id s) s)) as (y & ->);
        [now apply in_map | | reflexivity].
      unfold set_booked. rewrite Z.eqb_refl. apply Z.eqb_refl. }
    rewrite Hok. cbn [execute app].
    match goal with
    | |- context [select_flight ?v ?x] =>
        change (select_flight v x) with (select_flight d (flight_id_of data))
    end.
    rewrite Hflight. reflexivity.
  - exists (set_booked (seat_id s) s).
    rewrite select_seat_booked, Hseat. cbn [option_map].
    unfold set_booked. rewrite Z.eqb_refl. now repeat split.
Qed.

End LiveConnection.

(** The theorems on a live connection, on the seeded database. *)

Section LiveConnectionScenario.

Import Libs Store Server Session Assumptions Scenario.

#[local] Existing Instance environment.
#[local] Existing Instance hashlib.
#[local] Existing Instance aesgcm.
#[local] Existing Instance unicode.
#[local] Existing Instance collation.
#[local] Existing Instance strict_server.

Lemma already_booked_rolls_back_with_conflict_witness :
  Session.create_booking (Ok tt) quantum_trinity (Some ada_1A) zeros database
  = {| answer := Ok (seat_already_booked (row_num_of ada_1A) (col_num_of ada_1A));
       stored := database;
       session := fresh_conn;
       log := [Connected; TransactionStarted;
               SeatSelectedForUpdate (flight_id_of ada_1A) (row_num_of ada_1A)
                 (col_num_of ada_1A);
               RolledBack] |}
  /\ status (seat_already_booked (row_num_of ada_1A) (col_num_of ada_1A)) = 409%Z.
Proof.
  apply (already_booked_rolls_back_with_conflict quantum_trinity ada_1A zeros
           database seat_1A);
    reflexivity.
Defined.

Lemma crypto_failure_rolls_back_witness :
  exists en,
    Session.create_booking (Ok tt) quantum_trinity (Some unencodable) zeros database
    = en
    /\ stored en = database
    /\ pending (session en) = []
    /\ select_seat (stored en) (flight_id_of unencodable) (row_num_of unencodable)
         (col_num_of unencodable) = Some seat_5A
    /\ bookings (stored en) = bookings database
    /\ if is_Exception UnicodeEncodeError then
         (exists resp, answer en = Ok resp /\ status resp = 500%Z)
         /\ session en = fresh_conn
         /\ log en = [Connected; TransactionStarted;
                      SeatSelectedForUpdate (flight_id_of unencodable)
                        (row_num_of unencodable) (col_num_of unencodable);
                      RolledBack]
       else
         answer en = Raise UnicodeEncodeError
         /\ log en = [Connected; TransactionStarted;
                      SeatSelectedForUpdate (flight_id_of unencodable)
                        (row_num_of unencodable) (col_num_of unencodable)].
Proof.
  apply (crypto_failure_rolls_back quantum_trinity unencodable zeros database
           seat_5A UnicodeEncodeError);
    reflexivity.
Defined.

Lemma unmatched_reference_is_not_verified_witness :
  Session.verify_ticket (Ok tt)
    (Some {| req_booking_ref := Some (lit "QREF-DEAD-BEEF-0000") |}) (snd booked)
  = {| answer := Ok booking_not_found;
       stored := snd booked;
       session := fresh_conn;
       log := [Connected;
               BookingSelected (upper (strip (lit "QREF-DEAD-BEEF-0000")))] |}
  /\ status booking_not_found = 200%Z
  /\ jget "success" (body booking_not_found) = Some (JBool true)
  /\ option_map (jget "verified") (jget "data" (body booking_not_found))
     = Some (Some (JBool false)).
Proof.
  apply (unmatched_reference_is_not_verified (lit "QREF-DEAD-BEEF-0000") (snd booked));
    vm_compute; reflexivity.
Defined.

Lemma confirmed_booking_is_verified_witness :
  exists ref resp',
    jget2 "booking" "booking_ref" (body confirmation) = Some (JStr ref)
    /\ Session.verify_ticket (Ok tt) (Some {| req_booking_ref := Some ref |})
         (stored (Session.create_booking (Ok tt) quantum_trinity (Some ada) zeros
                    database))
       = {| answer := Ok resp';
            stored := stored (Session.create_booking (Ok tt) quantum_trinity
                                (Some ada) zeros database);
            session := fresh_conn;
            log := [Connected; BookingSelected ref] |}
    /\ status resp' = 200%Z
    /\ jget2 "data" "verified" (body resp') = Some (JBool true).
Proof.
  apply (confirmed_booking_is_verified ada zeros database confirmation).
  - exact scenario_sha256.
  - exact scenario_sha512.
  - exact scenario_collation_reflexive.
  - left. reflexivity.
  - vm_compute. reflexivity.
  - vm_compute. reflexivity.
Defined.

Lemma free_seat_gets_booked_witness :
  exists ref kyber dilithium,
    Session.create_booking (Ok tt) quantum_trinity (Some ada) zeros database
    = {| answer :=
           Ok (booking_confirmation (bookings_auto_increment database) ref
                 (passenger_name_of ada) flight_1 (seat_id seat_5A) (row_num_of ada)
                 (col_num_of ada) (seat_class seat_5A) kyber dilithium);
         stored := booked_state database seat_5A
                     (booking_row ada seat_5A ref kyber dilithium);
         session := fresh_conn;
         log := [Connected; TransactionStarted;
                 SeatSelectedForUpdate (flight_id_of ada) (row_num_of ada)
                   (col_num_of ada);
                 SeatUpdated (seat_id seat_5A);
                 BookingInserted (booking_row ada seat_5A ref kyber dilithium);
                 FlightSelected (flight_id_of ada);
                 Committed] |}
    /\ exists s',
        select_seat (booked_state database seat_5A
                       (booking_row ada seat_5A ref kyber dilithium))
          (flight_id_of ada) (row_num_of ada) (col_num_of ada) = Some s'
        /\ seat_id s' = seat_id seat_5A /\ is_booked s' = true.
Proof.
  pose (ref := fst (generate_quantum_entropy zeros)).
  pose (e1 := snd (generate_quantum_entropy zeros)).
  pose (sealed := kyber_encrypt (passport_of ada) e1).
  pose (kyber := match sealed with
                 | Ok (k, _) => k
                 | Raise _ => {| capsule := []; encrypted_data := []; nonce := [] |}
                 end).
  pose (e2 := match sealed with Ok (_, e') => e' | Raise _ => e1 end).
  pose (signed := dilithium_sign ref (seat_id seat_5A) (flight_id_of ada)
                    (passenger_name_of ada) e2).
  pose (dilithium := match signed with
                     | Ok (r, _) => r
                     | Raise _ => {| signature := []; data_hash := [];
                                     algorithm := []; message_preview := [] |}
                     end).
  pose (e3 := match signed with Ok (_, e') => e' | Raise _ => e2 end).
  exists ref, kyber, dilithium.
  apply (free_seat_gets_booked quantum_trinity ada zeros database seat_5A flight_1
           ref kyber dilithium e1 e2 e3).
  1-9: vm_compute; reflexivity.
  1-2: apply Nat.leb_le; vm_compute; reflexivity.
  1-5: apply N.leb_le; vm_compute; reflexivity.
  all: vm_compute; reflexivity.
Defined.

(** A passenger name of 256 characters, one more than its column holds.
    A strict server refuses the INSERT: the handler rolls back and answers
    500.  A server that is not strict stores the first 255 characters and
    the booking is confirmed, but the signature was made over the whole
    name: the verification of that booking answers [verified] false. *)
Lemma overlong_name_is_refused_or_truncated :
  let long_name :=
    {| req_flight_id := Some 1%Z;
       req_row := Some (lit "5");
       req_col := Some (lit "A");
       req_name := Some (repeat 65 256);
       req_passport := Some (lit "P000111") |} in
  let refused :=
    @Session.create_booking collation strict_server unicode
      (Ok tt) quantum_trinity (Some long_name) zeros database in
  let truncated :=
    @Session.create_booking collation lenient_server unicode
      (Ok tt) quantum_trinity (Some long_name) zeros database in
  option_map status (match answer refused with Ok r => Some r | Raise _ => None end)
  = Some 500%Z
  /\ stored refused = database
  /\ session refused = fresh_conn
  /\ last (log refused) Connected = RolledBack
  /\ option_map status (match answer truncated with Ok r => Some r | Raise _ => None end)
     = Some 201%Z
  /\ map (fun b => List.length (Store.passenger_name (booking_cols b)))
         (bookings (stored truncated)) = [255%nat]
  /\ exists resp,
      answer (@Session.verify_ticket collation lenient_server unicode hashlib
                (Ok tt)
                (Some {| req_booking_ref := Some (fst (generate_quantum_entropy zeros)) |})
                (stored truncated)) = Ok resp
      /\ status resp = 200%Z
      /\ jget2 "data" "verified" (body resp) = Some (JBool false).
Proof.
  cbv zeta. repeat split; try (vm_compute; reflexivity).
  eexists. split; [vm_compute; reflexivity|]. split; reflexivity.
Qed.

(** C9 as stated fails for a reference that cannot be sent.  The lone
    surrogate U+D800 (the JSON escape \ud800) is the reference of no stored
    booking, yet the request is answered with status 500 and [success]
    false: [cursor.execute] raises while it converts the parameter, whether
    the connector lets the codec's error through or wraps it, and the
    [except] clause of the handler answers.  The same happens when no
    connection can be obtained. *)
Lemma unencodable_reference_is_an_error :
  forallb (fun b => negb (sql_eq (pqc_ref (booking_cols b)) (upper (strip [0xD800]))))
          (bookings (snd booked)) = true
  /\ (exists resp,
         answer (Session.verify_ticket (Ok tt)
                   (Some {| req_booking_ref := Some [0xD800] |}) (snd booked))
         = Ok resp
         /\ status resp = 500%Z
         /\ jget "success" (body resp) = Some (JBool false)
         /\ jget "data" (body resp) = None)
  /\ (exists resp,
         answer (@Session.verify_ticket collation wrapping_connector unicode hashlib
                   (Ok tt) (Some {| req_booking_ref := Some [0xD800] |}) (snd booked))
         = Ok resp
         /\ status resp = 500%Z
         /\ jget "success" (body resp) = Some (JBool false)
         /\ jget "data" (body resp) = None)
  /\ (exists resp,
         answer (Session.verify_ticket
                   (Raise (DatabaseError "2003 (HY000): Can't connect to MySQL server on 'localhost:3306'"))
                   (Some {| req_booking_ref := Some (lit "QREF-DEAD-BEEF-0000") |})
                   (snd booked))
         = Ok resp
         /\ status resp = 500%Z
         /\ jget "success" (body resp) = Some (JBool false)).
Proof.
  split; [vm_compute; reflexivity|].
  split; [|split]; eexists; (split; [vm_compute; reflexivity|]);
    repeat split.
Qed.

End LiveConnectionScenario.

(** ** Tampered ciphertexts, in either backend *)

Section TamperedCiphertexts.

Import Config Libs Installed.
Context {caps : Capabilities} {hashlib : Hashlib} {pycryptodome : PyCryptodome}
        {oqs : Oqs}.

(** AES-GCM decryption of a ciphertext and tag of which one octet was
    replaced. *)
Lemma aes_decrypt_altered (key nonce plaintext c t altered : bytes) :
  PYCRYPTODOME_AVAILABLE = true ->
  gcm_correct ->
  gcm_tamper_evident ->
  gcm_encrypt_and_digest key nonce plaintext = (c, t) ->
  differ_in_one_octet altered (c ++ t) ->
  altered <> []
  /\ exists msg, Decryptor.aes_decrypt key altered nonce = Raise (ValueError msg).
Proof.
  intros Haes Hgcm Hauth Egcm Hdiff.
  destruct (Hgcm _ _ _ _ _ Egcm) as [Ht _].
  assert (Hlen : List.length altered = (List.length c + 16)%nat).
  { destruct Hdiff as (i & x & _ & _ & ->).
    now rewrite length_tamper, length_app, Ht. }
  split.
  { intros E. rewrite E in Hlen. cbn in Hlen. lia. }
  unfold Decryptor.aes_decrypt. rewrite Haes.
  rewrite slice_to_tail, slice_from_tail, Hlen.
  replace (List.length c + 16 - 16)%nat with (List.length c) by lia.
  destruct (Hauth _ _ _ _ _ (firstn (List.length c) altered)
              (skipn (List.length c) altered) Egcm) as (msg & Hrej).
  - rewrite firstn_length_le; [reflexivity | lia].
  - now rewrite firstn_skipn.
  - now exists msg.
Qed.

(** What the encryption with liboqs returns, with the size of its nonce. *)
Lemma kyber_encrypt_real_fields (plaintext : bytes) (e : entropy) :
  PYCRYPTODOME_AVAILABLE = true ->
  exists (d : json) (e' e1 e2 : entropy)
         (public_key private_key encapsulated shared nonce ciphertext tag : bytes),
    Encryptor.kyber_encrypt_real plaintext e = Ok (d, e')
    /\ kem_generate_keypair QuantumConfig.KYBER_VARIANT e
       = ((public_key, private_key), e1)
    /\ kem_encap_secret QuantumConfig.KYBER_VARIANT public_key e1
       = ((encapsulated, shared), e2)
    /\ List.length nonce = 12%nat
    /\ gcm_encrypt_and_digest (Encryptor.hkdf_derive_key shared) nonce plaintext
       = (ciphertext, tag)
    /\ jget "ciphertext" d = Some (JStr (b64text (ciphertext ++ tag)))
    /\ jget "encapsulated_key" d = Some (JStr (b64text encapsulated))
    /\ jget "nonce" d = Some (JStr (b64text nonce))
    /\ jget "private_key" d = Some (JStr (bytes_to_hex private_key)).
Proof.
  intros Haes. unfold Encryptor.kyber_encrypt_real, Encryptor.aes_encrypt.
  rewrite Haes.
  destruct (kem_generate_keypair QuantumConfig.KYBER_VARIANT e)
    as [[pk sk] e1] eqn:Ekp.
  destruct (kem_encap_secret QuantumConfig.KYBER_VARIANT pk e1)
    as [[enc ss] e2] eqn:Eenc.
  pose proof (token_bytes_length 12 e2) as Hn.
  destruct (token_bytes 12 e2) as [nonce e3]. cbn [fst] in Hn.
  destruct (gcm_encrypt_and_digest (Encryptor.hkdf_derive_key ss) nonce plaintext)
    as [c t] eqn:Egcm.
  cbn [bind]. rewrite !b64encode_str_eq. cbn [bind].
  eexists _, _, e1, e2, pk, sk, enc, ss, nonce, c, t.
  split; [reflexivity|]. repeat split; solve [assumption | reflexivity].
Qed.

(** C6.  Take the ciphertext (with its appended tag) that encryption
    returned for a plaintext and replace any one of its octets, in the
    ciphertext or in the tag, by a different octet.  Then [decrypt], called
    with the encapsulated key, the nonce and the private key that
    encryption returned, returns no plaintext at all: it raises the
    [ValueError] of the failed tag check, which [main] reports as an
    integrity failure.  This holds in both backends, the simulated one and
    the one with liboqs.  The libraries are taken with their contracts:
    AES-GCM has a 16-octet tag and rejects a ciphertext and tag that differ
    in one octet from genuine ones; liboqs, when present, decapsulates what
    it encapsulated, and its keys and encapsulations are not empty. *)
Theorem tampered_ciphertext_is_refused (P : str) (Pb : bytes) (e : entropy) :
  PYCRYPTODOME_AVAILABLE = true ->
  gcm_correct ->
  gcm_tamper_evident ->
  (LIBOQS_AVAILABLE = true -> kem_correct /\ kem_nonempty) ->
  P <> [] ->
  utf8_encode P = Ok Pb ->
  exists (d : json) (e' : entropy) (ciphertext_with_tag : bytes)
         (encapsulated_key nonce private_key : str),
    Encryptor.encrypt P e = Ok (d, e')
    /\ jget "ciphertext" d = Some (JStr (b64text ciphertext_with_tag))
    /\ jget "encapsulated_key" d = Some (JStr encapsulated_key)
    /\ jget "nonce" d = Some (JStr nonce)
    /\ jget "private_key" d = Some (JStr private_key)
    /\ forall altered : bytes,
         differ_in_one_octet altered ciphertext_with_tag ->
         exists msg,
           Decryptor.decrypt (b64text altered) encapsulated_key nonce private_key
           = Raise (ValueError msg)
           /\ Decryptor.main (Decryptor.request (b64text altered) encapsulated_key
                                nonce private_key)
              = Raise (Decryptor.integrity_failure msg).
Proof.
  intros Haes Hgcm Hauth Hoqs HP Henc.
  destruct LIBOQS_AVAILABLE eqn:Hbackend.
  - (* liboqs *)
    destruct (Hoqs eq_refl) as [Hkem Hsizes].
    destruct (kyber_encrypt_real_fields Pb e Haes)
      as (d & e' & e1 & e2 & pk & sk & enc & ss & nonce & c & t
          & Hd & Ekp & Eenc & Hn & Egcm & Fc & Fk & Fn & Fp).
    pose proof (Hkem _ _ _ _ _ _ _ _ Ekp Eenc) as Hdecap.
    destruct (Hsizes _ _ _ _ _ _ _ _ Ekp Eenc) as [Hsk Henc'].
    exists d, e', (c ++ t), (b64text enc), (b64text nonce), (bytes_to_hex sk).
    split.
    { unfold Encryptor.encrypt. destruct P; [congruence|].
      rewrite Henc. cbn [bind]. now rewrite Hbackend. }
    split; [exact Fc|]. split; [exact Fk|]. split; [exact Fn|]. split; [exact Fp|].
    intros altered Hdiff.
    destruct (aes_decrypt_altered _ _ _ _ _ _ Haes Hgcm Hauth Egcm Hdiff)
      as (Hne & msg & Hrej).
    assert (Hraise : Decryptor.decrypt (b64text altered) (b64text enc)
                       (b64text nonce) (bytes_to_hex sk) = Raise (ValueError msg)).
    { unfold Decryptor.decrypt. rewrite Hbackend. unfold Decryptor.kyber_decrypt_real.
      rewrite !b64decode_b64text. cbn [bind].
      unfold hex_to_bytes, bytes_to_hex. rewrite fromhex_hex. cbn [bind].
      rewrite Hdecap. cbn [bind]. rewrite hkdf_derive_key_same, Hrej. reflexivity. }
    exists msg. split; [exact Hraise|].
    apply main_reports_integrity_failure; try assumption.
    + now apply b64text_nonempty.
    + now apply b64text_nonempty.
    + apply b64text_nonempty. intros E. rewrite E in Hn. discriminate.
    + intros E. apply hex_eq_nil in E. now apply Hsk.
  - (* the simulation *)
    destruct (kyber_encrypt_mock_parts Pb e Haes)
      as (d & e' & skb & secret & rest & nonce & c & t
          & Hd & Hss & Hsk & Hn & Egcm & Fc & Fk & Fn & Fp).
    exists d, e', (c ++ t), (b64text (secret ++ rest)), (b64text nonce),
      (bytes_to_hex skb).
    split; [now rewrite (encrypt_is_mock P Pb e Hbackend HP Henc)|].
    split; [exact Fc|]. split; [exact Fk|]. split; [exact Fn|]. split; [exact Fp|].
    intros altered Hdiff.
    destruct (aes_decrypt_altered _ _ _ _ _ _ Haes Hgcm Hauth Egcm Hdiff)
      as (Hne & msg & Hrej).
    assert (Hraise : Decryptor.decrypt (b64text altered) (b64text (secret ++ rest))
                       (b64text nonce) (bytes_to_hex skb) = Raise (ValueError msg)).
    { unfold Decryptor.decrypt. rewrite Hbackend.
      rewrite (kyber_decrypt_mock_parts _ _ _ _ _ Hss).
      now rewrite Hrej. }
    exists msg. split; [exact Hraise|].
    apply main_reports_integrity_failure; try assumption.
    + now apply b64text_nonempty.
    + apply b64text_nonempty. intros E. apply (f_equal (@List.length byte)) in E.
      rewrite length_app, Hss in E. discriminate.
    + apply b64text_nonempty. intros E. rewrite E in Hn. discriminate.
    + intros E. apply hex_eq_nil in E. rewrite E in Hsk. discriminate.
Qed.

End TamperedCiphertexts.

(** The theorem with liboqs installed. *)

Section TamperedCiphertextsScenario.

Import Config Libs Installed.

#[local] Existing Instance Installed.all_installed.
#[local] Existing Instance Scenario.hashlib.
#[local] Existing Instance Scenario.pycryptodome.
#[local] Existing Instance Installed.liboqs.

Lemma installed_kem_nonempty : kem_nonempty.
Proof.
  intros variant e e1 e2 pk sk enc ss Ekp Eenc.
  cbn [kem_generate_keypair kem_encap_secret Installed.liboqs] in *.
  apply keypair_same in Ekp. destruct Ekp as [<- Hpk].
  destruct (token_bytes 32 e1) as [shared e'].
  injection Eenc as <- _ _. split; [exact Hpk|].
  intros E. apply app_eq_nil in E. now destruct E.
Qed.

Lemma tampered_ciphertext_is_refused_witness :
  exists (d : json) (e' : entropy) (ciphertext_with_tag : bytes)
         (encapsulated_key nonce private_key : str),
    Encryptor.encrypt Scenario.passport Scenario.zeros = Ok (d, e')
    /\ jget "ciphertext" d = Some (JStr (b64text ciphertext_with_tag))
    /\ jget "encapsulated_key" d = Some (JStr encapsulated_key)
    /\ jget "nonce" d = Some (JStr nonce)
    /\ jget "private_key" d = Some (JStr private_key)
    /\ forall altered : bytes,
         differ_in_one_octet altered ciphertext_with_tag ->
         exists msg,
           Decryptor.decrypt (b64text altered) encapsulated_key nonce private_key
           = Raise (ValueError msg)
           /\ Decryptor.main (Decryptor.request (b64text altered) encapsulated_key
                                nonce private_key)
              = Raise (Decryptor.integrity_failure msg).
Proof.
  apply (tampered_ciphertext_is_refused Scenario.passport (blit "P000111")
           Scenario.zeros).
  - reflexivity.
  - exact scenario_gcm_correct.
  - exact scenario_gcm_tamper_evident.
  - intros _. split; [exact installed_kem_correct | exact installed_kem_nonempty].
  - discriminate.
  - reflexivity.
Defined.

End TamperedCiphertextsScenario.
